(** * TorchExecutor: training, validation and checkpointing control loop

    A shallow embedding of [engines/torch_executor.py].  The Python
    class [TorchExecutor] drives an opaque model and an opaque dataset;
    what is verified here is the control flow around them: the weight
    initialisation chain of [__init__], [store_model], [validation],
    [load_model], [train] and [predict_directory].

    Conventions of the embedding:
    - Python [int] is [Z]; Python [float] is [pyfloat] (a rational or
      NaN: finite doubles are read as the rationals they denote, the
      rounding of float arithmetic is not modelled, except for the
      [int -> float] conversion of [(i + 1) % 1e+5], which is; of a
      computed float the theorems state only comparisons, bounds and
      values that rounding keeps);
    - [None]-able arguments are [option];
    - effects (filesystem, standard output, optimizer steps) are
      threaded through a state-and-exception monad [M] over [world];
    - the collaborators (model capabilities, dataset, torch) are not part
      of the file: what they return is supplied by the record [env]. *)

From Stdlib Require Import ZArith QArith String Ascii List Lia DecimalString.
From stdpp Require Import base option gmap strings list.
Import ListNotations.

Set Warnings "-register-all".
Local Open Scope string_scope.
Local Open Scope list_scope.
Local Open Scope Z_scope.

(** ** Python values *)

Module Py.

(** The fragment of Python's object universe the driver's tests of
    truthiness range over. *)
Inductive value :=
| VNone
| VBool (b : bool)
| VInt (n : Z)
| VStr (s : string)
| VTuple (items : list value).

(** [bool(v)]: [None], [False], [0], the empty string and the empty
    tuple are falsy, everything else is truthy. *)
Definition truthy (v : value) : bool :=
  match v with
  | VNone => false
  | VBool b => b
  | VInt n => negb (n =? 0)
  | VStr s => negb (String.length s =? 0)%nat
  | VTuple items => negb (length items =? 0)%nat
  end.

(** [x is not None] *)
Definition is_not_none (v : value) : bool :=
  match v with VNone => false | _ => true end.

(** An optional integer argument as a Python value. *)
Definition of_opt (o : option Z) : value :=
  match o with None => VNone | Some n => VInt n end.

(** [a and b] on two booleans-as-values. *)
Definition and_ (a b : bool) : value := VBool (a && b).

(** [pat in s] on strings: substring test. *)
Fixpoint contains (pat s : string) : bool :=
  String.prefix pat s ||
  match s with
  | EmptyString => false
  | String _ rest => contains pat rest
  end.

(** [str(n)] for an integer. *)
Definition str (n : Z) : string := NilZero.string_of_int (Z.to_int n).

(** An exception: its class and its message. *)
Record exn := Exn { exn_class : string; exn_msg : string }.

Definition ZeroDivisionError_float : exn :=
  Exn "ZeroDivisionError" "float division by zero".
Definition ZeroDivisionError_int : exn :=
  Exn "ZeroDivisionError" "integer division or modulo by zero".
Definition SystemExit : exn := Exn "SystemExit" "".
Definition AssertionError (msg : string) : exn := Exn "AssertionError" msg.

End Py.

(** ** Floats *)

(** A Python float: a finite value, read as a rational, or NaN. *)
Inductive pyfloat :=
| Fin (q : Q)
| NaN.

Module F.

Definition of_Z (n : Z) : pyfloat := Fin (inject_Z n).

Definition add (a b : pyfloat) : pyfloat :=
  match a, b with
  | Fin x, Fin y => Fin (x + y)%Q
  | _, _ => NaN
  end.

Definition mul (a b : pyfloat) : pyfloat :=
  match a, b with
  | Fin x, Fin y => Fin (x * y)%Q
  | _, _ => NaN
  end.

(** [a < b]; any comparison with NaN is [False]. *)
Definition ltb (a b : pyfloat) : bool :=
  match a, b with
  | Fin x, Fin y => match (x ?= y)%Q with Lt => true | _ => false end
  | _, _ => false
  end.

(** [a > b] *)
Definition gtb (a b : pyfloat) : bool := ltb b a.

(** [a <= b] *)
Definition leb (a b : pyfloat) : bool :=
  match a, b with
  | Fin x, Fin y => match (x ?= y)%Q with Gt => false | _ => true end
  | _, _ => false
  end.

Definition is_fin (a : pyfloat) : bool :=
  match a with Fin _ => true | NaN => false end.

(** [a == b]; false with NaN. *)
Definition eqb (a b : pyfloat) : bool :=
  match a, b with
  | Fin x, Fin y => Qeq_bool x y
  | _, _ => false
  end.

(** The very same float (the same fraction, or NaN twice). *)
Definition same (a b : pyfloat) : bool :=
  match a, b with
  | Fin x, Fin y => (Qnum x =? Qnum y) && (Qden x =? Qden y)%positive
  | NaN, NaN => true
  | _, _ => false
  end.

End F.

(** [float(n)] for an integer [n], as the integer the resulting double
    denotes: round to a 53-bit significand, ties to even.  [None] is
    Python's [OverflowError: int too large to convert to float]. *)
Definition round_to_53 (n : Z) : Z :=
  let bits := Z.log2 n + 1 in
  if bits <=? 53 then n
  else
    let sh := bits - 53 in
    let q := Z.shiftr n sh in
    let r := Z.land n (Z.ones sh) in
    let half := Z.shiftl 1 (sh - 1) in
    let q' := if (half <? r) || ((r =? half) && Z.odd q) then q + 1 else q in
    Z.shiftl q' sh.

Definition float_of_int (n : Z) : option Z :=
  let m := Z.sgn n * round_to_53 (Z.abs n) in
  if Z.abs m <? 2 ^ 1024 then Some m else None.

(** ** Tensors, parameters and pickled objects *)

Record tensor := Tensor { shape : list nat; data : list pyfloat }.

(** [model.named_parameters()]: the parameter tensors under their names,
    in registration order. *)
Definition params := list (string * tensor).

Inductive device := cuda | cpu.

(** The two module objects the driver handles: the caller's network
    ([self._model]) and the [torch.nn.DataParallel] adapter around it.
    The adapter shares the network's parameter tensors, so a handle
    carries no parameters of its own: they live in the [world]. *)
Inductive module_ref :=
| BaseModel
| DataParallel (d : device).

(** What [torch.save] writes and [torch.load] reads back: a whole module
    (with a snapshot of its parameters) or a parameter state only. *)
Inductive pyobj :=
| OModule (m : module_ref) (snapshot : params)
| OStateDict (sd : params).

(** ** Output lines

    Lines whose text embeds formatted floats or wall-clock readings are
    kept structured: the rendering of [:0.5f] and the value of
    [time.time()] are not modelled. *)
Inductive line :=
| Text (s : string)
| CurrentStep (current_step : Z)
| LossLine (i max_train_steps : Z) (loss : pyfloat)
| ValidLine (i max_train_steps : Z) (valid_loss accuracy norm_ED : pyfloat)
| BestLine (best_accuracy best_norm_ed : pyfloat)
| ModelDump (m : module_ref) (p : params).

(** ** The world: filesystem, shared parameters, history *)

Inductive chunk :=
| Pickled (o : pyobj)
| Written (l : line).

Inductive node :=
| Dir
| File (content : list chunk).

Inductive event :=
| EvPrint (l : line)
| EvMakedirs (path : string)
| EvSave (path : string) (o : pyobj)
| EvLogWrite (path : string) (l : line)
| EvOptimizerStep.

(** [fs] maps a path, as the code spells it, to what is there.  Failures
    of the operating system itself are outside the model: a write replaces
    whatever is at its path (no permissions, no full disk, no refusal to
    write over a directory); a read of what is not there does fail.  [net] is the one store of the network's parameter tensors,
    which [self._model] and every adapter around it alias;
    [training] is the mode flag [model.train()] / [model.eval()] set.
    [trace] is what the process has done so far, oldest first. *)
Record world := World {
  fs : gmap string node;
  net : params;
  training : bool;
  trace : list event
}.

Definition init_world (files : gmap string node) (p : params) : world :=
  World files p true [].

(** ** A state-and-exception monad *)

Inductive outcome (A : Type) :=
| Ret (a : A) (w : world)
| Raise (e : Py.exn) (w : world)
| OutOfFuel.
Arguments Ret {A} a w.
Arguments Raise {A} e w.
Arguments OutOfFuel {A}.

Definition M (A : Type) := world -> outcome A.

Definition ret {A} (a : A) : M A := fun w => Ret a w.
Definition raise {A} (e : Py.exn) : M A := fun w => Raise e w.
Definition bind {A B} (m : M A) (k : A -> M B) : M B :=
  fun w =>
    match m w with
    | Ret a w' => k a w'
    | Raise e w' => Raise e w'
    | OutOfFuel => OutOfFuel
    end.

Declare Scope py_scope.
Delimit Scope py_scope with py.
Notation "x <- m ;; k" := (bind m (fun x => k))
  (at level 100, m at next level, right associativity) : py_scope.
Notation "m ;;; k" := (bind m (fun _ => k))
  (at level 100, right associativity) : py_scope.
Notation "'when' b 'then' m" := (if b then m else ret tt)
  (at level 10, b at level 200, m at level 200) : py_scope.
Local Open Scope py_scope.

Definition get_world : M world := fun w => Ret w w.
Definition emit (e : event) : M unit :=
  fun w => Ret tt (World (fs w) (net w) (training w) (trace w ++ [e])).
Definition print (l : line) : M unit := emit (EvPrint l).
Definition set_fs (f : gmap string node) : M unit :=
  fun w => Ret tt (World f (net w) (training w) (trace w)).
Definition set_net (p : params) : M unit :=
  fun w => Ret tt (World (fs w) p (training w) (trace w)).
Definition set_training (b : bool) : M unit :=
  fun w => Ret tt (World (fs w) (net w) b (trace w)).

(** The lines printed so far. *)
Definition stdout (w : world) : list line :=
  omap (fun e => match e with EvPrint l => Some l | _ => None end) (trace w).

(** ** The operating system and torch, as far as the driver calls them *)

Module OS.

(** [os.path.exists(p)] *)
Definition exists_ (p : string) (w : world) : bool :=
  match fs w !! p with Some _ => true | None => false end.

(** The directories [os.makedirs(p)] has to provide: every prefix of [p]
    that ends before a ['/'], and [p] itself. *)
Fixpoint dir_prefixes (acc s : string) : list string :=
  match s with
  | EmptyString => [acc]
  | String c rest =>
      let tail := dir_prefixes (acc +:+ String c EmptyString) rest in
      if Ascii.eqb c "/" && negb (String.eqb acc EmptyString)
      then acc :: tail else tail
  end.

Definition mkdir_if_absent (f : gmap string node) (d : string) : gmap string node :=
  match f !! d with Some _ => f | None => <[d := Dir]> f end.

(** [os.makedirs(p)]: fails when [p] is already there. *)
Definition makedirs (p : string) : M unit :=
  w <- get_world ;;
  if exists_ p w then raise (Py.Exn "FileExistsError" p)
  else
    set_fs (fold_left mkdir_if_absent (dir_prefixes EmptyString p) (fs w)) ;;;
    emit (EvMakedirs p).

(** [open(p, 'a')]: the file is created when it is not there. *)
Definition open_append (p : string) : M unit :=
  w <- get_world ;;
  match fs w !! p with
  | Some (File _) => ret tt
  | _ => set_fs (<[p := File []]> (fs w))
  end.

(** [log.write(l)] on a file opened for appending at [p]. *)
Definition write (p : string) (l : line) : M unit :=
  w <- get_world ;;
  let old := match fs w !! p with Some (File c) => c | _ => [] end in
  set_fs (<[p := File (old ++ [Written l])]> (fs w)) ;;;
  emit (EvLogWrite p l).

End OS.

Module Torch.

(** [torch.save(obj, p)]: the file at [p] is replaced by the pickle. *)
Definition save (o : pyobj) (p : string) : M unit :=
  w <- get_world ;;
  set_fs (<[p := File [Pickled o]]> (fs w)) ;;;
  emit (EvSave p o).

(** [torch.load(p)] *)
Definition load (p : string) : M pyobj :=
  w <- get_world ;;
  match fs w !! p with
  | None => raise (Py.Exn "FileNotFoundError" p)
  | Some Dir => raise (Py.Exn "IsADirectoryError" p)
  | Some (File [Pickled o]) => ret o
  | Some (File _) => raise (Py.Exn "UnpicklingError" p)
  end.

(** The keys of [m.state_dict()].  A [DataParallel] adapter holds the
    network as its attribute [module], so every key of the network comes
    back under the prefix [module.].  The state of the network is its
    parameters: buffers are not modelled. *)
Definition state_key (m : module_ref) (name : string) : string :=
  match m with
  | BaseModel => name
  | DataParallel _ => "module." +:+ name
  end.

(** [state_dict[k]], if the key is there. *)
Definition lookup_key (k : string) (sd : params) : option tensor :=
  match List.find (fun kt => String.eqb (fst kt) k) sd with
  | Some kt => Some (snd kt)
  | None => None
  end.

Definition shape_eqb (a b : list nat) : bool := bool_decide (a = b).

(** What [load_state_dict] does to one parameter: the tensor found under
    the parameter's key is copied in when its shape is the parameter's;
    otherwise the parameter stays as it is. *)
Definition load_parameter (m : module_ref) (sd : params) (np : string * tensor)
  : string * tensor :=
  match lookup_key (state_key m (fst np)) sd with
  | Some t => if shape_eqb (shape t) (shape (snd np)) then (fst np, t) else np
  | None => np
  end.

(** The three lists of complaints of a strict [load_state_dict]: keys of
    the module the state lacks, keys of the state the module does not
    have, and parameters found under their key with another shape. *)
Definition missing_keys (m : module_ref) (ps sd : params) : list string :=
  List.filter (fun k => match lookup_key k sd with Some _ => false | None => true end)
              (map (fun np => state_key m (fst np)) ps).

Definition unexpected_keys (m : module_ref) (ps sd : params) : list string :=
  List.filter (fun k => negb (existsb (String.eqb k)
                                      (map (fun np => state_key m (fst np)) ps)))
              (map fst sd).

Definition size_mismatches (m : module_ref) (ps sd : params) : list string :=
  map (fun np => state_key m (fst np))
      (List.filter (fun np => match lookup_key (state_key m (fst np)) sd with
                              | Some t => negb (shape_eqb (shape t) (shape (snd np)))
                              | None => false
                              end) ps).

(** [m.load_state_dict(obj)], strict as it is by default.  A whole module
    is not a state dict and is refused before anything is copied (with an
    [AttributeError] or a [TypeError], by the version of torch; only that
    it raises matters here).  For a state dict, the parameters that are
    found with their shape are copied first; then, if there was any
    complaint, [RuntimeError] is raised, with those copies made.  (The
    reading of a one-element vector as a scalar parameter, kept for
    checkpoints of torch 0.3, is left out.) *)
Definition load_state_dict (m : module_ref) (o : pyobj) : M unit :=
  match o with
  | OStateDict sd =>
      w <- get_world ;;
      set_net (map (load_parameter m sd) (net w)) ;;;
      match missing_keys m (net w) sd, unexpected_keys m (net w) sd,
            size_mismatches m (net w) sd with
      | [], [], [] => ret tt
      | _, _, _ => raise (Py.Exn "RuntimeError" "Error(s) in loading state_dict")
      end
  | OModule _ _ => raise (Py.Exn "TypeError" "Expected state_dict to be dict-like")
  end.

(** [tensor.fill_(v)] *)
Definition fill_ (t : tensor) (v : pyfloat) : tensor :=
  Tensor (shape t) (repeat v (length (data t))).

(** The two functions of [torch.nn.init] the constructor calls.  Each
    either returns the re-initialised tensor or raises, in which case the
    tensor is as it was. *)
Record init_lib := InitLib {
  constant_ : tensor -> pyfloat -> Py.exn + tensor;
  kaiming_normal_ : tensor -> Py.exn + tensor
}.

(** [torch.nn.init] itself, up to the random draw [sample]:
    [constant_] fills; [kaiming_normal_] cannot compute fan-in and fan-out
    of a tensor with fewer than two dimensions and raises [ValueError],
    and otherwise overwrites the data with the draw. *)
Definition nn_init (sample : tensor -> list pyfloat) : init_lib :=
  InitLib
    (fun t v => inr (fill_ t v))
    (fun t =>
       if (length (shape t) <? 2)%nat
       then inl (Py.Exn "ValueError"
                   "Fan in and fan out can not be computed for tensor with fewer than 2 dimensions")
       else inr (Tensor (shape t) (sample t))).

End Torch.

(** ** Collaborators *)

(** One batch of [validation_set()], together with what the model's
    [get_predictions] and [get_accuracy] answer on it. *)
Record vbatch := VBatch {
  vb_size : nat;                 (* image_tensors.size(0) *)
  vb_forward_time : pyfloat;
  vb_cost : pyfloat;
  vb_preds : list string;
  vb_labels : list string;
  vb_n_correct : Z;
  vb_norm_ED : pyfloat
}.

(** One batch of [serving_set(path)] with the model's predictions on it. *)
Record sbatch := SBatch {
  sb_size : nat;
  sb_paths : list string;        (* image_path_list *)
  sb_preds : list string         (* get_predictions(..., labels=None) *)
}.

(** The executor's configuration and its collaborators.  The answers of
    the collaborators may depend on everything that has happened so far,
    and so are functions of the [world]; they are assumed to return.
    [self._max_train_steps] is assigned by [ExecutorBase.__init__], which
    is not among the sources: it is taken to hold the constructor's
    argument. *)
Record env := Env {
  experiment_name : string;
  max_train_steps : Z;
  validation_interval_steps : Z;
  stored_model : string;
  model_class_name : string;              (* self._model.__class__.__name__ *)
  the_device : device;                    (* TorchExecutor.device *)
  num_samples : Z;                        (* len(self._dataset) *)
  batch_size : Z;                         (* self._dataset._batch_size *)
  get_cost : world -> pyfloat;            (* cost of the batch get_batch() returns *)
  optimizer_step : world -> params;       (* parameters after backward, clipping, step *)
  validation_set : world -> list vbatch;
  serving_set : string -> world -> list sbatch
}.

(** [for x in xs: body(x)] *)
Fixpoint for_each {A} (xs : list A) (body : A -> M unit) : M unit :=
  match xs with
  | [] => ret tt
  | x :: rest => body x ;;; for_each rest body
  end.

(** [s * n] on a string. *)
Fixpoint str_mul (s : string) (n : nat) : string :=
  match n with
  | O => EmptyString
  | S k => s +:+ str_mul s k
  end.

Definition tab : string := String (ascii_of_nat 9) EmptyString.

(** ** The running mean *)

Module Averager.

(** Modelled from the spec: the class [Averager] of
    [dataset.scene_text_recognition.utils] is not among the sources.  The
    spec's MetricAccumulator: [add] folds a scalar into a running sum and
    count, [val] returns sum/count and fails when the count is 0, [reset]
    zeroes both. *)
Record t := Make { sum : pyfloat; n_count : Z }.

Definition new : t := Make (F.of_Z 0) 0.

Definition add (a : t) (v : pyfloat) : t := Make (F.add (sum a) v) (n_count a + 1).

Definition reset (a : t) : t := new.

Definition val (a : t) : M pyfloat :=
  if n_count a =? 0 then raise Py.ZeroDivisionError_float
  else ret (F.mul (sum a) (Fin (/ inject_Z (n_count a)))).

End Averager.

(** ** The executor *)

Module TorchExecutor.

(** [m.__class__.__name__] *)
Definition class_name (E : env) (m : module_ref) : string :=
  match m with
  | BaseModel => model_class_name E
  | DataParallel _ => "DataParallel"
  end.

(** *** [__init__]: weight initialization *)

Definition skip_marker : string := "localization_fc2".

(** One turn of the loop over [model.named_parameters()]: the tensor the
    parameter holds afterwards, and the line printed, if any. *)
Definition init_parameter (T : Torch.init_lib) (name : string) (param : tensor)
  : tensor * option line :=
  if Py.contains skip_marker name
  then (param, Some (Text ("Skip " +:+ name +:+ " as it is already initialized")))
  else
    let attempt :=
      if Py.contains "bias" name then Torch.constant_ T param (F.of_Z 0)
      else if Py.contains "weight" name then Torch.kaiming_normal_ T param
      else inr param in
    match attempt with
    | inr param' => (param', None)
    | inl _ =>
        if Py.contains "weight" name then (Torch.fill_ param (F.of_Z 1), None)
        else (param, None)
    end.

Fixpoint init_parameters (T : Torch.init_lib) (ps : params) : M params :=
  match ps with
  | [] => ret []
  | (name, param) :: rest =>
      let '(param', out) := init_parameter T name param in
      match out with Some l => print l | None => ret tt end ;;;
      rest' <- init_parameters T rest ;;
      ret ((name, param') :: rest')
  end.

(** The weight-initialization loop of the constructor, on the shared
    parameter store. *)
Definition init_weights (T : Torch.init_lib) : M unit :=
  w <- get_world ;;
  ps <- init_parameters T (net w) ;;
  set_net ps.

(** *** [store_model] *)

Definition store_dir (E : env) (m : module_ref) : string :=
  "./store/" +:+ experiment_name E +:+ "/" +:+ class_name E m.

Definition store_path (E : env) (m : module_ref) (file_name : string) : string :=
  store_dir E m +:+ "/" +:+ file_name.

Definition store_model (E : env) (model : module_ref) (file_name : string) : M unit :=
  w <- get_world ;;
  (when negb (OS.exists_ (store_dir E model) w)
   then OS.makedirs (store_dir E model)) ;;;
  w <- get_world ;;
  Torch.save (OModule model (net w)) (store_path E model file_name).

(** *** [validation] *)

(** The local variables of [validation] while it walks the loader.
    [last] is [preds_str, labels], unbound until the first batch. *)
Record vstate := VState {
  n_correct : Z;
  norm_ED : pyfloat;
  length_of_data : Z;
  infer_time : pyfloat;
  valid_loss_avg : Averager.t;
  last : option (list string * list string)
}.

Definition vstate0 : vstate :=
  VState 0 (F.of_Z 0) 0 (F.of_Z 0) Averager.new None.

Definition validation_batch (s : vstate) (b : vbatch) : vstate :=
  VState (n_correct s + vb_n_correct b)
         (F.add (norm_ED s) (vb_norm_ED b))
         (length_of_data s + Z.of_nat (vb_size b))
         (F.add (infer_time s) (vb_forward_time b))
         (Averager.add (valid_loss_avg s) (vb_cost b))
         (Some (vb_preds b, vb_labels b)).

(** The tuple [validation] returns. *)
Record vresult := VResult {
  r_valid_loss : pyfloat;
  r_accuracy : pyfloat;
  r_norm_ED : pyfloat;
  r_preds : list string;
  r_labels : list string;
  r_infer_time : pyfloat;
  r_length_of_data : Z
}.

Definition validation (E : env) (model : module_ref) : M vresult :=
  w <- get_world ;;
  let s := fold_left validation_batch (validation_set E w) vstate0 in
  (* accuracy = n_correct / float(length_of_data) * 100 *)
  if length_of_data s =? 0 then raise Py.ZeroDivisionError_float
  else
    let accuracy :=
      F.mul (F.mul (F.of_Z (n_correct s)) (Fin (/ inject_Z (length_of_data s))))
            (F.of_Z 100) in
    valid_loss <- Averager.val (valid_loss_avg s) ;;
    match last s with
    | None => raise (Py.Exn "UnboundLocalError" "preds_str")
    | Some (preds_str, labels) =>
        ret (VResult valid_loss accuracy (norm_ED s) preds_str labels
                     (infer_time s) (length_of_data s))
    end.

(** *** [load_model] *)

Definition load_model (E : env) (path : string) : M module_ref :=
  let model := DataParallel (the_device E) in
  w <- get_world ;;
  (when OS.exists_ path w
   then (print (Text ("loading pretrained model from " +:+ stored_model E)) ;;;
         o <- Torch.load (stored_model E) ;;
         Torch.load_state_dict model o)) ;;;
  print (Text "Model:") ;;;
  w <- get_world ;;
  print (ModelDump model (net w)) ;;;
  ret model.

(** *** [train] *)

(** The assertion of line 113 tests a two-element tuple: the condition and
    the message. *)
Definition config_assertion (num_max_steps num_epoch : option Z) : Py.value :=
  Py.VTuple
    [Py.and_ (Py.is_not_none (Py.of_opt num_max_steps))
             (Py.is_not_none (Py.of_opt num_epoch));
     Py.VStr "Use steps or epoch at a time"].

(** [assert v] *)
Definition assert_ (v : Py.value) : M unit :=
  if Py.truthy v then ret tt else raise (Py.AssertionError "").

(** [total_num_steps] as lines 122 to 132 compute it. *)
Definition total_num_steps (E : env) (num_max_steps num_epoch : option Z) : M Z :=
  if batch_size E =? 0 then raise Py.ZeroDivisionError_int
  else
    let num_steps_per_epoch := num_samples E / batch_size E in
    let total := -1 in
    let total :=
      match num_epoch with
      | Some e => if Py.truthy (Py.VInt e) then num_steps_per_epoch * e else total
      | None => total
      end in
    let total :=
      match num_max_steps with
      | Some n => if Py.truthy (Py.VInt n) then n else total
      | None => total
      end in
    ret total.

(** The variables the loop of [train] updates. *)
Record loop_state := LoopState {
  current_step : Z;
  i : Z;
  best_accuracy : pyfloat;
  best_norm_ed : pyfloat;
  loss_avg : Averager.t
}.

Definition loop_state0 : loop_state :=
  LoopState 0 0 (F.of_Z (-1)) (F.of_Z 1000000) Averager.new.

Definition log_dir (E : env) : string := "./store/" +:+ experiment_name E.
Definition log_path (E : env) : string := log_dir E +:+ "/log_train.txt".

(** Lines 145 to 158: one optimization step. *)
Definition train_part (E : env) (s : loop_state) : M loop_state :=
  print (CurrentStep (current_step s)) ;;;
  w <- get_world ;;
  let cost := get_cost E w in
  set_net (optimizer_step E w) ;;;
  emit EvOptimizerStep ;;;
  ret (LoopState (current_step s) (i s) (best_accuracy s) (best_norm_ed s)
                 (Averager.add (loss_avg s) cost)).

(** Lines 191 to 197: keep the best models. *)
Definition keep_best (E : env) (model : module_ref) (s : loop_state)
  (current_accuracy current_norm_ed : pyfloat) : M loop_state :=
  s <- (if F.gtb current_accuracy (best_accuracy s)
        then
          store_model E model "best_accuracy.pth" ;;;
          ret (LoopState (current_step s) (i s) current_accuracy (best_norm_ed s)
                         (loss_avg s))
        else ret s) ;;
  (if F.ltb current_norm_ed (best_norm_ed s)
   then
     store_model E model "best_norm_ed.pth" ;;;
     ret (LoopState (current_step s) (i s) (best_accuracy s) current_norm_ed
                    (loss_avg s))
   else ret s).

(** Lines 162 to 201: one validation round. *)
Definition validation_round (E : env) (model : module_ref) (s : loop_state)
  : M loop_state :=
  loss <- Averager.val (loss_avg s) ;;
  print (LossLine (i s) (max_train_steps E) loss) ;;;
  w <- get_world ;;
  (when negb (OS.exists_ (log_dir E) w) then OS.makedirs (log_dir E)) ;;;
  OS.open_append (log_path E) ;;;
  loss <- Averager.val (loss_avg s) ;;
  OS.write (log_path E) (LossLine (i s) (max_train_steps E) loss) ;;;
  let s := LoopState (current_step s) (i s) (best_accuracy s) (best_norm_ed s)
                     (Averager.reset (loss_avg s)) in
  set_training false ;;;
  r <- validation E model ;;
  set_training true ;;;
  let valid_log :=
    ValidLine (i s) (max_train_steps E) (r_valid_loss r) (r_accuracy r) (r_norm_ED r) in
  print valid_log ;;;
  OS.write (log_path E) valid_log ;;;
  s <- keep_best E model s (r_accuracy r) (r_norm_ED r) ;;
  let best_model_log := BestLine (best_accuracy s) (best_norm_ed s) in
  print best_model_log ;;;
  OS.write (log_path E) best_model_log ;;;
  ret s.

(** [(i + 1) % 1e+5 == 0]: the integer is converted to a float first; the
    float remainder is exact. *)
Definition iter_checkpoint_due (i : Z) : M bool :=
  match float_of_int (i + 1) with
  | None => raise (Py.Exn "OverflowError" "int too large to convert to float")
  | Some x => ret (x mod 100000 =? 0)
  end.

Definition iter_file_name (i : Z) : string := "iter_" +:+ Py.str (i + 1) +:+ ".pth".

(** Line 161: the validation part runs when [i] is a multiple of the
    interval. *)
Definition validation_part (E : env) (model : module_ref) (s : loop_state)
  : M loop_state :=
  if validation_interval_steps E =? 0 then raise Py.ZeroDivisionError_int
  else if i s mod validation_interval_steps E =? 0
       then validation_round E model s
       else ret s.

(** Lines 203 to 205: save model per 1e+5 iter. *)
Definition iter_checkpoint (E : env) (model : module_ref) (s : loop_state) : M unit :=
  due <- iter_checkpoint_due (i s) ;;
  (when due then store_model E model (iter_file_name (i s))).

(** Lines 207 to 209. *)
Definition exit_check (E : env) (s : loop_state) : M unit :=
  (when i s =? max_train_steps E
   then (print (Text "end the training") ;;; raise Py.SystemExit)).

(** Lines 211 and 212. *)
Definition advance (s : loop_state) : loop_state :=
  LoopState (current_step s + 1) (i s + 1) (best_accuracy s) (best_norm_ed s)
            (loss_avg s).

(** The body of the [while] loop, lines 144 to 212. *)
Definition train_body (E : env) (model : module_ref) (s : loop_state) : M loop_state :=
  s <- train_part E s ;;
  s <- validation_part E model s ;;
  iter_checkpoint E model s ;;;
  exit_check E s ;;;
  ret (advance s).

(** [while (current_step < total_num_steps): ...] *)
Fixpoint train_loop (E : env) (model : module_ref) (total : Z) (fuel : nat)
  (s : loop_state) : M unit :=
  if current_step s <? total
  then
    match fuel with
    | O => fun _ => OutOfFuel
    | S fuel' => s' <- train_body E model s ;; train_loop E model total fuel' s'
    end
  else ret tt.

Definition train (E : env) (num_max_steps num_epoch : option Z) : M unit :=
  assert_ (config_assertion num_max_steps num_epoch) ;;;
  model <- load_model E (stored_model E) ;;
  set_training true ;;;
  total <- total_num_steps E num_max_steps num_epoch ;;
  train_loop E model total (Z.to_nat total) loop_state0.

(** *** [predict_directory] *)

Definition predict_batch (b : sbatch) : M unit :=
  print (Text (str_mul "-" 80)) ;;;
  print (Text ("image_path" +:+ tab +:+ "predicted_labels")) ;;;
  print (Text (str_mul "-" 80)) ;;;
  for_each (combine (sb_paths b) (sb_preds b))
           (fun '(img_name, pred) => print (Text (img_name +:+ tab +:+ pred))).

Definition predict_directory (E : env) (in_path out_path : string) : M unit :=
  multi_gpu_model <- load_model E (stored_model E) ;;
  w <- get_world ;;
  let dataset := serving_set E in_path w in
  set_training false ;;;
  for_each dataset predict_batch.

End TorchExecutor.

Import TorchExecutor.

(** ** Concrete configurations used as examples *)

(** A validation batch of four samples, three of them read correctly. *)
Definition toy_vbatch : vbatch :=
  VBatch 4 (Fin 0) (Fin 1) ["a"; "b"; "c"; "d"] ["a"; "b"; "c"; "x"] 3 (Fin 0.5).

(** Twenty samples in batches of four, validation every five steps, ten
    training steps, nothing stored beforehand. *)
Definition toy_env : env :=
  Env "toy" 10 5 "" "Model" cpu 20 4
      (fun _ => Fin 1) (fun w => net w) (fun _ => [toy_vbatch])
      (fun _ _ => [SBatch 2 ["a.png"; "b.png"] ["x"; "y"]]).

(** The same with a validation set that has no batch. *)
Definition empty_validation_env : env :=
  Env "toy" 10 5 "" "Model" cpu 20 4
      (fun _ => Fin 1) (fun w => net w) (fun _ => [])
      (fun _ _ => []).

(** The toy configuration with [max_train_steps = 0]: the counter [i]
    meets it in the first turn of the loop. *)
Definition exit_env : env :=
  Env "toy" 0 5 "" "Model" cpu 20 4
      (fun _ => Fin 1) (fun w => net w) (fun _ => [toy_vbatch])
      (fun _ _ => []).

Definition toy_world : world := init_world ∅ [].

(** A counter far beyond [2 ^ 53]: [2 ^ 55 * 3125], which is a multiple
    of 100000, so that the counter plus one is not. *)
Definition far_step : Z := 112589990684262400000.
Definition far_state : loop_state :=
  LoopState far_step far_step (F.of_Z 75) (F.of_Z 0) Averager.new.

(** The toy configuration with [max_train_steps = -1], which the counter
    never meets. *)
Definition far_env : env :=
  Env "toy" (-1) 5 "" "Model" cpu 20 4
      (fun _ => Fin 1) (fun w => net w) (fun _ => [toy_vbatch])
      (fun _ _ => []).

Definition far_iter_path : string :=
  "./store/toy/DataParallel/iter_112589990684262400001.pth".

(** The number of samples a loader yields. *)
Definition total_samples (bs : list vbatch) : nat := list_sum (map vb_size bs).

(** A one-dimensional parameter of three entries, as a normalization
    layer has them. *)
Definition toy_vector : tensor := Tensor [3%nat] [Fin 0.5; Fin 0.5; Fin 0.5].

(** [torch.nn.init] with a draw that is constantly 0.25. *)
Definition toy_init : Torch.init_lib :=
  Torch.nn_init (fun t => repeat (Fin 0.25) (length (data t))).

(** What [predict_directory] prints for one batch: the three header lines
    and one line per pair of [zip(image_path_list, preds_str)]. *)
Definition batch_lines (b : sbatch) : list line :=
  [Text (str_mul "-" 80);
   Text ("image_path" +:+ tab +:+ "predicted_labels");
   Text (str_mul "-" 80)]
  ++ map (fun ip => Text (fst ip +:+ tab +:+ snd ip)) (combine (sb_paths b) (sb_preds b)).

Definition is_print (e : event) : bool :=
  match e with EvPrint _ => true | _ => false end.


(** ** Reading a run off its trace *)

Definition is_makedirs (e : event) : bool :=
  match e with EvMakedirs _ => true | _ => false end.

(** The trace without the creation of directories, which depends on what
    the filesystem held before. *)
Definition visible (tr : list event) : list event :=
  List.filter (fun e => negb (is_makedirs e)) tr.

(** The number of optimizer steps taken. *)
Definition optimizer_steps (tr : list event) : nat :=
  length (List.filter (fun e => match e with EvOptimizerStep => true | _ => false end) tr).

(** The values of [i] of the validation blocks appended to the file at
    [p], in order. *)
Definition validation_indices (p : string) (tr : list event) : list Z :=
  omap (fun e => match e with
                 | EvLogWrite q (ValidLine i _ _ _ _) =>
                     if String.eqb p q then Some i else None
                 | _ => None
                 end) tr.

(** The paths [torch.save] wrote to, in order. *)
Definition saved_paths (tr : list event) : list string :=
  omap (fun e => match e with EvSave p _ => Some p | _ => None end) tr.

(** The lines appended to the file at [p]. *)
Definition written_to (p : string) (tr : list event) : list line :=
  omap (fun e => match e with
                 | EvLogWrite q l => if String.eqb p q then Some l else None
                 | _ => None
                 end) tr.

(** A monitor reads a trace from its oldest event on and rejects it by
    answering [None]. *)
Fixpoint run_monitor {S : Type} (step : S -> event -> option S) (s : S)
  (tr : list event) : option S :=
  match tr with
  | [] => Some s
  | e :: tr' =>
      match step s e with
      | Some s' => run_monitor step s' tr'
      | None => None
      end
  end.

(** What a completed validation round leaves in the trace, the creation
    of directories apart: [s] is the loop state the round starts in, [r]
    what [validation] returned, [p] the parameters at the time. *)
Definition round_loss (s : loop_state) : pyfloat :=
  F.mul (Averager.sum (loss_avg s)) (Fin (/ inject_Z (Averager.n_count (loss_avg s)))).

Definition round_best_accuracy (s : loop_state) (r : vresult) : pyfloat :=
  if F.gtb (r_accuracy r) (best_accuracy s) then r_accuracy r else best_accuracy s.

Definition round_best_norm_ed (s : loop_state) (r : vresult) : pyfloat :=
  if F.ltb (r_norm_ED r) (best_norm_ed s) then r_norm_ED r else best_norm_ed s.

Definition round_events (E : env) (model : module_ref) (s : loop_state) (r : vresult)
  (p : params) : list event :=
  let valid_log :=
    ValidLine (i s) (max_train_steps E) (r_valid_loss r) (r_accuracy r) (r_norm_ED r) in
  let best_log := BestLine (round_best_accuracy s r) (round_best_norm_ed s r) in
  [EvPrint (LossLine (i s) (max_train_steps E) (round_loss s));
   EvLogWrite (log_path E) (LossLine (i s) (max_train_steps E) (round_loss s));
   EvPrint valid_log;
   EvLogWrite (log_path E) valid_log]
  ++ (if F.gtb (r_accuracy r) (best_accuracy s)
      then [EvSave (store_path E model "best_accuracy.pth") (OModule model p)] else [])
  ++ (if F.ltb (r_norm_ED r) (best_norm_ed s)
      then [EvSave (store_path E model "best_norm_ed.pth") (OModule model p)] else [])
  ++ [EvPrint best_log; EvLogWrite (log_path E) best_log].

(** The two lines a round has written when [validation] fails. *)
Definition loss_events (E : env) (s : loop_state) : list event :=
  [EvPrint (LossLine (i s) (max_train_steps E) (round_loss s));
   EvLogWrite (log_path E) (LossLine (i s) (max_train_steps E) (round_loss s))].

(** What lines 203 to 205 leave in the trace at counter [i], when
    [float(i + 1)] is [x]. *)
Definition iter_events (E : env) (model : module_ref) (i x : Z) (p : params)
  : list event :=
  if x mod 100000 =? 0
  then [EvSave (store_path E model (iter_file_name i)) (OModule model p)]
  else [].

(** The loop state after the train part, which has seen the cost [cost]. *)
Definition trained (s : loop_state) (cost : pyfloat) : loop_state :=
  LoopState (current_step s) (i s) (best_accuracy s) (best_norm_ed s)
            (Averager.add (loss_avg s) cost).

(** The loop state a completed validation round ends in. *)
Definition round_state (s : loop_state) (r : vresult) : loop_state :=
  LoopState (current_step s) (i s) (round_best_accuracy s r) (round_best_norm_ed s r)
            Averager.new.

(** ** The best-model bookkeeping, in the words of the spec

    A monitor that reads the trace of a run and holds the best accuracy
    and the best normalized edit distance seen so far.  A validation round
    opens when its metrics are printed and closes when the running bests
    are printed.  In between, [best_accuracy.pth] may be stored only if
    the round's accuracy strictly exceeds the best so far, and
    [best_norm_ed.pth] only if its edit distance is strictly below the
    best so far; at the close, each of the two must have been stored
    exactly if it was to be, the bests printed must be the updated ones,
    and neither may have moved the wrong way.  Outside a round neither
    file may be stored. *)

Record round := Round {
  rd_accuracy : pyfloat;
  rd_norm_ed : pyfloat;
  rd_stored_accuracy : bool;
  rd_stored_norm_ed : bool
}.

Record tracker := Tracker {
  t_accuracy : pyfloat;
  t_norm_ed : pyfloat;
  t_round : option round
}.

Definition tracker0 : tracker := Tracker (F.of_Z (-1)) (F.of_Z 1000000) None.

Definition observe (E : env) (model : module_ref) (t : tracker) (e : event)
  : option tracker :=
  match e with
  | EvPrint (ValidLine _ _ _ acc ned) =>
      match t_round t with
      | None => Some (Tracker (t_accuracy t) (t_norm_ed t)
                              (Some (Round acc ned false false)))
      | Some _ => None
      end
  | EvSave p _ =>
      if String.eqb p (store_path E model "best_accuracy.pth")
      then
        match t_round t with
        | Some (Round acc ned false stored_ned) =>
            if F.gtb acc (t_accuracy t)
            then Some (Tracker (t_accuracy t) (t_norm_ed t)
                               (Some (Round acc ned true stored_ned)))
            else None
        | _ => None
        end
      else if String.eqb p (store_path E model "best_norm_ed.pth")
      then
        match t_round t with
        | Some (Round acc ned stored_acc false) =>
            if F.ltb ned (t_norm_ed t)
            then Some (Tracker (t_accuracy t) (t_norm_ed t)
                               (Some (Round acc ned stored_acc true)))
            else None
        | _ => None
        end
      else Some t
  | EvPrint (BestLine a n) =>
      match t_round t with
      | Some (Round acc ned stored_acc stored_ned) =>
          let a' := if F.gtb acc (t_accuracy t) then acc else t_accuracy t in
          let n' := if F.ltb ned (t_norm_ed t) then ned else t_norm_ed t in
          if Bool.eqb stored_acc (F.gtb acc (t_accuracy t))
             && Bool.eqb stored_ned (F.ltb ned (t_norm_ed t))
             && F.same a a' && F.same n n'
             && F.leb (t_accuracy t) a && F.leb n (t_norm_ed t)
          then Some (Tracker a n None)
          else None
      | None => None
      end
  | _ => Some t
  end.

(** The running bests as the run printed them, oldest first. *)
Definition best_lines (tr : list event) : list (pyfloat * pyfloat) :=
  omap (fun e => match e with
                 | EvPrint (BestLine a n) => Some (a, n)
                 | _ => None
                 end) tr.

(** Starting from [a] and [n], the accuracies never decrease and the edit
    distances never increase along [l]. *)
Fixpoint monotone_from (a n : pyfloat) (l : list (pyfloat * pyfloat)) : bool :=
  match l with
  | [] => true
  | (a', n') :: l' => F.leb a a' && F.leb n' n && monotone_from a' n' l'
  end.

(** What the monitor holds between two turns of the loop. *)
Definition tracking (E : env) (model : module_ref) (s : loop_state) (w : world) : Prop :=
  run_monitor (observe E model) tracker0 (visible (trace w))
  = Some (Tracker (best_accuracy s) (best_norm_ed s) None)
  /\ F.is_fin (best_accuracy s) = true
  /\ F.is_fin (best_norm_ed s) = true
  /\ 0 <= Averager.n_count (loss_avg s).

Definition accepted (E : env) (model : module_ref) (w : world) : Prop :=
  exists t, run_monitor (observe E model) tracker0 (visible (trace w)) = Some t.

(** One of the two best-model files of a run. *)
Definition best_file (E : env) (q : string) : Prop :=
  q = store_path E (DataParallel (the_device E)) "best_accuracy.pth"
  \/ q = store_path E (DataParallel (the_device E)) "best_norm_ed.pth".

(** What holds between two turns of the loop in the scenario of ten
    steps with a validation every five. *)
Definition scenario_invariant (E : env) (s : loop_state) (w : world) : Prop :=
  i s = current_step s
  /\ 0 <= i s <= 10
  /\ 0 <= Averager.n_count (loss_avg s)
  /\ optimizer_steps (visible (trace w)) = Z.to_nat (i s)
  /\ validation_indices (log_path E) (visible (trace w))
     = (if i s =? 0 then [] else if i s <=? 5 then [0] else [0; 5])
  /\ Forall (best_file E) (saved_paths (visible (trace w))).

(** What holds between two turns of a run of [far_env] on a budget of
    [far_step + 1] steps. *)
Definition far_invariant (s : loop_state) (w : world) : Prop :=
  i s = current_step s
  /\ 0 <= i s <= far_step + 1
  /\ 0 <= Averager.n_count (loss_avg s)
  /\ (far_step < i s -> In far_iter_path (saved_paths (visible (trace w)))).

(** The lines [load_model] prints. *)
Definition is_banner (e : event) : bool :=
  match e with
  | EvPrint (Text _) | EvPrint (ModelDump _ _) => true
  | _ => false
  end.

(** What the validation part of one turn amounts to when it returns:
    nothing, off the interval, and a completed round on it.  [s1] is the
    loop state after the train part, [p] the parameters then, [s2] the
    loop state afterwards and [vseg] the visible events. *)
Definition validation_outcome (E : env) (model : module_ref) (s1 : loop_state)
  (p : params) (s2 : loop_state) (vseg : list event) : Prop :=
  validation_interval_steps E <> 0
  /\ ((i s1 mod validation_interval_steps E <> 0 /\ s2 = s1 /\ vseg = [])
      \/ (i s1 mod validation_interval_steps E = 0
          /\ exists r w0,
              validation E model w0 = Ret r w0
              /\ s2 = round_state s1 r
              /\ vseg = round_events E model s1 r p)).

(** The two events every turn of the loop starts with. *)
Definition step_events (s : loop_state) : list event :=
  [EvPrint (CurrentStep (current_step s)); EvOptimizerStep].

(** [w'] comes after [w] by the visible events [seg], with the parameters
    as they were. *)
Definition extends (w w' : world) (seg : list event) : Prop :=
  net w' = net w /\ visible (trace w') = visible (trace w) ++ seg.

(** The number of exact matches a loader yields. *)
Definition total_correct (bs : list vbatch) : Z :=
  fold_right Z.add 0 (map vb_n_correct bs).

(** ** The elementary effects of the executor

    Everything the executor does to the world is one of these. *)
Inductive prim :=
| PPrint (l : line)
| POptimizerStep
| PNet (ps : params)
| PTraining (b : bool)
| PMakedirs (d : string)
| POpen (p : string)
| PWrite (p : string) (l : line)
| PSave (p : string) (o : pyobj).

Definition apply_prim (a : prim) (w : world) : world :=
  match a with
  | PPrint l => World (fs w) (net w) (training w) (trace w ++ [EvPrint l])
  | POptimizerStep => World (fs w) (net w) (training w) (trace w ++ [EvOptimizerStep])
  | PNet ps => World (fs w) ps (training w) (trace w)
  | PTraining b => World (fs w) (net w) b (trace w)
  | PMakedirs d =>
      World (fold_left OS.mkdir_if_absent (OS.dir_prefixes EmptyString d) (fs w))
            (net w) (training w) (trace w ++ [EvMakedirs d])
  | POpen p =>
      match fs w !! p with
      | Some (File _) => w
      | _ => World (<[p := File []]> (fs w)) (net w) (training w) (trace w)
      end
  | PWrite p l =>
      let old := match fs w !! p with Some (File c) => c | _ => [] end in
      World (<[p := File (old ++ [Written l])]> (fs w)) (net w) (training w)
            (trace w ++ [EvLogWrite p l])
  | PSave p o =>
      World (<[p := File [Pickled o]]> (fs w)) (net w) (training w)
            (trace w ++ [EvSave p o])
  end.

Definition run_prims (ps : list prim) (w : world) : world :=
  fold_left (fun w a => apply_prim a w) ps w.

(** The executor opens and writes the log of the experiment only, and
    saves under the store directory of the model only. *)
Definition permitted (E : env) (model : module_ref) (a : prim) : Prop :=
  match a with
  | POpen p | PWrite p _ => p = log_path E
  | PSave p _ => exists file_name, p = store_path E model file_name
  | _ => True
  end.

(** A computation all of whose effects are permitted elementary ones. *)
Definition tame (E : env) (model : module_ref) {A : Type} (m : M A) : Prop :=
  forall w,
    match m w with
    | Ret _ w' | Raise _ w' =>
        exists ps, w' = run_prims ps w /\ Forall (permitted E model) ps
    | OutOfFuel => True
    end.

(** The object last saved at [p], if any. *)
Definition last_saved (p : string) (tr : list event) : option pyobj :=
  fold_left (fun acc e => match e with
                          | EvSave q o => if String.eqb q p then Some o else acc
                          | _ => acc
                          end) tr None.

(** What a file holds; nothing, for a directory or no file. *)
Definition content_of (n : option node) : list chunk :=
  match n with Some (File c) => c | _ => [] end.

(** The four facts about the filesystem that every permitted elementary
    effect keeps, relative to the files [files] the run started on. *)
Definition disk_invariant (E : env) (files : gmap string node) (w : world) : Prop :=
  (forall q, is_Some (files !! q) -> is_Some (fs w !! q))
  /\ (forall q n, files !! q = Some n -> q <> log_path E ->
                  ~ In q (saved_paths (trace w)) -> fs w !! q = Some n)
  /\ (last_saved (log_path E) (trace w) = None
      /\ forall p o, last_saved p (trace w) = Some o ->
                     fs w !! p = Some (File [Pickled o]))
  /\ content_of (fs w !! log_path E)
     = content_of (files !! log_path E)
       ++ map Written (written_to (log_path E) (trace w)).

(** The values of the counter below [n] at which a validation is due. *)
Definition due_indices (interval n : Z) : list Z :=
  List.filter (fun k => k mod interval =? 0) (seqZ 0 n).

(** What holds between two turns of the loop of a run on a budget of
    [total] steps. *)
Definition run_invariant (E : env) (total : Z) (s : loop_state) (w : world) : Prop :=
  i s = current_step s
  /\ 0 <= i s <= Z.max total 0
  /\ (max_train_steps E < 0 \/ i s <= max_train_steps E)
  /\ 0 <= Averager.n_count (loss_avg s)
  /\ optimizer_steps (visible (trace w)) = Z.to_nat (i s)
  /\ validation_indices (log_path E) (visible (trace w))
     = due_indices (validation_interval_steps E) (i s).

(** How a run leaves the loop through [sys.exit()]. *)
Definition exit_outcome (E : env) (total : Z) (e : Py.exn) (w : world) : Prop :=
  e = Py.SystemExit
  /\ 0 <= max_train_steps E < total
  /\ optimizer_steps (visible (trace w)) = Z.to_nat (max_train_steps E + 1)
  /\ validation_indices (log_path E) (visible (trace w))
     = due_indices (validation_interval_steps E) (max_train_steps E + 1).

(** The accuracy and the edit distance of the validation rounds, as the
    run printed them, oldest first. *)
Definition valid_lines (tr : list event) : list (pyfloat * pyfloat) :=
  omap (fun e => match e with
                 | EvPrint (ValidLine _ _ _ acc ned) => Some (acc, ned)
                 | _ => None
                 end) tr.

(** Lines 192 to 197 on pairs: the bests [b] so far against the accuracy
    and the edit distance [r] of a round. *)
Definition better (b r : pyfloat * pyfloat) : pyfloat * pyfloat :=
  (if F.gtb (fst r) (fst b) then fst r else fst b,
   if F.ltb (snd r) (snd b) then snd r else snd b).

(** The bests after each of the rounds [rs], starting from [b]. *)
Fixpoint running_bests (b : pyfloat * pyfloat) (rs : list (pyfloat * pyfloat))
  : list (pyfloat * pyfloat) :=
  match rs with
  | [] => []
  | r :: rs' => better b r :: running_bests (better b r) rs'
  end.

(** The bests [train] starts from (lines 140 and 141). *)
Definition first_bests : pyfloat * pyfloat := (F.of_Z (-1), F.of_Z 1000000).

Definition finite_pair (b : pyfloat * pyfloat) : bool :=
  F.is_fin (fst b) && F.is_fin (snd b).

(** What holds of the printed bests between two turns of the loop. *)
Definition bests_invariant (s : loop_state) (w : world) : Prop :=
  best_lines (visible (trace w))
  = running_bests first_bests (valid_lines (visible (trace w)))
  /\ fold_left better (valid_lines (visible (trace w))) first_bests
     = (best_accuracy s, best_norm_ed s)
  /\ F.is_fin (best_accuracy s) = true
  /\ F.is_fin (best_norm_ed s) = true
  /\ 0 <= Averager.n_count (loss_avg s).

(** How a run that stops early leaves the printed bests. *)
Definition bests_outcome (w : world) : Prop :=
  best_lines (visible (trace w))
  = running_bests first_bests (valid_lines (visible (trace w))).

(** The line the constructor prints for a parameter it skips. *)
Definition skip_line (name : string) : line :=
  Text ("Skip " +:+ name +:+ " as it is already initialized").

(** The number of lines [predict_directory] prints for a batch. *)
Definition batch_line_count (b : sbatch) : nat :=
  3 + Nat.min (length (sb_paths b)) (length (sb_preds b)).

(** A stretch of events that prints neither a validation line nor the
    bests. *)
Definition quiet (seg : list event) : Prop :=
  best_lines seg = [] /\ valid_lines seg = [].

(** The toy configuration with a model that answers two images with one
    prediction. *)
Definition short_env : env :=
  Env "toy" 10 5 "" "Model" cpu 20 4
      (fun _ => Fin 1) (fun w => net w) (fun _ => [toy_vbatch])
      (fun _ _ => [SBatch 2 ["a.png"; "b.png"] ["x"]]).


(** * Properties *)

(** ** The configuration assertion *)

(** C5: whatever [num_max_steps] and [num_epoch] are (both [None] and both
    given included), the assertion that opens [train] tests a two-element
    tuple, which is truthy, so the assertion passes and never rejects a
    configuration. *)
Theorem config_assertion_never_fails (num_max_steps num_epoch : option Z) :
  Py.truthy (config_assertion num_max_steps num_epoch) = true
  /\ forall w, assert_ (config_assertion num_max_steps num_epoch) w = Ret tt w.
Proof.
  split; [reflexivity | intros w; reflexivity].
Qed.

(** ** The step budget *)

Lemma truthy_int (n : Z) : n <> 0 -> Py.truthy (Py.VInt n) = true.
Proof. intros H. cbn. destruct (Z.eqb_spec n 0); [contradiction | reflexivity]. Qed.

(** C4, as stated, fails for a step budget of 0: with three epochs of five
    steps each the loop is given fifteen steps, not zero. *)
Lemma step_budget_zero_not_used :
  total_num_steps toy_env (Some 0) (Some 3) toy_world = Ret 15 toy_world
  /\ total_num_steps toy_env (Some 0) (Some 3) toy_world <> Ret 0 toy_world.
Proof. split; [reflexivity | discriminate]. Qed.

(** C4 (amended): when both budgets are given and [num_max_steps] is not 0,
    the budget of the loop is [num_max_steps]: the epoch-derived budget is
    computed first and then overwritten, so that the run is the one the
    step budget alone would give. *)
Theorem step_budget_takes_precedence (E : env) (n e : Z) :
  n <> 0 ->
  (forall w, batch_size E <> 0 -> total_num_steps E (Some n) (Some e) w = Ret n w)
  /\ (forall w, train E (Some n) (Some e) w = train E (Some n) None w).
Proof.
  intros Hn.
  assert (Hbudget : forall w,
             total_num_steps E (Some n) (Some e) w = total_num_steps E (Some n) None w).
  { intros w. unfold total_num_steps.
    destruct (batch_size E =? 0); [reflexivity |].
    rewrite (truthy_int n Hn). reflexivity. }
  split.
  - intros w Hb. unfold total_num_steps.
    destruct (Z.eqb_spec (batch_size E) 0); [contradiction |].
    rewrite (truthy_int n Hn). reflexivity.
  - intros w. unfold train, bind.
    destruct (assert_ _ w) as [[] w1 | |]; try reflexivity.
    destruct (load_model E (stored_model E) w1) as [model w2 | |]; try reflexivity.
    destruct (set_training true w2) as [[] w3 | |]; try reflexivity.
    rewrite Hbudget. reflexivity.
Qed.

Lemma step_budget_takes_precedence_witness :
  total_num_steps toy_env (Some 10) (Some 3) toy_world = Ret 10 toy_world.
Proof.
  assert (Hn : 10 <> 0) by discriminate.
  assert (Hb : batch_size toy_env <> 0) by discriminate.
  exact (proj1 (step_budget_takes_precedence toy_env 10 3 Hn) toy_world Hb).
Defined.

(** ** Validation *)

Lemma validation_length_of_data (bs : list vbatch) (s : vstate) :
  length_of_data (fold_left validation_batch bs s)
  = length_of_data s + Z.of_nat (total_samples bs).
Proof.
  revert s. induction bs as [| b bs IH]; intros s; cbn [fold_left].
  - unfold total_samples. cbn [map]. unfold list_sum. cbn [fold_right]. lia.
  - rewrite IH. unfold total_samples, validation_batch, list_sum.
    cbn [map fold_right length_of_data]. lia.
Qed.

(** C2, as stated, fails: on a validation set without batches the error
    is the [ZeroDivisionError] of the unguarded division, and no error
    that speaks of an empty validation set is raised. *)
Lemma empty_validation_set_unguarded :
  validation empty_validation_env (DataParallel cpu) toy_world
  = Raise Py.ZeroDivisionError_float toy_world
  /\ ~ (exists e w',
          validation empty_validation_env (DataParallel cpu) toy_world = Raise e w'
          /\ Py.contains "empty validation set" (Py.exn_msg e) = true).
Proof.
  split; [reflexivity |].
  intros (e & w' & Hrun & Hmsg).
  change (@Raise vresult Py.ZeroDivisionError_float toy_world = Raise e w') in Hrun.
  inversion Hrun; subst e. discriminate Hmsg.
Qed.

(** C2 (amended): when the validation set yields no sample at all (in
    particular when it has no batch), [validation] returns nothing, NaN
    or other: the division by the sample count raises
    [ZeroDivisionError], and the world is left as it was. *)
Theorem validation_without_samples_raises (E : env) (model : module_ref) (w : world) :
  total_samples (validation_set E w) = 0%nat ->
  validation E model w = Raise Py.ZeroDivisionError_float w.
Proof.
  intros H. unfold validation, bind, get_world.
  rewrite validation_length_of_data, H. reflexivity.
Qed.

Lemma validation_without_samples_raises_witness :
  validation empty_validation_env (DataParallel cpu) toy_world
  = Raise Py.ZeroDivisionError_float toy_world.
Proof.
  assert (H : total_samples (validation_set empty_validation_env toy_world) = 0%nat)
    by reflexivity.
  exact (validation_without_samples_raises empty_validation_env (DataParallel cpu)
           toy_world H).
Defined.

(** ** Weight initialization *)

Lemma append_cons (c : ascii) (a b : string) :
  String c a +:+ b = String c (a +:+ b).
Proof. reflexivity. Qed.

Lemma append_nil (b : string) : EmptyString +:+ b = b.
Proof. reflexivity. Qed.

Lemma contains_app_r (pat pre s : string) :
  Py.contains pat s = true -> Py.contains pat (pre +:+ s) = true.
Proof.
  intros H. induction pre as [| c pre IH]; [exact H |].
  rewrite append_cons. cbn [Py.contains]. rewrite IH. apply orb_true_r.
Qed.

Lemma contains_prefix (pat s : string) : Py.contains pat (pat +:+ s) = true.
Proof.
  assert (Hp : forall a b, String.prefix a (a +:+ b) = true).
  { induction a as [| c a IH]; intros b.
    - rewrite append_nil. destruct b; reflexivity.
    - rewrite append_cons. cbn [String.prefix].
      destruct (Ascii.ascii_dec c c); [apply IH | contradiction]. }
  destruct pat as [| a pat].
  - rewrite append_nil. destruct s; reflexivity.
  - rewrite append_cons. cbn [Py.contains]. rewrite <- append_cons, Hp. reflexivity.
Qed.

Lemma init_parameters_map (T : Torch.init_lib) (ps : params) (w : world) :
  exists w',
    init_parameters T ps w
    = Ret (map (fun np => (fst np, fst (init_parameter T (fst np) (snd np)))) ps) w'
    /\ fs w' = fs w /\ net w' = net w.
Proof.
  revert w. induction ps as [| [name param] ps IH]; intros w; cbn [init_parameters map].
  - exists w. repeat split.
  - destruct (init_parameter T name param) as [param' out] eqn:Hp.
    unfold bind. cbn [fst snd]. rewrite Hp. cbn [fst].
    destruct out as [l |].
    + cbn. destruct (IH (World (fs w) (net w) (training w) (trace w ++ [EvPrint l])))
        as (w' & -> & Hfs & Hnet).
      exists w'. repeat split; assumption.
    + cbn. destruct (IH w) as (w' & -> & Hfs & Hnet).
      exists w'. repeat split; assumption.
Qed.

(** C6, as stated, fails for a weight whose name also contains ['bias']:
    the one-dimensional parameter [bias_norm.weight] is not under the skip
    marker, and ends up constant 0.0, not 1.0. *)
Lemma weight_named_bias_filled_with_zero :
  Py.contains skip_marker "bias_norm.weight" = false
  /\ length (shape toy_vector) = 1%nat
  /\ fst (init_parameter toy_init "bias_norm.weight" toy_vector)
     = Tensor [3%nat] [F.of_Z 0; F.of_Z 0; F.of_Z 0]
  /\ data (fst (init_parameter toy_init "bias_norm.weight" toy_vector))
     <> repeat (F.of_Z 1) 3.
Proof. repeat split; try reflexivity. discriminate. Qed.

Lemma nn_init_kaiming_raises (sample : tensor -> list pyfloat) (t : tensor) :
  (length (shape t) < 2)%nat ->
  exists e, Torch.kaiming_normal_ (Torch.nn_init sample) t = inl e.
Proof.
  intros H. unfold Torch.nn_init. cbn [Torch.kaiming_normal_].
  apply Nat.ltb_lt in H. rewrite H. eexists. reflexivity.
Qed.

(** C6 (amended): the constructor's loop leaves a parameter under the skip
    marker untouched; of the others, a name containing ['bias'] is
    constant-filled with 0.0, and a name containing ['weight'] but not
    ['bias'] is Kaiming-normal initialized; when the initialization
    raises, the parameter is constant-filled with 1.0 if its name contains
    ['weight'] and is left as it was otherwise; a name with neither word
    is left as it was.  In particular a one-dimensional parameter named
    [*.weight], neither under the skip marker nor containing ['bias'],
    ends up constant 1.0 whenever Kaiming initialization raises on tensors
    of fewer than two dimensions.  The loop does this to every parameter,
    in order, and touches no file. *)
Theorem init_parameter_chain (T : Torch.init_lib) (name : string) (param : tensor) :
  let result := fst (init_parameter T name param) in
  (Py.contains skip_marker name = true -> result = param)
  /\ (Py.contains skip_marker name = false ->
      (Py.contains "bias" name = true ->
       match Torch.constant_ T param (F.of_Z 0) with
       | inr param' => result = param'
       | inl _ =>
           result = if Py.contains "weight" name
                    then Torch.fill_ param (F.of_Z 1) else param
       end)
      /\ (Py.contains "bias" name = false -> Py.contains "weight" name = true ->
          match Torch.kaiming_normal_ T param with
          | inr param' => result = param'
          | inl _ => result = Torch.fill_ param (F.of_Z 1)
          end)
      /\ (Py.contains "bias" name = false -> Py.contains "weight" name = false ->
          result = param))
  /\ (forall pre,
        name = pre +:+ ".weight" ->
        Py.contains skip_marker name = false ->
        Py.contains "bias" name = false ->
        length (shape param) = 1%nat ->
        (forall t, (length (shape t) < 2)%nat ->
                   exists e, Torch.kaiming_normal_ T t = inl e) ->
        result = Torch.fill_ param (F.of_Z 1)
        /\ Forall (fun x => x = F.of_Z 1) (data result))
  /\ (forall w, exists w',
        init_weights T w = Ret tt w'
        /\ net w' = map (fun np => (fst np, fst (init_parameter T (fst np) (snd np))))
                        (net w)
        /\ fs w' = fs w).
Proof.
  cbn zeta. unfold init_parameter.
  split; [| split; [| split]].
  - intros ->. reflexivity.
  - intros ->. split; [| split].
    + intros ->. destruct (Torch.constant_ T param (F.of_Z 0)); [| reflexivity].
      destruct (Py.contains "weight" name); reflexivity.
    + intros -> ->. destruct (Torch.kaiming_normal_ T param); reflexivity.
    + intros -> ->. reflexivity.
  - intros pre Hname Hskip Hbias Hdim Hk.
    assert (Hw : Py.contains "weight" name = true).
    { rewrite Hname. apply contains_app_r. reflexivity. }
    rewrite Hskip, Hbias, Hw. destruct (Hk param) as [e ->]; [lia |].
    split; [reflexivity |].
    cbn. apply Forall_forall. intros x Hx. apply list_elem_of_In in Hx.
    apply repeat_spec in Hx. exact Hx.
  - intros w. unfold init_weights, bind, get_world.
    destruct (init_parameters_map T (net w) w) as (w' & -> & Hfs & Hnet).
    eexists. split; [reflexivity |]. cbn. split; [reflexivity | exact Hfs].
Qed.

Lemma init_parameter_chain_witness :
  fst (init_parameter toy_init "norm.weight" toy_vector)
  = Torch.fill_ toy_vector (F.of_Z 1)
  /\ Forall (fun x => x = F.of_Z 1)
            (data (fst (init_parameter toy_init "norm.weight" toy_vector))).
Proof.
  assert (Hname : "norm.weight" = "norm" +:+ ".weight") by reflexivity.
  assert (Hskip : Py.contains skip_marker "norm.weight" = false) by reflexivity.
  assert (Hbias : Py.contains "bias" "norm.weight" = false) by reflexivity.
  assert (Hdim : length (shape toy_vector) = 1%nat) by reflexivity.
  exact (proj1 (proj2 (proj2 (init_parameter_chain toy_init "norm.weight" toy_vector)))
           "norm" Hname Hskip Hbias Hdim
           (nn_init_kaiming_raises (fun t => repeat (Fin 0.25) (length (data t))))).
Defined.

(** ** Loading *)

Ltac run_monad :=
  unfold bind, get_world, print, emit, set_fs, set_net, set_training, ret, raise;
  cbn [fs net training trace].

(** A strict [load_state_dict] on a state dict: the copies, then the
    complaint if there is one. *)
Lemma load_state_dict_spec (m : module_ref) (sd : params) (w : world) :
  let w' := World (fs w) (map (Torch.load_parameter m sd) (net w)) (training w)
                  (trace w) in
  Torch.load_state_dict m (OStateDict sd) w
  = match Torch.missing_keys m (net w) sd, Torch.unexpected_keys m (net w) sd,
          Torch.size_mismatches m (net w) sd with
    | [], [], [] => Ret tt w'
    | _, _, _ => Raise (Py.Exn "RuntimeError" "Error(s) in loading state_dict") w'
    end.
Proof.
  unfold Torch.load_state_dict. run_monad.
  destruct (Torch.missing_keys m (net w) sd);
    destruct (Torch.unexpected_keys m (net w) sd);
    destruct (Torch.size_mismatches m (net w) sd); reflexivity.
Qed.

Lemma load_parameter_name (m : module_ref) (sd : params) (np : string * tensor) :
  fst (Torch.load_parameter m sd np) = fst np.
Proof.
  unfold Torch.load_parameter.
  destruct (Torch.lookup_key _ sd) as [t |]; [| reflexivity].
  destruct (Torch.shape_eqb _ _); reflexivity.
Qed.

Lemma load_parameters_names (m : module_ref) (sd ps : params) :
  map fst (map (Torch.load_parameter m sd) ps) = map fst ps.
Proof.
  rewrite map_map. apply map_ext. intros np. apply load_parameter_name.
Qed.




(** Whatever [load_model] does, it writes no file and only prints. *)
Lemma load_model_frame (E : env) (path : string) (w : world) :
  match load_model E path w with
  | Ret m w' =>
      m = DataParallel (the_device E) /\ fs w' = fs w /\ training w' = training w
      /\ exists seg, trace w' = trace w ++ seg /\ forallb is_banner seg = true
  | Raise _ w' =>
      fs w' = fs w /\ map fst (net w') = map fst (net w)
      /\ exists seg, trace w' = trace w ++ seg /\ forallb is_banner seg = true
  | OutOfFuel => False
  end.
Proof.
  unfold load_model, Torch.load. run_monad.
  destruct (OS.exists_ path w).
  - destruct (fs w !! stored_model E) as [[| [| [[m p | sd] | l] [| c cs]]] |];
      try (cbn; repeat split;
           try (eexists; split; [reflexivity | reflexivity]);
           try (eexists; split; [rewrite <- !app_assoc; reflexivity | reflexivity]);
           fail).
    rewrite load_state_dict_spec. cbn [fs net training trace].
    destruct (Torch.missing_keys (DataParallel (the_device E)) (net w) sd);
      destruct (Torch.unexpected_keys (DataParallel (the_device E)) (net w) sd);
      destruct (Torch.size_mismatches (DataParallel (the_device E)) (net w) sd);
      cbn [fs net training trace];
      repeat split;
      try apply load_parameters_names;
      try (eexists; split; [reflexivity | reflexivity]);
      try (eexists; split; [rewrite <- !app_assoc; reflexivity | reflexivity]).
  - cbn. repeat split. eexists; split; [rewrite <- !app_assoc; reflexivity | reflexivity].
Qed.

Lemma banner_is_print (seg : list event) :
  forallb is_banner seg = true -> forallb is_print seg = true.
Proof.
  induction seg as [| e seg IH]; [reflexivity |]. cbn [forallb].
  intros H. apply andb_true_iff in H. destruct H as [He Hseg].
  rewrite (IH Hseg), andb_true_r. destruct e as [[] | | | |]; (exact He || reflexivity).
Qed.

(** ** Prediction over a directory *)

Lemma for_each_print (ls : list line) (w : world) :
  for_each ls print w
  = Ret tt (World (fs w) (net w) (training w) (trace w ++ map EvPrint ls)).
Proof.
  revert w. induction ls as [| l ls IH]; intros w; cbn [for_each map].
  - unfold ret. rewrite app_nil_r. destruct w; reflexivity.
  - unfold bind, print, emit. rewrite IH. cbn. rewrite <- app_assoc. reflexivity.
Qed.

Lemma predict_batch_spec (b : sbatch) (w : world) :
  predict_batch b w
  = Ret tt (World (fs w) (net w) (training w) (trace w ++ map EvPrint (batch_lines b))).
Proof.
  unfold predict_batch, batch_lines.
  assert (Hloop : forall (l : list (string * string)) w0,
    for_each l (fun '(img_name, pred) => print (Text (img_name +:+ tab +:+ pred))) w0
    = for_each (map (fun ip => Text (fst ip +:+ tab +:+ snd ip)) l) print w0).
  { induction l as [| [a c] l IH]; intros w0; [reflexivity |].
    cbn [for_each map fst snd]. unfold bind.
    destruct (print _ w0); [apply IH | reflexivity | reflexivity]. }
  run_monad. rewrite Hloop, for_each_print. cbn [fs net training trace].
  rewrite map_app, <- !app_assoc. reflexivity.
Qed.

Lemma predict_batches_spec (bs : list sbatch) (w : world) :
  for_each bs predict_batch w
  = Ret tt (World (fs w) (net w) (training w)
                  (trace w ++ map EvPrint (concat (map batch_lines bs)))).
Proof.
  revert w. induction bs as [| b bs IH]; intros w; cbn [for_each map concat].
  - unfold ret. rewrite app_nil_r. destruct w; reflexivity.
  - unfold bind. rewrite predict_batch_spec, IH. cbn [fs net training trace].
    rewrite map_app, <- app_assoc. reflexivity.
Qed.

Lemma forallb_is_print_map (ls : list line) : forallb is_print (map EvPrint ls) = true.
Proof. induction ls as [| l ls IH]; [reflexivity | exact IH]. Qed.

(** C10: [predict_directory] never looks at [out_path]: its run is the
    same for every [out_path]; it returns [None]; everything it does is
    printing, the predictions as one line [identifier <tab> prediction]
    per pair of an image path and a prediction (one per sample when the
    model answers with one prediction per image); and the filesystem, at
    [out_path] as everywhere else, is left as it was, also when loading
    the model fails. *)
Theorem predict_directory_ignores_out_path
  (E : env) (in_path out_path : string) (w : world) :
  (forall out_path', predict_directory E in_path out_path' w
                     = predict_directory E in_path out_path w)
  /\ match predict_directory E in_path out_path w with
     | Ret v w' =>
         v = tt /\ fs w' = fs w /\ fs w' !! out_path = fs w !! out_path
         /\ (exists seg, trace w' = trace w ++ seg /\ forallb is_print seg = true)
         /\ (exists w1,
               load_model E (stored_model E) w = Ret (DataParallel (the_device E)) w1
               /\ trace w' = trace w1
                             ++ map EvPrint
                                  (concat (map batch_lines (serving_set E in_path w1))))
     | Raise _ w' =>
         fs w' = fs w /\ fs w' !! out_path = fs w !! out_path
         /\ (exists seg, trace w' = trace w ++ seg /\ forallb is_print seg = true)
     | OutOfFuel => False
     end
  /\ (forall b, length (sb_preds b) = length (sb_paths b) ->
                length (batch_lines b) = (3 + length (sb_paths b))%nat).
Proof.
  split; [reflexivity |]. split.
  - unfold predict_directory. unfold bind at 1.
    pose proof (load_model_frame E (stored_model E) w) as Hload.
    destruct (load_model E (stored_model E) w) as [m w1 | e w1 |]; [| | exact Hload].
    + destruct Hload as (-> & Hfs & _ & seg & Htr & Hseg).
      apply banner_is_print in Hseg.
      run_monad. rewrite predict_batches_spec. cbn [fs net training trace].
      split; [reflexivity |]. split; [exact Hfs |]. split; [rewrite Hfs; reflexivity |].
      split.
      * eexists. split; [rewrite Htr, <- app_assoc; reflexivity |].
        rewrite forallb_app, Hseg, forallb_is_print_map. reflexivity.
      * exists w1. split; reflexivity.
    + destruct Hload as (Hfs & _ & seg & Htr & Hseg).
      apply banner_is_print in Hseg.
      split; [exact Hfs |]. split; [rewrite Hfs; reflexivity |].
      exists seg. split; assumption.
  - intros b Hlen. unfold batch_lines.
    rewrite length_app, length_map, length_combine, Hlen. cbn. lia.
Qed.

Lemma predict_directory_ignores_out_path_witness :
  length (batch_lines (SBatch 2 ["a.png"; "b.png"] ["x"; "y"]))
  = (3 + length (sb_paths (SBatch 2 ["a.png"; "b.png"] ["x"; "y"])))%nat.
Proof.
  assert (H : length (sb_preds (SBatch 2 ["a.png"; "b.png"] ["x"; "y"]))
              = length (sb_paths (SBatch 2 ["a.png"; "b.png"] ["x"; "y"])))
    by reflexivity.
  exact (proj2 (proj2 (predict_directory_ignores_out_path toy_env "in" "out" toy_world))
           (SBatch 2 ["a.png"; "b.png"] ["x"; "y"]) H).
Defined.

(** ** The pieces of the training loop *)

Lemma visible_app (a b : list event) : visible (a ++ b) = visible a ++ visible b.
Proof. apply List.filter_app. Qed.

Lemma extends_same (w w' : world) :
  net w' = net w -> trace w' = trace w -> extends w w' [].
Proof. intros Hn Ht. split; [exact Hn | rewrite Ht, app_nil_r; reflexivity]. Qed.

Lemma extends_refl (w : world) : extends w w [].
Proof. apply extends_same; reflexivity. Qed.

Lemma extends_trans (w1 w2 w3 : world) (a b : list event) :
  extends w1 w2 a -> extends w2 w3 b -> extends w1 w3 (a ++ b).
Proof.
  intros [Hn1 Ht1] [Hn2 Ht2]. split; [congruence |].
  rewrite Ht2, Ht1, app_assoc. reflexivity.
Qed.

Lemma extends_emit (w : world) (e : event) (files : gmap string node) (b : bool) :
  is_makedirs e = false ->
  extends w (World files (net w) b (trace w ++ [e])) [e].
Proof.
  intros H. split; [reflexivity |]. cbn [trace]. rewrite visible_app.
  cbn. rewrite H. reflexivity.
Qed.

Lemma makedirs_guarded_spec (d : string) (w : world) :
  exists w',
    (when negb (OS.exists_ d w) then OS.makedirs d) w = Ret tt w'
    /\ training w' = training w /\ extends w w' [].
Proof.
  unfold OS.makedirs. run_monad. destruct (OS.exists_ d w) eqn:H; cbn [negb].
  - exists w. repeat split. apply extends_refl.
  - rewrite H. eexists. split; [reflexivity |]. split; [reflexivity |].
    split; [reflexivity |]. cbn [trace]. rewrite visible_app, app_nil_r.
    cbn. rewrite app_nil_r. reflexivity.
Qed.

Lemma open_append_spec (p : string) (w : world) :
  exists w',
    OS.open_append p w = Ret tt w' /\ training w' = training w /\ extends w w' [].
Proof.
  unfold OS.open_append. run_monad.
  destruct (fs w !! p) as [[| c] |]; eexists; (split; [reflexivity |]);
    (split; [reflexivity |]); apply extends_same; reflexivity.
Qed.

Lemma write_spec (p : string) (l : line) (w : world) :
  exists w',
    OS.write p l w = Ret tt w'
    /\ training w' = training w /\ extends w w' [EvLogWrite p l].
Proof.
  unfold OS.write. run_monad. eexists. split; [reflexivity |].
  split; [reflexivity |]. apply extends_emit. reflexivity.
Qed.

Lemma print_spec (l : line) (w : world) :
  exists w',
    print l w = Ret tt w' /\ training w' = training w /\ extends w w' [EvPrint l].
Proof.
  unfold print, emit. eexists. split; [reflexivity |].
  split; [reflexivity |]. apply extends_emit. reflexivity.
Qed.

Lemma store_model_spec (E : env) (model : module_ref) (file_name : string) (w : world) :
  exists w',
    store_model E model file_name w = Ret tt w'
    /\ training w' = training w
    /\ extends w w' [EvSave (store_path E model file_name) (OModule model (net w))].
Proof.
  unfold store_model. unfold bind at 1. unfold get_world at 1. unfold bind at 1.
  destruct (makedirs_guarded_spec (store_dir E model) w) as (w1 & -> & Htr & Hext).
  unfold Torch.save. run_monad. eexists. split; [reflexivity |].
  split; [exact Htr |].
  destruct Hext as [Hnet Hvis]. split; [exact Hnet |].
  cbn [trace]. rewrite visible_app, Hvis, app_nil_r, Hnet. reflexivity.
Qed.

Lemma bind_ret {A B} (m : M A) (k : A -> M B) (w w' : world) (a : A) :
  m w = Ret a w' -> bind m k w = k a w'.
Proof. intros H. unfold bind. rewrite H. reflexivity. Qed.

Lemma bind_raise {A B} (m : M A) (k : A -> M B) (w w' : world) (e : Py.exn) :
  m w = Raise e w' -> bind m k w = Raise e w'.
Proof. intros H. unfold bind. rewrite H. reflexivity. Qed.

Ltac step H := rewrite (bind_ret _ _ _ _ _ H); cbv beta.

Lemma averager_val (a : Averager.t) (w : world) :
  Averager.n_count a <> 0 ->
  Averager.val a w
  = Ret (F.mul (Averager.sum a) (Fin (/ inject_Z (Averager.n_count a)))) w.
Proof.
  intros H. unfold Averager.val.
  destruct (Z.eqb_spec (Averager.n_count a) 0); [contradiction | reflexivity].
Qed.

Lemma validation_fold_count (bs : list vbatch) (s : vstate) :
  Averager.n_count (valid_loss_avg (fold_left validation_batch bs s))
  = Averager.n_count (valid_loss_avg s) + Z.of_nat (length bs).
Proof.
  revert s. induction bs as [| b bs IH]; intros s; cbn [fold_left length].
  - lia.
  - rewrite IH. cbn [validation_batch valid_loss_avg Averager.add Averager.n_count]. lia.
Qed.

Lemma validation_fold_last (bs : list vbatch) (b : vbatch) (s : vstate) :
  exists pl, last (fold_left validation_batch (b :: bs) s) = Some pl.
Proof.
  revert b s. induction bs as [| b' bs IH]; intros b s.
  - cbn. eauto.
  - change (fold_left validation_batch (b :: b' :: bs) s)
      with (fold_left validation_batch (b' :: bs) (validation_batch s b)).
    apply IH.
Qed.

(** [validation] reads the loader and nothing else: the world is as it
    was, whether it returns or raises, and it never exits the process. *)
Lemma validation_frame (E : env) (model : module_ref) (w : world) :
  match validation E model w with
  | Ret _ w' => w' = w
  | Raise e w' => w' = w /\ e <> Py.SystemExit
  | OutOfFuel => False
  end.
Proof.
  unfold validation, Averager.val. run_monad.
  destruct (length_of_data _ =? 0); [split; [reflexivity | discriminate] |].
  destruct (Averager.n_count _ =? 0); [split; [reflexivity | discriminate] |].
  destruct (last _) as [[preds labels] |]; [reflexivity |].
  split; [reflexivity | discriminate].
Qed.

(** With at least one sample to validate on, [validation] returns. *)
Lemma validation_returns (E : env) (model : module_ref) (w : world) :
  (0 < total_samples (validation_set E w))%nat ->
  exists r, validation E model w = Ret r w.
Proof.
  intros Hpos. unfold validation. run_monad.
  rewrite validation_length_of_data. cbn [vstate0 length_of_data].
  destruct (Z.eqb_spec (0 + Z.of_nat (total_samples (validation_set E w))) 0) as [H0 | _];
    [lia |].
  destruct (validation_set E w) as [| b bs] eqn:Hbs; [cbn in Hpos; lia |].
  unfold Averager.val.
  rewrite validation_fold_count. cbn [vstate0 valid_loss_avg Averager.new Averager.n_count].
  destruct (Z.eqb_spec (0 + Z.of_nat (length (b :: bs))) 0) as [H0 | _];
    [cbn [length] in H0; lia |].
  run_monad.
  destruct (validation_fold_last bs b vstate0) as [[preds labels] ->].
  eexists. reflexivity.
Qed.

Lemma keep_best_spec (E : env) (model : module_ref) (s : loop_state)
  (acc ned : pyfloat) (w : world) :
  exists w',
    keep_best E model s acc ned w
    = Ret (LoopState (current_step s) (i s)
                     (if F.gtb acc (best_accuracy s) then acc else best_accuracy s)
                     (if F.ltb ned (best_norm_ed s) then ned else best_norm_ed s)
                     (loss_avg s)) w'
    /\ training w' = training w
    /\ extends w w'
         ((if F.gtb acc (best_accuracy s)
           then [EvSave (store_path E model "best_accuracy.pth") (OModule model (net w))]
           else [])
          ++ (if F.ltb ned (best_norm_ed s)
              then [EvSave (store_path E model "best_norm_ed.pth") (OModule model (net w))]
              else [])).
Proof.
  unfold keep_best.
  assert (Hfirst : exists w1,
    (if F.gtb acc (best_accuracy s)
     then store_model E model "best_accuracy.pth" ;;;
          ret (LoopState (current_step s) (i s) acc (best_norm_ed s) (loss_avg s))
     else ret s) w
    = Ret (LoopState (current_step s) (i s)
                     (if F.gtb acc (best_accuracy s) then acc else best_accuracy s)
                     (best_norm_ed s) (loss_avg s)) w1
    /\ training w1 = training w
    /\ extends w w1
         (if F.gtb acc (best_accuracy s)
          then [EvSave (store_path E model "best_accuracy.pth") (OModule model (net w))]
          else [])).
  { destruct (F.gtb acc (best_accuracy s)).
    - destruct (store_model_spec E model "best_accuracy.pth" w) as (w1 & Heq & Htr & Hext).
      exists w1. step Heq. repeat split; try assumption; apply Hext.
    - exists w. destruct s. repeat split. apply extends_refl. }
  destruct Hfirst as (w1 & Heq1 & Htr1 & Hext1). step Heq1.
  cbn [best_norm_ed best_accuracy current_step i loss_avg].
  destruct (F.ltb ned (best_norm_ed s)).
  - destruct (store_model_spec E model "best_norm_ed.pth" w1) as (w2 & Heq & Htr & Hext).
    exists w2. step Heq. unfold ret. split; [reflexivity |]. split; [congruence |].
    rewrite (proj1 Hext1) in Hext. eapply extends_trans; eassumption.
  - exists w1. unfold ret. split; [reflexivity |]. split; [exact Htr1 |].
    rewrite app_nil_r. exact Hext1.
Qed.

Ltac use L :=
  let w' := fresh "w" in
  let Heq := fresh "Heq" in
  let Htr := fresh "Htr" in
  let Hext := fresh "Hext" in
  destruct L as (w' & Heq & Htr & Hext);
  rewrite (bind_ret _ _ _ _ _ Heq); cbv beta zeta.

Lemma set_training_spec (b : bool) (w : world) :
  exists w', set_training b w = Ret tt w' /\ training w' = b /\ extends w w' [].
Proof.
  eexists. split; [reflexivity |]. split; [reflexivity |].
  apply extends_same; reflexivity.
Qed.

(** A validation round either completes, as [round_events] and
    [round_state] say, or stops at the failure of [validation], after the
    loss line. *)
Lemma validation_round_spec (E : env) (model : module_ref) (s : loop_state) (w : world) :
  Averager.n_count (loss_avg s) <> 0 ->
  match validation_round E model s w with
  | Ret s' w' =>
      exists r w0,
        validation E model w0 = Ret r w0
        /\ s' = round_state s r
        /\ training w' = true
        /\ extends w w' (round_events E model s r (net w))
  | Raise e w' =>
      e <> Py.SystemExit
      /\ (exists w0, validation E model w0 = Raise e w0)
      /\ extends w w' [EvPrint (LossLine (i s) (max_train_steps E) (round_loss s));
                       EvLogWrite (log_path E)
                                  (LossLine (i s) (max_train_steps E) (round_loss s))]
  | OutOfFuel => False
  end.
Proof.
  intros Hcount. unfold validation_round.
  rewrite (bind_ret _ _ _ _ _ (averager_val _ w Hcount)). cbv beta.
  fold (round_loss s).
  use (print_spec (LossLine (i s) (max_train_steps E) (round_loss s)) w).
  rewrite (bind_ret get_world _ w0 w0 w0 eq_refl). cbv beta.
  use (makedirs_guarded_spec (log_dir E) w0).
  use (open_append_spec (log_path E) w1).
  rewrite (bind_ret _ _ _ _ _ (averager_val _ w2 Hcount)). cbv beta.
  fold (round_loss s).
  use (write_spec (log_path E) (LossLine (i s) (max_train_steps E) (round_loss s)) w2).
  use (set_training_spec false w3).
  assert (Hloss : extends w w4
            [EvPrint (LossLine (i s) (max_train_steps E) (round_loss s));
             EvLogWrite (log_path E) (LossLine (i s) (max_train_steps E) (round_loss s))]).
  { pose proof (extends_trans _ _ _ _ _ Hext
      (extends_trans _ _ _ _ _ Hext0
         (extends_trans _ _ _ _ _ Hext1
            (extends_trans _ _ _ _ _ Hext2 Hext3)))) as H.
    exact H. }
  pose proof (validation_frame E model w4) as Hframe.
  destruct (validation E model w4) as [r w5 | e w5 |] eqn:Hv; [| | contradiction].
  - subst w5. rewrite (bind_ret _ _ _ _ _ Hv). cbv beta zeta.
    use (set_training_spec true w4).
    use (print_spec (ValidLine (i s) (max_train_steps E) (r_valid_loss r)
                               (r_accuracy r) (r_norm_ED r)) w5).
    use (write_spec (log_path E)
                    (ValidLine (i s) (max_train_steps E) (r_valid_loss r)
                               (r_accuracy r) (r_norm_ED r)) w6).
    use (keep_best_spec E model
           (LoopState (current_step s) (i s) (best_accuracy s) (best_norm_ed s)
                      (Averager.reset (loss_avg s)))
           (r_accuracy r) (r_norm_ED r) w7).
    cbn [best_accuracy best_norm_ed current_step i loss_avg] in *.
    fold (round_best_accuracy s r) in *. fold (round_best_norm_ed s r) in *.
    use (print_spec (BestLine (round_best_accuracy s r) (round_best_norm_ed s r)) w8).
    use (write_spec (log_path E)
                    (BestLine (round_best_accuracy s r) (round_best_norm_ed s r)) w9).
    unfold ret. exists r, w4. split; [exact Hv |]. split; [reflexivity |].
    split.
    + congruence.
    + assert (Hnet : net w7 = net w).
      { rewrite (proj1 Hext6), (proj1 Hext5), (proj1 Hext4). apply Hloss. }
      rewrite Hnet in Hext7.
      pose proof (extends_trans _ _ _ _ _ Hloss
        (extends_trans _ _ _ _ _ Hext4
           (extends_trans _ _ _ _ _ Hext5
              (extends_trans _ _ _ _ _ Hext6
                 (extends_trans _ _ _ _ _ Hext7
                    (extends_trans _ _ _ _ _ Hext8 Hext9)))))) as H.
      unfold round_events. cbn [app] in H |- *.
      rewrite <- app_assoc in H. exact H.
  - destruct Hframe as [-> Hne]. rewrite (bind_raise _ _ _ _ _ Hv).
    split; [exact Hne |]. split; [exists w4; exact Hv | exact Hloss].
Qed.

(** Integers up to [2 ^ 53] are floats. *)
Lemma float_of_int_exact (n : Z) : 0 <= n <= 2 ^ 53 -> float_of_int n = Some n.
Proof.
  intros [Hlo Hhi].
  destruct (Z.eq_dec n 0) as [-> | Hn0]; [reflexivity |].
  destruct (Z.eq_dec n (2 ^ 53)) as [-> | Hn53]; [vm_compute; reflexivity |].
  assert (Hlog : Z.log2 n < 53).
  { change (2 ^ 53) with 9007199254740992 in *.
    apply Z.log2_lt_pow2; [lia |]. change (2 ^ 53) with 9007199254740992. lia. }
  unfold float_of_int, round_to_53.
  rewrite (Z.abs_eq n) by lia. rewrite Z.sgn_pos by lia.
  destruct (Z.leb_spec (Z.log2 n + 1) 53); [| lia].
  rewrite Z.mul_1_l, (Z.abs_eq n) by lia.
  assert (Hbig : n < 2 ^ 1024).
  { apply Z.le_lt_trans with 9007199254740992; [exact Hhi | reflexivity]. }
  apply Z.ltb_lt in Hbig. rewrite Hbig. reflexivity.
Qed.

Lemma train_part_spec (E : env) (s : loop_state) (w : world) :
  exists cost w',
    train_part E s w = Ret (trained s cost) w'
    /\ training w' = training w
    /\ fs w' = fs w
    /\ visible (trace w')
       = visible (trace w) ++ [EvPrint (CurrentStep (current_step s)); EvOptimizerStep].
Proof.
  unfold train_part. run_monad. eexists. eexists. split; [reflexivity |].
  cbn [training fs trace]. repeat split.
  rewrite !visible_app, <- app_assoc. reflexivity.
Qed.

Lemma validation_part_spec (E : env) (model : module_ref) (s : loop_state) (w : world) :
  Averager.n_count (loss_avg s) <> 0 ->
  match validation_part E model s w with
  | Ret s' w' =>
      validation_interval_steps E <> 0
      /\ ((i s mod validation_interval_steps E <> 0 /\ s' = s /\ w' = w)
          \/ (i s mod validation_interval_steps E = 0
              /\ exists r w0,
                  validation E model w0 = Ret r w0
                  /\ s' = round_state s r
                  /\ training w' = true
                  /\ extends w w' (round_events E model s r (net w))))
  | Raise e w' =>
      e <> Py.SystemExit
      /\ ((validation_interval_steps E = 0 /\ w' = w)
          \/ (validation_interval_steps E <> 0
              /\ i s mod validation_interval_steps E = 0
              /\ (exists w0, validation E model w0 = Raise e w0)
              /\ extends w w' (loss_events E s)))
  | OutOfFuel => False
  end.
Proof.
  intros Hcount. unfold validation_part.
  destruct (Z.eqb_spec (validation_interval_steps E) 0) as [Hiv | Hiv].
  - split; [discriminate | left; split; [exact Hiv | reflexivity]].
  - destruct (Z.eqb_spec (i s mod validation_interval_steps E) 0) as [Hmod | Hmod].
    + pose proof (validation_round_spec E model s w Hcount) as Hround.
      destruct (validation_round E model s w) as [s' w' | e w' |]; [| | exact Hround].
      * split; [exact Hiv |]. right. split; [exact Hmod | exact Hround].
      * destruct Hround as (Hne & Hval & Hext). split; [exact Hne |].
        right. split; [exact Hiv |]. split; [exact Hmod |].
        split; [exact Hval | exact Hext].
    + split; [exact Hiv |]. left. split; [exact Hmod |]. split; reflexivity.
Qed.

(** The iteration checkpoint at counter [i]: an error when [i + 1] is too
    large for a float, and otherwise one save, or none, as the remainder
    of [float(i + 1)] says. *)
Lemma iter_checkpoint_spec (E : env) (model : module_ref) (s : loop_state) (w : world) :
  match float_of_int (i s + 1) with
  | None =>
      iter_checkpoint E model s w
      = Raise (Py.Exn "OverflowError" "int too large to convert to float") w
  | Some x =>
      exists w',
        iter_checkpoint E model s w = Ret tt w'
        /\ training w' = training w
        /\ extends w w' (iter_events E model (i s) x (net w))
  end.
Proof.
  unfold iter_checkpoint, iter_checkpoint_due, iter_events.
  destruct (float_of_int (i s + 1)) as [x |]; [| reflexivity].
  unfold bind at 1. unfold ret at 1.
  destruct (x mod 100000 =? 0).
  - destruct (store_model_spec E model (iter_file_name (i s)) w) as (w' & Heq & Htr & Hext).
    exists w'. repeat split; try assumption; apply Hext.
  - exists w. repeat split. apply extends_refl.
Qed.

(** The validation part moves neither counter. *)
Lemma validation_part_counters (E : env) (model : module_ref) (s : loop_state) (w : world) :
  match validation_part E model s w with
  | Ret s' _ => i s' = i s /\ current_step s' = current_step s
  | _ => True
  end.
Proof.
  destruct (Z.eq_dec (Averager.n_count (loss_avg s)) 0) as [Hz | Hnz].
  - unfold validation_part.
    destruct (validation_interval_steps E =? 0); [exact I |].
    destruct (i s mod validation_interval_steps E =? 0); [| split; reflexivity].
    unfold validation_round.
    assert (Hval : Averager.val (loss_avg s) w = Raise Py.ZeroDivisionError_float w).
    { unfold Averager.val. rewrite Hz. reflexivity. }
    rewrite (bind_raise _ _ _ _ _ Hval). exact I.
  - pose proof (validation_part_spec E model s w Hnz) as H.
    destruct (validation_part E model s w) as [s' w' | |]; try exact I.
    destruct H as [_ [(_ & -> & _) | (_ & r & w0 & _ & -> & _)]]; split; reflexivity.
Qed.

Lemma exit_check_spec (E : env) (s : loop_state) (w : world) :
  (i s <> max_train_steps E -> exit_check E s w = Ret tt w)
  /\ (i s = max_train_steps E ->
      exit_check E s w
      = Raise Py.SystemExit
              (World (fs w) (net w) (training w)
                     (trace w ++ [EvPrint (Text "end the training")]))).
Proof.
  unfold exit_check. split; intros H.
  - destruct (Z.eqb_spec (i s) (max_train_steps E)); [contradiction | reflexivity].
  - destruct (Z.eqb_spec (i s) (max_train_steps E)); [reflexivity | contradiction].
Qed.

(** One turn of the loop, taken apart: the train part always returns;
    the turn returns when the validation part does, [float(i + 1)] exists
    and [i] is not [max_train_steps]; it raises what the validation part
    raises, or the overflow of [float(i + 1)], or [SystemExit] at
    [i = max_train_steps]. *)
Lemma train_body_spec (E : env) (model : module_ref) (s : loop_state) (w : world) :
  exists cost w1,
    train_part E s w = Ret (trained s cost) w1
    /\ training w1 = training w
    /\ visible (trace w1)
       = visible (trace w) ++ [EvPrint (CurrentStep (current_step s)); EvOptimizerStep]
    /\ match train_body E model s w with
       | Ret s' w' =>
           exists s2 w2 x,
             validation_part E model (trained s cost) w1 = Ret s2 w2
             /\ float_of_int (i s2 + 1) = Some x
             /\ i s2 <> max_train_steps E
             /\ s' = advance s2
             /\ training w' = training w2
             /\ extends w2 w' (iter_events E model (i s2) x (net w2))
       | Raise e w' =>
           validation_part E model (trained s cost) w1 = Raise e w'
           \/ exists s2 w2,
                validation_part E model (trained s cost) w1 = Ret s2 w2
                /\ ((float_of_int (i s2 + 1) = None
                     /\ e = Py.Exn "OverflowError" "int too large to convert to float"
                     /\ w' = w2)
                    \/ (exists x,
                          float_of_int (i s2 + 1) = Some x
                          /\ i s2 = max_train_steps E
                          /\ e = Py.SystemExit
                          /\ extends w2 w'
                               (iter_events E model (i s2) x (net w2)
                                ++ [EvPrint (Text "end the training")])))
       | OutOfFuel => False
       end.
Proof.
  destruct (train_part_spec E s w) as (cost & w1 & Htp & Htr & _ & Hvis).
  exists cost, w1. split; [exact Htp |]. split; [exact Htr |]. split; [exact Hvis |].
  unfold train_body. rewrite (bind_ret _ _ _ _ _ Htp). cbv beta.
  pose proof (validation_part_spec E model (trained s cost) w1) as Hvp.
  destruct (validation_part E model (trained s cost) w1) as [s2 w2 | e w2 |] eqn:Hv.
  - rewrite (bind_ret _ _ _ _ _ Hv). cbv beta.
    pose proof (iter_checkpoint_spec E model s2 w2) as Hic.
    destruct (float_of_int (i s2 + 1)) as [x |] eqn:Hx.
    + destruct Hic as (w3 & Hic & Htr3 & Hext3).
      rewrite (bind_ret _ _ _ _ _ Hic). cbv beta.
      destruct (Z.eq_dec (i s2) (max_train_steps E)) as [Hmax | Hmax].
      * rewrite (bind_raise _ _ _ _ _ (proj2 (exit_check_spec E s2 w3) Hmax)).
        right. exists s2, w2. split; [reflexivity |]. right. exists x.
        split; [exact Hx |]. split; [exact Hmax |]. split; [reflexivity |].
        eapply extends_trans; [exact Hext3 |].
        apply extends_emit. reflexivity.
      * rewrite (bind_ret _ _ _ _ _ (proj1 (exit_check_spec E s2 w3) Hmax)). cbv beta.
        exists s2, w2, x. unfold ret. repeat split; try assumption; apply Hext3.
    + rewrite (bind_raise _ _ _ _ _ Hic).
      right. exists s2, w2. split; [reflexivity |]. left.
      split; [exact Hx |]. split; reflexivity.
  - rewrite (bind_raise _ _ _ _ _ Hv). left. reflexivity.
  - destruct (Z.eq_dec (Averager.n_count (loss_avg (trained s cost))) 0) as [Hz | Hnz].
    + exfalso. revert Hv. unfold validation_part.
      destruct (validation_interval_steps E =? 0); [discriminate |].
      destruct (i (trained s cost) mod validation_interval_steps E =? 0); [| discriminate].
      unfold validation_round.
      assert (Hval : Averager.val (loss_avg (trained s cost)) w1
                     = Raise Py.ZeroDivisionError_float w1).
      { unfold Averager.val. rewrite Hz. reflexivity. }
      rewrite (bind_raise _ _ _ _ _ Hval). discriminate.
    + exfalso. apply Hvp. exact Hnz.
Qed.

Lemma validation_part_no_exit (E : env) (model : module_ref) (s : loop_state)
  (w w' : world) (e : Py.exn) :
  validation_part E model s w = Raise e w' -> e <> Py.SystemExit.
Proof.
  intros Hv.
  destruct (Z.eq_dec (Averager.n_count (loss_avg s)) 0) as [Hz | Hnz].
  - revert Hv. unfold validation_part.
    destruct (validation_interval_steps E =? 0);
      [intros Hv; inversion Hv; discriminate |].
    destruct (i s mod validation_interval_steps E =? 0); [| discriminate].
    unfold validation_round.
    assert (Hval : Averager.val (loss_avg s) w = Raise Py.ZeroDivisionError_float w).
    { unfold Averager.val. rewrite Hz. reflexivity. }
    rewrite (bind_raise _ _ _ _ _ Hval). intros Hv; inversion Hv; discriminate.
  - pose proof (validation_part_spec E model s w Hnz) as H.
    rewrite Hv in H. apply H.
Qed.

(** ** The two bounds of the loop *)

(** C3: the loop runs its body exactly while [current_step] is below
    [total_num_steps] (at [current_step = total_num_steps] it returns
    without another turn); the early exit tests the secondary counter [i]
    for equality with the constructor's [max_train_steps], after the step
    of that turn: a turn with [i = max_train_steps] never returns to the
    loop, and once its train part, validation part and iteration
    checkpoint are done it prints the completion line and raises
    [SystemExit]; a turn with any other [i] does not exit. *)
Theorem loop_bounds_and_exit
  (E : env) (model : module_ref) (total : Z) (s : loop_state) (w : world) :
  (forall fuel, total <= current_step s -> train_loop E model total fuel s w = Ret tt w)
  /\ (forall fuel, current_step s < total ->
        train_loop E model total (S fuel) s w
        = bind (train_body E model s) (train_loop E model total fuel) w)
  /\ (i s = max_train_steps E ->
      (forall s' w', train_body E model s w <> Ret s' w')
      /\ (forall s2 w2,
            (s1 <- train_part E s ;;
             s2 <- validation_part E model s1 ;;
             iter_checkpoint E model s2 ;;;
             ret s2) w = Ret s2 w2 ->
            train_body E model s w
            = Raise Py.SystemExit
                    (World (fs w2) (net w2) (training w2)
                           (trace w2 ++ [EvPrint (Text "end the training")]))))
  /\ (i s <> max_train_steps E ->
      forall w', train_body E model s w <> Raise Py.SystemExit w').
Proof.
  split; [| split; [| split]].
  - intros fuel H. destruct fuel; cbn [train_loop];
      (destruct (Z.ltb_spec (current_step s) total); [lia | reflexivity]).
  - intros fuel H. cbn [train_loop].
    destruct (Z.ltb_spec (current_step s) total); [reflexivity | lia].
  - intros Hmax.
    destruct (train_body_spec E model s w) as (cost & w1 & Htp & _ & _ & Hbody).
    split.
    + intros s' w' Hret. rewrite Hret in Hbody.
      destruct Hbody as (s2 & w2 & x & Hv & _ & Hne & _).
      pose proof (validation_part_counters E model (trained s cost) w1) as Hc.
      rewrite Hv in Hc. destruct Hc as [Hi _]. cbn in Hi. congruence.
    + intros s2 w2. unfold train_body.
      rewrite !(bind_ret _ _ _ _ _ Htp). cbv beta.
      pose proof (validation_part_counters E model (trained s cost) w1) as Hc.
      destruct (validation_part E model (trained s cost) w1) as [s2' w2' | |] eqn:Hv;
        [| rewrite (bind_raise _ _ _ _ _ Hv); discriminate
         | unfold bind; rewrite Hv; discriminate].
      rewrite !(bind_ret _ _ _ _ _ Hv). cbv beta.
      destruct (iter_checkpoint E model s2' w2') as [[] w3 | |] eqn:Hic;
        [| rewrite (bind_raise _ _ _ _ _ Hic); discriminate
         | unfold bind; rewrite Hic; discriminate].
      rewrite !(bind_ret _ _ _ _ _ Hic). cbv beta. unfold ret at 2.
      intros Heq. injection Heq as Hs Hw. subst s2 w2.
      assert (Hi : i s2' = max_train_steps E).
      { destruct Hc as [Hi _]. cbn in Hi. congruence. }
      rewrite (bind_raise _ _ _ _ _ (proj2 (exit_check_spec E s2' w3) Hi)).
      reflexivity.
  - intros Hne w' Hraise.
    destruct (train_body_spec E model s w) as (cost & w1 & Htp & _ & _ & Hbody).
    rewrite Hraise in Hbody.
    destruct Hbody as [Hv | (s2 & w2 & Hv & [(_ & He & _) | (x & _ & Hmax & _)])].
    + exact (validation_part_no_exit _ _ _ _ _ _ Hv eq_refl).
    + discriminate He.
    + pose proof (validation_part_counters E model (trained s cost) w1) as Hc.
      rewrite Hv in Hc. destruct Hc as [Hi _]. cbn in Hi. congruence.
Qed.

Lemma loop_bounds_and_exit_witness :
  (forall s' w',
      train_body exit_env (DataParallel cpu) loop_state0 toy_world <> Ret s' w')
  /\ (forall w',
        train_body toy_env (DataParallel cpu) loop_state0 toy_world
        <> Raise Py.SystemExit w')
  /\ train_loop toy_env (DataParallel cpu) 0 0 loop_state0 toy_world = Ret tt toy_world.
Proof.
  assert (Hexit : i loop_state0 = max_train_steps exit_env) by reflexivity.
  assert (Hstay : i loop_state0 <> max_train_steps toy_env) by discriminate.
  assert (Hdone : 0 <= current_step loop_state0) by (cbn; lia).
  split; [| split].
  - exact (proj1 (proj1 (proj2 (proj2
             (loop_bounds_and_exit exit_env (DataParallel cpu) 0 loop_state0 toy_world)))
             Hexit)).
  - exact (proj2 (proj2 (proj2
             (loop_bounds_and_exit toy_env (DataParallel cpu) 0 loop_state0 toy_world)))
             Hstay).
  - exact (proj1 (loop_bounds_and_exit toy_env (DataParallel cpu) 0 loop_state0 toy_world)
             0%nat Hdone).
Defined.

(** One turn of the loop by its visible events, for every way it can end. *)
Lemma train_body_events (E : env) (model : module_ref) (s : loop_state) (w : world) :
  0 <= Averager.n_count (loss_avg s) ->
  exists cost p,
    let s1 := trained s cost in
    match train_body E model s w with
    | Ret s' w' =>
        exists s2 vseg x,
          validation_outcome E model s1 p s2 vseg
          /\ float_of_int (i s + 1) = Some x
          /\ i s <> max_train_steps E
          /\ s' = advance s2
          /\ net w' = p
          /\ visible (trace w')
             = visible (trace w) ++ step_events s ++ vseg ++ iter_events E model (i s) x p
    | Raise e w' =>
        (e <> Py.SystemExit /\ validation_interval_steps E = 0
         /\ visible (trace w') = visible (trace w) ++ step_events s)
        \/ (e <> Py.SystemExit
            /\ validation_interval_steps E <> 0
            /\ i s mod validation_interval_steps E = 0
            /\ (exists w0, validation E model w0 = Raise e w0)
            /\ visible (trace w') = visible (trace w) ++ step_events s ++ loss_events E s1)
        \/ (exists s2 vseg,
              validation_outcome E model s1 p s2 vseg
              /\ ((float_of_int (i s + 1) = None
                   /\ e <> Py.SystemExit
                   /\ visible (trace w') = visible (trace w) ++ step_events s ++ vseg)
                  \/ (exists x,
                        float_of_int (i s + 1) = Some x
                        /\ i s = max_train_steps E
                        /\ e = Py.SystemExit
                        /\ visible (trace w')
                           = visible (trace w) ++ step_events s ++ vseg
                             ++ iter_events E model (i s) x p
                             ++ [EvPrint (Text "end the training")])))
    | OutOfFuel => False
    end.
Proof.
  intros Hcount.
  destruct (train_body_spec E model s w) as (cost & w1 & Htp & Htr & Hvis & Hbody).
  exists cost, (net w1). cbv zeta.
  assert (Hnz : Averager.n_count (loss_avg (trained s cost)) <> 0).
  { cbn. lia. }
  pose proof (validation_part_spec E model (trained s cost) w1 Hnz) as Hvp.
  assert (Hout : forall s2 w2,
             validation_part E model (trained s cost) w1 = Ret s2 w2 ->
             i s2 = i s /\ net w2 = net w1
             /\ exists vseg,
                 validation_outcome E model (trained s cost) (net w1) s2 vseg
                 /\ visible (trace w2) = visible (trace w) ++ step_events s ++ vseg).
  { intros s2 w2 Hv. rewrite Hv in Hvp.
    destruct Hvp as [Hiv [(Hmod & -> & ->) | (Hmod & r & w0 & Hval & -> & _ & Hnet & Hext)]].
    - split; [reflexivity |]. split; [reflexivity |]. exists [].
      split; [split; [exact Hiv | left; repeat split; assumption] |].
      rewrite app_nil_r. exact Hvis.
    - split; [reflexivity |]. split; [exact Hnet |]. eexists.
      split; [split; [exact Hiv | right; split; [exact Hmod |]; exists r, w0;
                      repeat split; assumption] |].
      rewrite Hext, Hvis, <- app_assoc. reflexivity. }
  destruct (train_body E model s w) as [s' w' | e w' |]; [| | exact Hbody].
  - destruct Hbody as (s2 & w2 & x & Hv & Hx & Hmax & -> & _ & Hnet & Hext).
    destruct (Hout s2 w2 Hv) as (Hi & Hnet2 & vseg & Hcase & Hvis2).
    rewrite Hi in Hx, Hmax. exists s2, vseg, x.
    split; [exact Hcase |]. split; [exact Hx |]. split; [exact Hmax |].
    split; [reflexivity |]. split; [congruence |].
    rewrite Hext, Hvis2, Hi, Hnet2, <- !app_assoc. reflexivity.
  - destruct Hbody as [Hv | (s2 & w2 & Hv & Hrest)].
    + rewrite Hv in Hvp.
      destruct Hvp as [Hne [(Hiv & ->) | (Hiv & Hmod & Hval & _ & Hext)]].
      * left. split; [exact Hne |]. split; [exact Hiv | exact Hvis].
      * right. left. split; [exact Hne |]. split; [exact Hiv |].
        split; [exact Hmod |]. split; [exact Hval |].
        rewrite Hext, Hvis, <- app_assoc. reflexivity.
    + destruct (Hout s2 w2 Hv) as (Hi & Hnet2 & vseg & Hcase & Hvis2).
      right. right. exists s2, vseg. split; [exact Hcase |].
      destruct Hrest as [(Hx & -> & ->) | (x & Hx & Hmax & -> & _ & Hext)].
      * left. rewrite Hi in Hx. split; [exact Hx |]. split; [discriminate | exact Hvis2].
      * right. exists x. rewrite Hi in Hx, Hmax, Hext.
        split; [exact Hx |]. split; [exact Hmax |]. split; [reflexivity |].
        rewrite Hext, Hvis2, Hnet2, <- !app_assoc. reflexivity.
Qed.

(** ** Paths and what a turn saves *)

Lemma append_inj_l (a b c : string) : a +:+ b = a +:+ c -> b = c.
Proof.
  induction a as [| ch a IH]; [rewrite !append_nil; trivial |].
  rewrite !append_cons. intros H. injection H as H. exact (IH H).
Qed.

Lemma store_path_inj (E : env) (model : module_ref) (f g : string) :
  store_path E model f = store_path E model g -> f = g.
Proof.
  unfold store_path. intros H. apply append_inj_l in H.
  rewrite !append_cons, !append_nil in H. injection H as H. exact H.
Qed.

Lemma iter_path_not_best (E : env) (model : module_ref) (k : Z) :
  store_path E model (iter_file_name k) <> store_path E model "best_accuracy.pth"
  /\ store_path E model (iter_file_name k) <> store_path E model "best_norm_ed.pth".
Proof.
  split; intros H; apply store_path_inj in H; unfold iter_file_name in H;
    rewrite append_cons in H; discriminate H.
Qed.

Lemma saved_paths_app (a b : list event) :
  saved_paths (a ++ b) = saved_paths a ++ saved_paths b.
Proof. apply omap_app. Qed.

Lemma saved_paths_round (E : env) (model : module_ref) (s : loop_state) (r : vresult)
  (p : params) :
  saved_paths (round_events E model s r p)
  = (if F.gtb (r_accuracy r) (best_accuracy s)
     then [store_path E model "best_accuracy.pth"] else [])
    ++ (if F.ltb (r_norm_ED r) (best_norm_ed s)
        then [store_path E model "best_norm_ed.pth"] else []).
Proof.
  unfold round_events.
  destruct (F.gtb (r_accuracy r) (best_accuracy s));
    destruct (F.ltb (r_norm_ED r) (best_norm_ed s)); reflexivity.
Qed.

Lemma saved_paths_iter (E : env) (model : module_ref) (k x : Z) (p : params) :
  saved_paths (iter_events E model k x p)
  = if x mod 100000 =? 0 then [store_path E model (iter_file_name k)] else [].
Proof. unfold iter_events. destruct (x mod 100000 =? 0); reflexivity. Qed.

Lemma saved_paths_validation (E : env) (model : module_ref) (s1 s2 : loop_state)
  (p : params) (vseg : list event) :
  validation_outcome E model s1 p s2 vseg ->
  Forall (fun q => q = store_path E model "best_accuracy.pth"
                   \/ q = store_path E model "best_norm_ed.pth")
         (saved_paths vseg).
Proof.
  intros [_ [(_ & _ & ->) | (_ & r & w0 & _ & _ & ->)]]; [constructor |].
  rewrite saved_paths_round.
  destruct (F.gtb _ _); destruct (F.ltb _ _); cbn [app];
    repeat (apply Forall_cons_2;
            [first [left; reflexivity | right; reflexivity] |]);
    apply Forall_nil_2.
Qed.

(** ** Best-model tracking *)

Lemma same_refl (a : pyfloat) : F.same a a = true.
Proof.
  destruct a as [q |]; [| reflexivity]. cbn.
  rewrite Z.eqb_refl, Pos.eqb_refl. reflexivity.
Qed.

Lemma leb_refl (a : pyfloat) : F.is_fin a = true -> F.leb a a = true.
Proof.
  destruct a as [q |]; [| discriminate]. intros _. cbn.
  rewrite (proj1 (Qeq_alt q q) (Qeq_refl q)). reflexivity.
Qed.

Lemma ltb_leb (a b : pyfloat) :
  F.ltb a b = true -> F.leb a b = true /\ F.is_fin a = true /\ F.is_fin b = true.
Proof.
  destruct a as [x |], b as [y |]; try discriminate. cbn.
  destruct (x ?= y)%Q; try discriminate. intros _. repeat split.
Qed.

Lemma run_monitor_app {S : Type} (step : S -> event -> option S) (s : S)
  (a b : list event) :
  run_monitor step s (a ++ b)
  = match run_monitor step s a with
    | Some s' => run_monitor step s' b
    | None => None
    end.
Proof.
  revert s. induction a as [| e a IH]; intros s; cbn [app run_monitor]; [reflexivity |].
  destruct (step s e); [apply IH | reflexivity].
Qed.

Lemma run_monitor_visible (E : env) (model : module_ref) (t : tracker) (tr : list event) :
  run_monitor (observe E model) t (visible tr) = run_monitor (observe E model) t tr.
Proof.
  revert t. induction tr as [| e tr IH]; intros t; [reflexivity |].
  destruct e; cbn [visible List.filter is_makedirs negb run_monitor];
    try (destruct (observe E model t _); [apply IH | reflexivity]).
  cbn [observe]. apply IH.
Qed.

Lemma best_paths_differ (E : env) (model : module_ref) :
  String.eqb (store_path E model "best_norm_ed.pth")
             (store_path E model "best_accuracy.pth") = false.
Proof.
  apply String.eqb_neq. intros H. apply store_path_inj in H. discriminate H.
Qed.

Lemma iter_path_differs (E : env) (model : module_ref) (k : Z) :
  String.eqb (store_path E model (iter_file_name k))
             (store_path E model "best_accuracy.pth") = false
  /\ String.eqb (store_path E model (iter_file_name k))
                (store_path E model "best_norm_ed.pth") = false.
Proof.
  split; apply String.eqb_neq; apply iter_path_not_best.
Qed.

(** The monitor accepts a completed round and ends on the loop's bests. *)
Lemma observe_round (E : env) (model : module_ref) (s : loop_state) (r : vresult)
  (p : params) :
  F.is_fin (best_accuracy s) = true ->
  F.is_fin (best_norm_ed s) = true ->
  run_monitor (observe E model) (Tracker (best_accuracy s) (best_norm_ed s) None)
              (round_events E model s r p)
  = Some (Tracker (round_best_accuracy s r) (round_best_norm_ed s r) None)
  /\ F.is_fin (round_best_accuracy s r) = true
  /\ F.is_fin (round_best_norm_ed s r) = true.
Proof.
  intros Ha Hn. unfold round_events, round_best_accuracy, round_best_norm_ed.
  destruct (F.gtb (r_accuracy r) (best_accuracy s)) eqn:Hgt;
    destruct (F.ltb (r_norm_ED r) (best_norm_ed s)) eqn:Hlt;
    cbn [app run_monitor observe t_round t_accuracy t_norm_ed];
    rewrite ?String.eqb_refl, ?best_paths_differ, ?Hgt, ?Hlt;
    cbn [run_monitor observe t_round t_accuracy t_norm_ed];
    rewrite ?String.eqb_refl, ?best_paths_differ, ?Hgt, ?Hlt;
    cbn [run_monitor observe t_round t_accuracy t_norm_ed Bool.eqb andb];
    rewrite ?Hgt, ?Hlt, ?same_refl;
    cbn [Bool.eqb andb].
  - destruct (ltb_leb _ _ Hgt) as (-> & _ & Hfa).
    destruct (ltb_leb _ _ Hlt) as (-> & Hfn & _).
    cbn [andb run_monitor observe]. repeat split; assumption.
  - destruct (ltb_leb _ _ Hgt) as (-> & _ & Hfa).
    rewrite (leb_refl _ Hn). cbn [andb run_monitor observe]. repeat split; assumption.
  - destruct (ltb_leb _ _ Hlt) as (-> & Hfn & _).
    rewrite (leb_refl _ Ha). cbn [andb run_monitor observe]. repeat split; assumption.
  - rewrite (leb_refl _ Ha), (leb_refl _ Hn).
    cbn [andb run_monitor observe]. repeat split; assumption.
Qed.

Lemma observe_iter (E : env) (model : module_ref) (t : tracker) (k x : Z) (p : params) :
  run_monitor (observe E model) t (iter_events E model k x p) = Some t.
Proof.
  unfold iter_events. destruct (x mod 100000 =? 0); [| reflexivity].
  cbn [run_monitor observe].
  rewrite (proj1 (iter_path_differs E model k)), (proj2 (iter_path_differs E model k)).
  reflexivity.
Qed.

Lemma observe_validation_outcome (E : env) (model : module_ref) (s1 s2 : loop_state)
  (p : params) (vseg : list event) :
  validation_outcome E model s1 p s2 vseg ->
  F.is_fin (best_accuracy s1) = true ->
  F.is_fin (best_norm_ed s1) = true ->
  0 <= Averager.n_count (loss_avg s1) ->
  run_monitor (observe E model) (Tracker (best_accuracy s1) (best_norm_ed s1) None) vseg
  = Some (Tracker (best_accuracy s2) (best_norm_ed s2) None)
  /\ F.is_fin (best_accuracy s2) = true
  /\ F.is_fin (best_norm_ed s2) = true
  /\ 0 <= Averager.n_count (loss_avg s2)
  /\ current_step s2 = current_step s1
  /\ i s2 = i s1.
Proof.
  intros [_ [(_ & -> & ->) | (_ & r & w0 & _ & -> & ->)]] Ha Hn Hc.
  - repeat split; assumption.
  - destruct (observe_round E model s1 r p Ha Hn) as (Hrun & Ha' & Hn').
    cbn [round_state best_accuracy best_norm_ed loss_avg current_step i].
    repeat split; try assumption. cbn. lia.
Qed.

(** Apart from the printing of the bests, no event moves the monitor's
    bests. *)
Lemma observe_keeps_bests (E : env) (model : module_ref) (t t1 : tracker) (e : event) :
  observe E model t e = Some t1 ->
  match e with
  | EvPrint (BestLine a n) =>
      t1 = Tracker a n None
      /\ F.leb (t_accuracy t) a = true /\ F.leb n (t_norm_ed t) = true
  | _ => t_accuracy t1 = t_accuracy t /\ t_norm_ed t1 = t_norm_ed t
  end.
Proof.
  destruct t as [ta tn [[acc ned sa sn] |]];
    destruct e as [[txt | cs | k m l | k m vl a n | a n | m ps] | | | |];
    cbn [observe t_round t_accuracy t_norm_ed];
    try (intros H; injection H as <-; split; reflexivity);
    try discriminate.
  - destruct (Bool.eqb sa _ && Bool.eqb sn _ && F.same _ _ && F.same _ _) eqn:H1;
      cbn [andb]; [| discriminate].
    destruct (F.leb ta a) eqn:H2; cbn [andb]; [| discriminate].
    destruct (F.leb n tn) eqn:H3; [| discriminate].
    intros H; injection H as <-. repeat split.
  - destruct (String.eqb _ _).
    + destruct sa; [discriminate |]. destruct (F.gtb acc ta); [| discriminate].
      intros H; injection H as <-. split; reflexivity.
    + destruct (String.eqb _ _).
      * destruct sn; [discriminate |]. destruct (F.ltb ned tn); [| discriminate].
        intros H; injection H as <-. split; reflexivity.
      * intros H; injection H as <-. split; reflexivity.
  - destruct (String.eqb _ _); [discriminate |].
    destruct (String.eqb _ _); [discriminate |].
    intros H; injection H as <-. split; reflexivity.
Qed.

(** A trace the monitor accepts has monotone bests. *)
Lemma monitor_monotone (E : env) (model : module_ref) (tr : list event) :
  forall t t',
    run_monitor (observe E model) t tr = Some t' ->
    monotone_from (t_accuracy t) (t_norm_ed t) (best_lines tr) = true.
Proof.
  induction tr as [| e tr IH]; intros t t' Hrun; [reflexivity |].
  cbn [run_monitor] in Hrun.
  destruct (observe E model t e) as [t1 |] eqn:Hobs; [| discriminate].
  pose proof (observe_keeps_bests E model t t1 e Hobs) as Hkeep.
  specialize (IH t1 t' Hrun).
  destruct e as [[txt | cs | k m l | k m vl a n | a n | m ps] | | | |];
    try (change (best_lines (?e :: tr)) with (best_lines tr);
         destruct Hkeep as [<- <-]; exact IH).
  destruct Hkeep as (-> & Hle1 & Hle2).
  change (best_lines (EvPrint (BestLine a n) :: tr)) with ((a, n) :: best_lines tr).
  cbn [monotone_from]. rewrite Hle1, Hle2. exact IH.
Qed.

(** The rule of the [while] loop: an invariant of the body that also
    counts [current_step] up holds when the loop is left, and the fuel
    [total - current_step] is enough. *)
Lemma train_loop_rule (E : env) (model : module_ref) (total : Z)
  (Inv : loop_state -> world -> Prop) (Exc : Py.exn -> world -> Prop) :
  (forall s w,
      Inv s w -> current_step s < total ->
      match train_body E model s w with
      | Ret s' w' => Inv s' w' /\ current_step s' = current_step s + 1
      | Raise e w' => Exc e w'
      | OutOfFuel => False
      end) ->
  forall fuel s w,
    Inv s w -> total - current_step s <= Z.of_nat fuel ->
    match train_loop E model total fuel s w with
    | Ret _ w' => exists s', Inv s' w' /\ total <= current_step s'
    | Raise e w' => Exc e w'
    | OutOfFuel => False
    end.
Proof.
  intros Hbody. induction fuel as [| fuel IH]; intros s w Hinv Hfuel; cbn [train_loop].
  - destruct (Z.ltb_spec (current_step s) total); [lia |].
    exists s. split; assumption.
  - destruct (Z.ltb_spec (current_step s) total) as [Hlt | Hge].
    + specialize (Hbody s w Hinv Hlt). unfold bind.
      destruct (train_body E model s w) as [s' w' | e w' |]; [| exact Hbody | exact Hbody].
      destruct Hbody as [Hinv' Hstep]. apply IH; [exact Hinv' | lia].
    + exists s. split; assumption.
Qed.

Lemma tracking_body (E : env) (model : module_ref) (s : loop_state) (w : world) :
  tracking E model s w ->
  match train_body E model s w with
  | Ret s' w' => tracking E model s' w' /\ current_step s' = current_step s + 1
  | Raise _ w' => accepted E model w'
  | OutOfFuel => False
  end.
Proof.
  intros (Hrun & Ha & Hn & Hc).
  destruct (train_body_events E model s w Hc) as (cost & p & Hbody). cbv zeta in Hbody.
  assert (Hc1 : 0 <= Averager.n_count (loss_avg (trained s cost))) by (cbn; lia).
  assert (Hstep : run_monitor (observe E model) tracker0
                              (visible (trace w) ++ step_events s)
                  = Some (Tracker (best_accuracy s) (best_norm_ed s) None)).
  { rewrite run_monitor_app, Hrun. reflexivity. }
  assert (Hval : forall s2 vseg,
             validation_outcome E model (trained s cost) p s2 vseg ->
             run_monitor (observe E model) tracker0
                         (visible (trace w) ++ step_events s ++ vseg)
             = Some (Tracker (best_accuracy s2) (best_norm_ed s2) None)
             /\ F.is_fin (best_accuracy s2) = true
             /\ F.is_fin (best_norm_ed s2) = true
             /\ 0 <= Averager.n_count (loss_avg s2)
             /\ current_step s2 = current_step s).
  { intros s2 vseg Hcase.
    destruct (observe_validation_outcome E model _ _ _ _ Hcase Ha Hn Hc1)
      as (Hv & Ha2 & Hn2 & Hc2 & Hcs & _).
    rewrite app_assoc, run_monitor_app, Hstep.
    repeat split; assumption. }
  destruct (train_body E model s w) as [s' w' | e w' |]; [| | exact Hbody].
  - destruct Hbody as (s2 & vseg & x & Hcase & _ & _ & -> & <- & Hvis).
    destruct (Hval s2 vseg Hcase) as (Hv & Ha2 & Hn2 & Hc2 & Hcs).
    split; [| cbn; lia].
    split; [| repeat split; assumption].
    rewrite Hvis.
    replace (visible (trace w) ++ step_events s ++ vseg
             ++ iter_events E model (i s) x (net w'))
      with ((visible (trace w) ++ step_events s ++ vseg)
            ++ iter_events E model (i s) x (net w'))
      by (rewrite <- !app_assoc; reflexivity).
    rewrite run_monitor_app, Hv. apply observe_iter.
  - destruct Hbody as [(_ & _ & Hvis) | [(_ & _ & _ & _ & Hvis) | Hbody]].
    + eexists. rewrite Hvis. exact Hstep.
    + eexists. rewrite Hvis, app_assoc, run_monitor_app, Hstep. reflexivity.
    + destruct Hbody as (s2 & vseg & Hcase & [(_ & _ & Hvis) | (x & _ & _ & _ & Hvis)]);
        destruct (Hval s2 vseg Hcase) as (Hv & _).
      * eexists. rewrite Hvis. exact Hv.
      * eexists. rewrite Hvis.
        replace (visible (trace w) ++ step_events s ++ vseg
                 ++ iter_events E model (i s) x p
                 ++ [EvPrint (Text "end the training")])
          with ((visible (trace w) ++ step_events s ++ vseg)
                ++ iter_events E model (i s) x p
                ++ [EvPrint (Text "end the training")])
          by (rewrite <- !app_assoc; reflexivity).
        rewrite run_monitor_app, Hv, run_monitor_app, observe_iter. reflexivity.
Qed.

Lemma observe_banner (E : env) (model : module_ref) (t : tracker) (seg : list event) :
  forallb is_banner seg = true -> run_monitor (observe E model) t seg = Some t.
Proof.
  induction seg as [| e seg IH]; [reflexivity |]. cbn [forallb].
  intros H. apply andb_true_iff in H. destruct H as [He Hseg].
  destruct e as [[txt | cs | k m l | k m vl a n | a n | m ps] | | | |];
    try discriminate He; cbn [run_monitor observe]; exact (IH Hseg).
Qed.

Lemma accepted_monotone (E : env) (model : module_ref) (w : world) :
  accepted E model w ->
  (exists t, run_monitor (observe E model) tracker0 (trace w) = Some t)
  /\ monotone_from (F.of_Z (-1)) (F.of_Z 1000000) (best_lines (trace w)) = true.
Proof.
  intros [t Ht]. rewrite run_monitor_visible in Ht.
  split; [exists t; exact Ht |].
  exact (monitor_monotone E model (trace w) tracker0 t Ht).
Qed.

Lemma total_num_steps_frame (E : env) (num_max_steps num_epoch : option Z) (w : world) :
  match total_num_steps E num_max_steps num_epoch w with
  | Ret _ w' => w' = w
  | Raise _ w' => w' = w
  | OutOfFuel => False
  end.
Proof.
  unfold total_num_steps. destruct (batch_size E =? 0); reflexivity.
Qed.

(** The whole of [train] under the monitor. *)
Lemma train_accepted (E : env) (num_max_steps num_epoch : option Z) (w : world) :
  trace w = [] ->
  match train E num_max_steps num_epoch w with
  | Ret _ w' => accepted E (DataParallel (the_device E)) w'
  | Raise _ w' => accepted E (DataParallel (the_device E)) w'
  | OutOfFuel => False
  end.
Proof.
  intros Hempty. unfold train.
  rewrite (bind_ret (assert_ (config_assertion num_max_steps num_epoch)) _ w w tt eq_refl).
  pose proof (load_model_frame E (stored_model E) w) as Hload.
  destruct (load_model E (stored_model E) w) as [m w1 | e w1 |] eqn:Hl;
    [| | contradiction].
  - destruct Hload as (-> & _ & _ & seg & Htr & Hseg).
    rewrite Hempty in Htr. cbn [app] in Htr.
    rewrite (bind_ret _ _ _ _ _ Hl).
    rewrite (bind_ret (set_training true) _ w1
               (World (fs w1) (net w1) true (trace w1)) tt eq_refl).
    set (w2 := World (fs w1) (net w1) true (trace w1)).
    assert (Hstart : run_monitor (observe E (DataParallel (the_device E))) tracker0
                                 (visible (trace w2)) = Some tracker0).
    { rewrite run_monitor_visible. cbn [w2 trace]. rewrite Htr.
      apply observe_banner. exact Hseg. }
    pose proof (total_num_steps_frame E num_max_steps num_epoch w2) as Htotal.
    destruct (total_num_steps E num_max_steps num_epoch w2) as [total w3 | e w3 |] eqn:Ht;
      [| | contradiction]; subst w3.
    2: { rewrite (bind_raise _ _ _ _ _ Ht). exists tracker0. exact Hstart. }
    + rewrite (bind_ret _ _ _ _ _ Ht).
      pose proof (train_loop_rule E (DataParallel (the_device E)) total
                    (tracking E (DataParallel (the_device E)))
                    (fun _ w' => accepted E (DataParallel (the_device E)) w')) as Hrule.
      specialize (Hrule (fun s w0 Hinv _ => tracking_body E _ s w0 Hinv)).
      specialize (Hrule (Z.to_nat total) loop_state0 w2).
      assert (Htrack : tracking E (DataParallel (the_device E)) loop_state0 w2).
      { split; [exact Hstart |]. repeat split. cbn. lia. }
      assert (Hfuel : total - current_step loop_state0 <= Z.of_nat (Z.to_nat total)).
      { cbn [loop_state0 current_step]. lia. }
      specialize (Hrule Htrack Hfuel).
      destruct (train_loop _ _ _ _ _ w2) as [[] w' | e w' |];
        [| exact Hrule | exact Hrule].
      destruct Hrule as (s' & (Hrun & _) & _). eexists. exact Hrun.
  - destruct Hload as (_ & _ & seg & Htr & Hseg).
    rewrite Hempty in Htr. cbn [app] in Htr.
    rewrite (bind_raise _ _ _ _ _ Hl).
    exists tracker0. rewrite run_monitor_visible, Htr.
    apply observe_banner. exact Hseg.
Qed.


(** ** The scenario of ten steps *)

Lemma optimizer_steps_app (a b : list event) :
  optimizer_steps (a ++ b) = (optimizer_steps a + optimizer_steps b)%nat.
Proof. unfold optimizer_steps. rewrite List.filter_app, length_app. reflexivity. Qed.

Lemma validation_indices_app (p : string) (a b : list event) :
  validation_indices p (a ++ b) = validation_indices p a ++ validation_indices p b.
Proof. apply omap_app. Qed.

Lemma optimizer_steps_visible (tr : list event) :
  optimizer_steps (visible tr) = optimizer_steps tr.
Proof.
  induction tr as [| e tr IH]; [reflexivity |].
  unfold optimizer_steps, visible in *.
  destruct e; cbn [List.filter is_makedirs negb length]; rewrite ?IH; reflexivity.
Qed.

Lemma omap_visible {A : Type} (f : event -> option A) (tr : list event) :
  (forall d, f (EvMakedirs d) = None) ->
  omap f (visible tr) = omap f tr.
Proof.
  intros Hf. induction tr as [| e tr IH]; [reflexivity |].
  change (omap f (e :: tr))
    with (match f e with Some y => y :: omap f tr | None => omap f tr end).
  destruct e as [l | d | q o | q l |];
    try (change (visible (?e :: tr)) with (e :: visible tr);
         change (omap f (?e :: visible tr))
           with (match f e with Some y => y :: omap f (visible tr)
                           | None => omap f (visible tr) end);
         rewrite IH; reflexivity).
  change (visible (EvMakedirs d :: tr)) with (visible tr).
  rewrite Hf. exact IH.
Qed.

Lemma validation_indices_visible (p : string) (tr : list event) :
  validation_indices p (visible tr) = validation_indices p tr.
Proof. apply omap_visible. reflexivity. Qed.

Lemma saved_paths_visible (tr : list event) :
  saved_paths (visible tr) = saved_paths tr.
Proof. apply omap_visible. reflexivity. Qed.

Lemma round_counts (E : env) (model : module_ref) (s : loop_state) (r : vresult)
  (p : params) :
  optimizer_steps (round_events E model s r p) = 0%nat
  /\ validation_indices (log_path E) (round_events E model s r p) = [i s].
Proof.
  unfold round_events.
  destruct (F.gtb _ _); destruct (F.ltb _ _); cbn [app];
    (split; [reflexivity |]);
    unfold validation_indices; cbn [omap list_omap];
    rewrite String.eqb_refl; reflexivity.
Qed.

Lemma banner_counts (p : string) (seg : list event) :
  forallb is_banner seg = true ->
  optimizer_steps seg = 0%nat /\ validation_indices p seg = [] /\ saved_paths seg = [].
Proof.
  induction seg as [| e seg IH]; [repeat split |]. cbn [forallb].
  intros H. apply andb_true_iff in H. destruct H as [He Hseg].
  destruct (IH Hseg) as (H1 & H2 & H3).
  destruct e as [[txt | cs | k m l | k m vl a n | a n | m ps] | | | |];
    try discriminate He; repeat split; assumption.
Qed.

Lemma at_most_two (a b : string) (l : list string) :
  Forall (fun q => q = a \/ q = b) l -> (length (remove_dups l) <= 2)%nat.
Proof.
  intros H.
  assert (Hsub : remove_dups l ⊆+ [a; b]).
  { apply NoDup_submseteq; [apply NoDup_remove_dups |].
    intros x Hx. apply (proj1 (elem_of_remove_dups _ _)) in Hx.
    rewrite Forall_forall in H. destruct (H x Hx) as [-> | ->].
    - apply list_elem_of_here.
    - apply list_elem_of_further, list_elem_of_here. }
  apply submseteq_length in Hsub. exact Hsub.
Qed.

Lemma scenario_body (E : env) (s : loop_state) (w : world) :
  max_train_steps E = 10 ->
  validation_interval_steps E = 5 ->
  (forall w0, (0 < total_samples (validation_set E w0))%nat) ->
  scenario_invariant E s w ->
  current_step s < 10 ->
  match train_body E (DataParallel (the_device E)) s w with
  | Ret s' w' => scenario_invariant E s' w' /\ current_step s' = current_step s + 1
  | Raise _ _ => False
  | OutOfFuel => False
  end.
Proof.
  intros Hmax Hiv Hval (Hi & Hrange & Hc & Hsteps & Hidx & Hsaved) Hlt.
  set (model := DataParallel (the_device E)).
  destruct (train_body_events E model s w Hc) as (cost & p & Hbody). cbv zeta in Hbody.
  assert (Hfloat : float_of_int (i s + 1) = Some (i s + 1)).
  { apply float_of_int_exact. change (2 ^ 53) with 9007199254740992. lia. }
  assert (Hnot_due : forall q, iter_events E model (i s) (i s + 1) q = []).
  { intros q. unfold iter_events.
    destruct (Z.eqb_spec ((i s + 1) mod 100000) 0) as [H0 | _]; [| reflexivity].
    rewrite Z.mod_small in H0 by lia. lia. }
  destruct (train_body E model s w) as [s' w' | e w' |]; [| | exact Hbody].
  - destruct Hbody as (s2 & vseg & x & Hcase & Hx & _ & -> & _ & Hvis).
    rewrite Hfloat in Hx. injection Hx as <-.
    rewrite Hnot_due, app_nil_r in Hvis.
    pose proof (saved_paths_validation _ _ _ _ _ _ Hcase) as Hbest.
    destruct Hcase as [_ Hcase]. rewrite Hiv in Hcase.
    cbn [trained i] in Hcase.
    assert (Hshape :
      current_step s2 = current_step s /\ i s2 = i s
      /\ 0 <= Averager.n_count (loss_avg s2)
      /\ optimizer_steps vseg = 0%nat
      /\ validation_indices (log_path E) vseg
         = if i s mod 5 =? 0 then [i s] else []).
    { destruct Hcase as [(Hmod & -> & ->) | (Hmod & r & w0 & _ & -> & ->)].
      - destruct (Z.eqb_spec (i s mod 5) 0); [contradiction |].
        cbn. repeat split; lia.
      - rewrite Hmod. cbn [Z.eqb].
        destruct (round_counts E model (trained s cost) r p) as [H1 H2].
        cbn [round_state current_step i loss_avg trained Averager.new Averager.n_count].
        repeat split; try assumption; lia. }
    destruct Hshape as (Hcs & Hi2 & Hc2 & Hs2 & Hv2).
    split; [| cbn [advance current_step]; lia].
    unfold scenario_invariant. cbn [advance current_step i loss_avg].
    rewrite Hvis, !optimizer_steps_app, !validation_indices_app, !saved_paths_app.
    rewrite Hsteps, Hidx, Hs2, Hv2.
    split; [lia |]. split; [lia |]. split; [exact Hc2 |]. split; [| split].
    + cbn. lia.
    + rewrite Hi2. cbn [validation_indices omap list_omap step_events app].
      change (omap _ (step_events s)) with (@nil Z). cbn [app].
      destruct (Z.eqb_spec (i s mod 5) 0) as [Hmod | Hmod].
      * assert (Hcases : i s = 0 \/ i s = 5).
        { pose proof (Z.div_mod (i s) 5 ltac:(lia)) as Hdm. lia. }
        destruct Hcases as [-> | ->]; reflexivity.
      * assert (Hne0 : i s <> 0) by (intros H0; rewrite H0 in Hmod; apply Hmod; reflexivity).
        assert (Hne5 : i s <> 5) by (intros H5; rewrite H5 in Hmod; apply Hmod; reflexivity).
        rewrite app_nil_r.
        destruct (Z.eqb_spec (i s) 0); [contradiction |].
        destruct (Z.eqb_spec (i s + 1) 0); [lia |].
        destruct (Z.leb_spec (i s) 5); destruct (Z.leb_spec (i s + 1) 5);
          try reflexivity; lia.
    + apply Forall_app. split; [exact Hsaved |].
      apply Forall_app. split; [constructor | exact Hbest].
  - destruct Hbody as [(_ & Hiv0 & _) | [(_ & _ & _ & Hraise & _) | Hbody]].
    + lia.
    + destruct Hraise as [w0 Hraise].
      destruct (validation_returns E model w0 (Hval w0)) as [r Hret].
      rewrite Hret in Hraise. discriminate Hraise.
    + destruct Hbody as (s2 & vseg & _ & [(Hx & _) | (x & _ & Hexit & _)]).
      * rewrite Hfloat in Hx. discriminate Hx.
      * lia.
Qed.

(** C8: with [max_train_steps = 10] and [validation_interval_steps = 5],
    twenty samples in batches of four, and a step budget of ten, a run of
    [train] that finds its model and samples to validate on returns after
    exactly ten optimizer steps; it appends exactly two validation blocks
    to the log of the experiment, those of [i = 0] and [i = 5]; and every
    file it saves is one of the two best-model files, so at most two
    checkpoint files, each stored only on a strict improvement. *)
Theorem ten_steps_two_validations
  (E : env) (files : gmap string node) (p : params) (mode : bool) :
  max_train_steps E = 10 ->
  validation_interval_steps E = 5 ->
  num_samples E = 20 ->
  batch_size E = 4 ->
  (forall w, (0 < total_samples (validation_set E w))%nat) ->
  (forall e w1, load_model E (stored_model E) (World files p mode []) <> Raise e w1) ->
  exists w',
    train E (Some 10) None (World files p mode []) = Ret tt w'
    /\ optimizer_steps (trace w') = 10%nat
    /\ validation_indices (log_path E) (trace w') = [0; 5]
    /\ Forall (best_file E) (saved_paths (trace w'))
    /\ (length (remove_dups (saved_paths (trace w'))) <= 2)%nat
    /\ exists t, run_monitor (observe E (DataParallel (the_device E))) tracker0 (trace w')
                 = Some t.
Proof.
  intros Hmax Hiv Hsamples Hbatch Hval Hload.
  set (w := World files p mode []).
  pose proof (train_accepted E (Some 10) None w eq_refl) as Hacc.
  assert (Hrun : exists w',
             train E (Some 10) None w = Ret tt w'
             /\ optimizer_steps (visible (trace w')) = 10%nat
             /\ validation_indices (log_path E) (visible (trace w')) = [0; 5]
             /\ Forall (best_file E) (saved_paths (visible (trace w')))).
  { unfold train.
    rewrite (bind_ret (assert_ (config_assertion (Some 10) None)) _ w w tt eq_refl).
    pose proof (load_model_frame E (stored_model E) w) as Hframe.
    destruct (load_model E (stored_model E) w) as [m w1 | e w1 |] eqn:Hl;
      [| exfalso; exact (Hload e w1 Hl) | contradiction].
    destruct Hframe as (-> & _ & _ & seg & Htr & Hseg). cbn [w trace app] in Htr.
    rewrite (bind_ret _ _ _ _ _ Hl).
    rewrite (bind_ret (set_training true) _ w1
               (World (fs w1) (net w1) true (trace w1)) tt eq_refl).
    set (w2 := World (fs w1) (net w1) true (trace w1)).
    assert (Htotal : total_num_steps E (Some 10) None w2 = Ret 10 w2).
    { unfold total_num_steps. rewrite Hbatch. reflexivity. }
    rewrite (bind_ret _ _ _ _ _ Htotal).
    destruct (banner_counts (log_path E) seg Hseg) as (Hb1 & Hb2 & Hb3).
    assert (Hinit : scenario_invariant E loop_state0 w2).
    { unfold scenario_invariant. cbn [w2 trace loop_state0 i current_step loss_avg].
      rewrite optimizer_steps_visible, validation_indices_visible, saved_paths_visible.
      rewrite Htr, Hb1, Hb2, Hb3. cbn. repeat split; try lia. constructor. }
    pose proof (train_loop_rule E (DataParallel (the_device E)) 10
                  (scenario_invariant E) (fun _ _ => False)
                  (fun s w0 Hinv Hlt => scenario_body E s w0 Hmax Hiv Hval Hinv Hlt)
                  (Z.to_nat 10) loop_state0 w2 Hinit) as Hrule.
    assert (Hfuel : 10 - current_step loop_state0 <= Z.of_nat (Z.to_nat 10))
      by (cbn; lia).
    specialize (Hrule Hfuel).
    destruct (train_loop E (DataParallel (the_device E)) 10 (Z.to_nat 10) loop_state0 w2)
      as [[] w' | e w' |]; [| contradiction | contradiction].
    destruct Hrule as (s' & (Hi & Hrange & _ & Hsteps & Hidx & Hsaved) & Hdone).
    assert (Hten : i s' = 10) by lia.
    rewrite Hten in Hsteps, Hidx.
    exists w'. repeat split; assumption. }
  destruct Hrun as (w' & Hret & Hsteps & Hidx & Hsaved).
  rewrite Hret in Hacc.
  rewrite optimizer_steps_visible in Hsteps.
  rewrite validation_indices_visible in Hidx.
  rewrite saved_paths_visible in Hsaved.
  exists w'. split; [exact Hret |]. split; [exact Hsteps |]. split; [exact Hidx |].
  split; [exact Hsaved |]. split.
  - exact (at_most_two _ _ _ Hsaved).
  - exact (proj1 (accepted_monotone _ _ _ Hacc)).
Qed.

Lemma ten_steps_two_validations_witness :
  exists w',
    train toy_env (Some 10) None toy_world = Ret tt w'
    /\ optimizer_steps (trace w') = 10%nat
    /\ validation_indices (log_path toy_env) (trace w') = [0; 5]
    /\ Forall (best_file toy_env) (saved_paths (trace w'))
    /\ (length (remove_dups (saved_paths (trace w'))) <= 2)%nat
    /\ exists t, run_monitor (observe toy_env (DataParallel (the_device toy_env)))
                             tracker0 (trace w') = Some t.
Proof.
  assert (Hmax : max_train_steps toy_env = 10) by reflexivity.
  assert (Hiv : validation_interval_steps toy_env = 5) by reflexivity.
  assert (Hsamples : num_samples toy_env = 20) by reflexivity.
  assert (Hbatch : batch_size toy_env = 4) by reflexivity.
  assert (Hval : forall w, (0 < total_samples (validation_set toy_env w))%nat).
  { intros w. cbn. lia. }
  assert (Hload : forall e w1,
             load_model toy_env (stored_model toy_env) (World ∅ [] true []) <> Raise e w1).
  { intros e w1 H. vm_compute in H. discriminate H. }
  exact (ten_steps_two_validations toy_env ∅ [] true
           Hmax Hiv Hsamples Hbatch Hval Hload).
Defined.

(** ** The numbered snapshots *)

(** Below [2 ^ 1023] every integer has a float. *)
Lemma float_of_int_defined (n : Z) :
  0 <= n < 2 ^ 1023 -> exists x, float_of_int n = Some x.
Proof.
  intros [Hlo Hhi]. unfold float_of_int.
  destruct (Z.eq_dec n 0) as [-> | Hn0]; [eexists; reflexivity |].
  rewrite (Z.abs_eq n), Z.sgn_pos, Z.mul_1_l by lia.
  assert (Hbound : 0 <= round_to_53 n <= 2 * n).
  { unfold round_to_53.
    destruct (Z.leb_spec (Z.log2 n + 1) 53) as [_ | Hbits]; [lia |].
    set (sh := Z.log2 n + 1 - 53).
    assert (Hsh : 0 < sh) by (unfold sh; lia).
    pose proof (Z.log2_spec n ltac:(lia)) as [Hlog _].
    assert (Hpow : 0 < 2 ^ sh) by (apply Z.pow_pos_nonneg; lia).
    assert (Hle : 2 ^ sh <= 2 ^ Z.log2 n) by (apply Z.pow_le_mono_r; unfold sh; lia).
    rewrite Z.shiftr_div_pow2 by lia.
    pose proof (Z.mul_div_le n (2 ^ sh) Hpow) as Hdiv.
    assert (Hq : 0 <= n / 2 ^ sh) by (apply Z.div_pos; lia).
    destruct ((Z.shiftl 1 (sh - 1) <? Z.land n (Z.ones sh))
              || (Z.land n (Z.ones sh) =? Z.shiftl 1 (sh - 1)) && Z.odd (n / 2 ^ sh));
      rewrite Z.shiftl_mul_pow2 by lia; nia. }
  assert (Hbig : Z.abs (round_to_53 n) < 2 ^ 1024).
  { rewrite Z.abs_eq by lia.
    assert (H2 : 2 * 2 ^ 1023 = 2 ^ 1024) by reflexivity. lia. }
  apply Z.ltb_lt in Hbig. rewrite Hbig. eexists. reflexivity.
Qed.

Lemma far_float : float_of_int (far_step + 1) = Some far_step.
Proof. vm_compute. reflexivity. Qed.

Lemma far_body (s : loop_state) (w : world) :
  far_invariant s w ->
  current_step s < far_step + 1 ->
  match train_body far_env (DataParallel cpu) s w with
  | Ret s' w' => far_invariant s' w' /\ current_step s' = current_step s + 1
  | Raise _ _ => False
  | OutOfFuel => False
  end.
Proof.
  intros (Hi & Hrange & Hc & _) Hlt.
  destruct (train_body_events far_env (DataParallel cpu) s w Hc) as (cost & p & Hbody).
  cbv zeta in Hbody.
  assert (Hfar : far_step + 1 < 2 ^ 1023) by reflexivity.
  destruct (float_of_int_defined (i s + 1) ltac:(lia)) as [x Hfloat].
  destruct (train_body far_env (DataParallel cpu) s w) as [s' w' | e w' |];
    [| | exact Hbody].
  - destruct Hbody as (s2 & vseg & x' & Hcase & Hx & _ & -> & _ & Hvis).
    destruct Hcase as [_ [(_ & -> & _) | (_ & r & w0 & _ & -> & _)]];
      (split; [| cbn [advance trained round_state current_step]; lia]);
      unfold far_invariant;
      cbn [advance trained round_state current_step i loss_avg
           Averager.new Averager.add Averager.n_count];
      (split; [lia |]); (split; [lia |]); (split; [lia |]);
      intros Hpast;
      (assert (Hat : i s = far_step) by lia);
      rewrite Hat, far_float in Hx; injection Hx as <-;
      rewrite Hvis, Hat, !saved_paths_app, saved_paths_iter;
      apply in_or_app; right; apply in_or_app; right; apply in_or_app; right;
      left; reflexivity.
  - destruct Hbody as [(_ & Hiv0 & _) | [(_ & _ & _ & Hraise & _) | Hbody]].
    + discriminate Hiv0.
    + destruct Hraise as [w0 Hraise].
      assert (Hpos : (0 < total_samples (validation_set far_env w0))%nat)
        by (cbn; lia).
      destruct (validation_returns far_env (DataParallel cpu) w0 Hpos) as [r Hret].
      rewrite Hret in Hraise. discriminate Hraise.
    + destruct Hbody as (s2 & vseg & _ & [(Hx & _) | (x' & _ & Hexit & _)]).
      * rewrite Hfloat in Hx. discriminate Hx.
      * cbn [far_env max_train_steps] in Hexit. lia.
Qed.

(** The run of [far_env] on a budget of [far_step + 1] steps returns, and
    has saved the snapshot of the turn [i = far_step]. *)
Lemma far_run :
  exists w',
    train far_env (Some (far_step + 1)) None toy_world = Ret tt w'
    /\ In far_iter_path (saved_paths (trace w')).
Proof.
  unfold train.
  rewrite (bind_ret (assert_ (config_assertion (Some (far_step + 1)) None)) _
             toy_world toy_world tt eq_refl).
  assert (Hl : exists w1,
             load_model far_env (stored_model far_env) toy_world
             = Ret (DataParallel cpu) w1
             /\ saved_paths (trace w1) = []).
  { eexists. split; [vm_compute; reflexivity | reflexivity]. }
  destruct Hl as (w1 & Hl & Hnone).
  rewrite (bind_ret _ _ _ _ _ Hl).
  rewrite (bind_ret (set_training true) _ w1
             (World (fs w1) (net w1) true (trace w1)) tt eq_refl).
  set (w2 := World (fs w1) (net w1) true (trace w1)).
  assert (Htotal : total_num_steps far_env (Some (far_step + 1)) None w2
                   = Ret (far_step + 1) w2) by reflexivity.
  rewrite (bind_ret _ _ _ _ _ Htotal).
  assert (Hinit : far_invariant loop_state0 w2).
  { unfold far_invariant.
    change (i loop_state0) with 0. change (current_step loop_state0) with 0.
    change (Averager.n_count (loss_avg loop_state0)) with 0.
    split; [reflexivity |]. split; [split; [lia | discriminate] |].
    split; [lia |]. intros Hpast. exfalso. revert Hpast. apply Z.le_ngt. discriminate. }
  assert (Hfuel : far_step + 1 - current_step loop_state0
                  <= Z.of_nat (Z.to_nat (far_step + 1))).
  { change (current_step loop_state0) with 0.
    rewrite Z2Nat.id by discriminate. rewrite Z.sub_0_r. apply Z.le_refl. }
  revert Hfuel. generalize (Z.to_nat (far_step + 1)) as fuel. intros fuel Hfuel.
  pose proof (train_loop_rule far_env (DataParallel cpu) (far_step + 1)
                far_invariant (fun _ _ => False) far_body
                fuel loop_state0 w2 Hinit Hfuel) as Hrule.
  destruct (train_loop far_env (DataParallel cpu) (far_step + 1) fuel loop_state0 w2)
    as [[] w' | e w' |]; [| contradiction | contradiction].
  destruct Hrule as (s' & (Hi & Hrange & _ & Hsaved) & Hdone).
  exists w'. split; [reflexivity |].
  rewrite <- saved_paths_visible. apply Hsaved.
  rewrite Hi. apply Z.lt_le_trans with (far_step + 1); [| exact Hdone].
  reflexivity.
Qed.

(** C9, as stated, fails far beyond [2 ^ 53]: at [i = 2 ^ 55 * 3125] the
    number [i + 1] is not a multiple of 100000, but [float(i + 1)] is, and
    the turn saves [iter_112589990684262400001.pth]; a run of [train] on
    a budget of that many steps gets there. *)
Lemma iter_checkpoint_off_multiple :
  (i far_state + 1) mod 100000 = 1
  /\ match train_body toy_env (DataParallel cpu) far_state toy_world with
     | Ret _ w' => saved_paths (trace w') = [far_iter_path]
     | _ => False
     end
  /\ exists w',
       train far_env (Some (far_step + 1)) None toy_world = Ret tt w'
       /\ In far_iter_path (saved_paths (trace w')).
Proof.
  split; [vm_compute; reflexivity |]. split; [vm_compute; reflexivity |].
  exact far_run.
Qed.

(** C9 (amended): in every turn of the loop whose counter satisfies
    [0 <= i] and [i + 1 <= 2 ^ 53], the iteration checkpoint saves
    [iter_<i+1>.pth] if [i + 1] is a multiple of 100000 and nothing
    otherwise.  A turn that runs to its end (or to the exit at
    [max_train_steps]) saves what its validation part saved, which are
    best-model files only, and then that one file if and only if [i + 1]
    is a multiple of 100000, whatever the validation part found; a turn
    that fails earlier saves best-model files at most. *)
Theorem iter_checkpoint_per_100000
  (E : env) (model : module_ref) (s : loop_state) (w : world) :
  0 <= i s -> i s + 1 <= 2 ^ 53 -> 0 <= Averager.n_count (loss_avg s) ->
  let due := (i s + 1) mod 100000 =? 0 in
  let iter_path := store_path E model ("iter_" +:+ Py.str (i s + 1) +:+ ".pth") in
  let best q := q = store_path E model "best_accuracy.pth"
                \/ q = store_path E model "best_norm_ed.pth" in
  (exists w',
      iter_checkpoint E model s w = Ret tt w'
      /\ extends w w' (if due then [EvSave iter_path (OModule model (net w))] else []))
  /\ match train_body E model s w with
     | Ret _ w' =>
         exists seg vpaths,
           visible (trace w') = visible (trace w) ++ seg
           /\ saved_paths seg = vpaths ++ (if due then [iter_path] else [])
           /\ Forall best vpaths
     | Raise e w' =>
         exists seg vpaths,
           visible (trace w') = visible (trace w) ++ seg
           /\ Forall best vpaths
           /\ (e = Py.SystemExit ->
               saved_paths seg = vpaths ++ (if due then [iter_path] else []))
           /\ (e <> Py.SystemExit -> saved_paths seg = vpaths)
     | OutOfFuel => False
     end.
Proof.
  intros Hlo Hhi Hcount. cbv zeta.
  assert (Hfloat : float_of_int (i s + 1) = Some (i s + 1))
    by (apply float_of_int_exact; lia).
  split.
  - pose proof (iter_checkpoint_spec E model s w) as H. rewrite Hfloat in H.
    destruct H as (w' & Heq & _ & Hext). exists w'. split; [exact Heq | exact Hext].
  - destruct (train_body_events E model s w Hcount) as (cost & p & Hbody).
    cbv zeta in Hbody.
    destruct (train_body E model s w) as [s' w' | e w' |]; [| | exact Hbody].
    + destruct Hbody as (s2 & vseg & x & Hcase & Hx & _ & _ & _ & Hvis).
      rewrite Hfloat in Hx. injection Hx as <-.
      exists (step_events s ++ vseg ++ iter_events E model (i s) (i s + 1) p),
             (saved_paths vseg).
      split; [exact Hvis |]. split.
      * rewrite !saved_paths_app, saved_paths_iter. reflexivity.
      * exact (saved_paths_validation _ _ _ _ _ _ Hcase).
    + destruct Hbody as [(Hne & _ & Hvis) | [(Hne & _ & _ & _ & Hvis) | Hbody]].
      * exists (step_events s), []. split; [exact Hvis |].
        split; [constructor |]. split; [contradiction | reflexivity].
      * exists (step_events s ++ loss_events E (trained s cost)), [].
        split; [exact Hvis |].
        split; [constructor |]. split; [contradiction | reflexivity].
      * destruct Hbody as (s2 & vseg & Hcase & [(Hx & _) | (x & Hx & _ & -> & Hvis)]);
          [rewrite Hfloat in Hx; discriminate Hx |].
        rewrite Hfloat in Hx. injection Hx as <-.
        eexists. exists (saved_paths vseg). split; [exact Hvis |].
        split; [exact (saved_paths_validation _ _ _ _ _ _ Hcase) |].
        split; [| intros Hne; contradiction].
        intros _. rewrite !saved_paths_app, saved_paths_iter. cbn [saved_paths omap].
        rewrite app_nil_r. reflexivity.
Qed.

Lemma iter_checkpoint_per_100000_witness :
  exists w',
    iter_checkpoint toy_env (DataParallel cpu)
                    (LoopState 99999 99999 (F.of_Z 75) (F.of_Z 0) Averager.new)
                    toy_world = Ret tt w'
    /\ extends toy_world w'
         [EvSave "./store/toy/DataParallel/iter_100000.pth"
                 (OModule (DataParallel cpu) [])].
Proof.
  assert (Hlo : 0 <= 99999) by lia.
  assert (Hhi : 99999 + 1 <= 2 ^ 53) by (vm_compute; discriminate).
  assert (Hcount : 0 <= Averager.n_count Averager.new) by (cbn; lia).
  exact (proj1 (iter_checkpoint_per_100000 toy_env (DataParallel cpu)
                  (LoopState 99999 99999 (F.of_Z 75) (F.of_Z 0) Averager.new)
                  toy_world Hlo Hhi Hcount)).
Defined.

(** ** The monitor and the loop on concrete runs *)

(** The toy run validates twice with the same metrics: the first round
    stores both best files, the second neither. *)
Example toy_run_bests :
  match train toy_env (Some 10) None toy_world with
  | Ret _ w' =>
      best_lines (trace w') = [(Fin (300 # 4), Fin 0.5); (Fin (300 # 4), Fin 0.5)]
      /\ saved_paths (trace w')
         = ["./store/toy/DataParallel/best_accuracy.pth";
            "./store/toy/DataParallel/best_norm_ed.pth"]
  | _ => False
  end.
Proof. vm_compute. split; reflexivity. Qed.

(** The monitor rejects a round that improves the accuracy without storing
    [best_accuracy.pth], and a round that stores it without improving. *)
Example monitor_rejects_missing_store :
  run_monitor (observe toy_env (DataParallel cpu)) tracker0
              [EvPrint (ValidLine 0 10 (Fin 1) (Fin 50) (F.of_Z 2000000));
               EvPrint (BestLine (Fin 50) (F.of_Z 1000000))]
  = None.
Proof. reflexivity. Qed.

Example monitor_rejects_needless_store :
  run_monitor (observe toy_env (DataParallel cpu)) tracker0
              [EvPrint (ValidLine 0 10 (Fin 1) (F.of_Z (-2)) (F.of_Z 2000000));
               EvSave "./store/toy/DataParallel/best_accuracy.pth"
                      (OModule (DataParallel cpu) []);
               EvPrint (BestLine (F.of_Z (-1)) (F.of_Z 1000000))]
  = None.
Proof. reflexivity. Qed.

(** With [max_train_steps = 0] the run exits in its first turn, after one
    optimizer step and the validation of [i = 0]. *)
Example exit_run :
  match train exit_env (Some 10) None toy_world with
  | Raise e w' =>
      e = Py.SystemExit
      /\ optimizer_steps (trace w') = 1%nat
      /\ List.last (stdout w') (Text "") = Text "end the training"
  | _ => False
  end.
Proof. vm_compute. repeat split. Qed.

(** * Further properties of the executor *)

(** ** What [validation] returns *)

Lemma validation_fold (bs : list vbatch) (s : vstate) :
  let s' := fold_left validation_batch bs s in
  n_correct s' = n_correct s + total_correct bs
  /\ norm_ED s' = fold_left F.add (map vb_norm_ED bs) (norm_ED s)
  /\ infer_time s' = fold_left F.add (map vb_forward_time bs) (infer_time s)
  /\ Averager.sum (valid_loss_avg s')
     = fold_left F.add (map vb_cost bs) (Averager.sum (valid_loss_avg s)).
Proof.
  cbv zeta. revert s. induction bs as [| b bs IH]; intros s.
  - cbn. repeat split; lia.
  - cbn [fold_left map]. destruct (IH (validation_batch s b)) as (H1 & H2 & H3 & H4).
    rewrite H1, H2, H3, H4.
    unfold total_correct. cbn [map fold_right validation_batch n_correct norm_ED
                               infer_time valid_loss_avg Averager.add Averager.sum].
    repeat split; lia.
Qed.




Lemma total_correct_bounds (bs : list vbatch) :
  Forall (fun b => 0 <= vb_n_correct b <= Z.of_nat (vb_size b)) bs ->
  0 <= total_correct bs <= Z.of_nat (total_samples bs).
Proof.
  induction 1 as [| b bs Hb _ IH]; unfold total_correct, total_samples, list_sum in *;
    cbn [map fold_right] in *; lia.
Qed.

Lemma percentage_range (c t : Z) :
  0 <= c <= t -> 0 < t ->
  let acc := F.mul (F.mul (F.of_Z c) (Fin (/ inject_Z t))) (F.of_Z 100) in
  F.leb (F.of_Z 0) acc = true /\ F.leb acc (F.of_Z 100) = true.
Proof.
  intros Hc Ht. cbv zeta. destruct t as [| p |]; try lia.
  cbn [F.mul F.of_Z F.leb].
  assert (H0 : (inject_Z 0 <= inject_Z c * / inject_Z (Z.pos p) * inject_Z 100)%Q).
  { unfold Qle, Qmult, Qinv, inject_Z. cbn. nia. }
  assert (H100 : (inject_Z c * / inject_Z (Z.pos p) * inject_Z 100 <= inject_Z 100)%Q).
  { unfold Qle, Qmult, Qinv, inject_Z. cbn. nia. }
  pose proof (proj1 (Qle_alt _ _) H0) as H0'.
  pose proof (proj1 (Qle_alt _ _) H100) as H100'.
  split.
  - destruct (inject_Z 0 ?= inject_Z c * / inject_Z (Z.pos p) * inject_Z 100)%Q;
      try reflexivity. exfalso. apply H0'. reflexivity.
  - destruct (inject_Z c * / inject_Z (Z.pos p) * inject_Z 100 ?= inject_Z 100)%Q;
      try reflexivity. exfalso. apply H100'. reflexivity.
Qed.

(** The accuracy is computed from the totals over the whole set. *)
Lemma validation_accuracy (E : env) (model : module_ref) (w : world) :
  (0 < total_samples (validation_set E w))%nat ->
  exists r,
    validation E model w = Ret r w
    /\ r_accuracy r
       = F.mul (F.mul (F.of_Z (total_correct (validation_set E w)))
                      (Fin (/ inject_Z (Z.of_nat (total_samples (validation_set E w))))))
               (F.of_Z 100).
Proof.
  intros Hpos. unfold validation. run_monad.
  set (bs := validation_set E w) in *.
  destruct (validation_fold bs vstate0) as (Hc & _).
  cbv zeta in Hc.
  pose proof (validation_length_of_data bs vstate0) as Hlen.
  pose proof (validation_fold_count bs vstate0) as Hcount.
  cbn [vstate0 n_correct length_of_data valid_loss_avg
       Averager.new Averager.sum Averager.n_count] in Hc, Hlen, Hcount.
  assert (Hnonempty : (0 < length bs)%nat).
  { destruct bs; [cbn in Hpos; lia | cbn; lia]. }
  rewrite Hlen.
  destruct (Z.eqb_spec (0 + Z.of_nat (total_samples bs)) 0) as [H0 | _]; [lia |].
  unfold Averager.val. rewrite Hcount.
  destruct (Z.eqb_spec (0 + Z.of_nat (length bs)) 0) as [H0 | _]; [lia |].
  assert (Hlast : exists pl, last (fold_left validation_batch bs vstate0) = Some pl).
  { clear -Hnonempty. clearbody bs.
    destruct bs as [| b pre _] using rev_ind; [cbn in Hnonempty; lia |].
    rewrite fold_left_app. eexists. reflexivity. }
  destruct Hlast as [[preds labels] Hlast].
  run_monad. rewrite Hlast. eexists. split; [reflexivity |].
  cbn [r_accuracy]. rewrite Hc. reflexivity.
Qed.

(** X2: when every batch reports between 0 and its size exact matches,
    the accuracy [validation] returns on a set with at least one sample is
    a percentage: it lies between 0 and 100. *)
Theorem validation_accuracy_is_percentage (E : env) (model : module_ref) (w : world) :
  (0 < total_samples (validation_set E w))%nat ->
  Forall (fun b => 0 <= vb_n_correct b <= Z.of_nat (vb_size b)) (validation_set E w) ->
  exists r,
    validation E model w = Ret r w
    /\ F.leb (F.of_Z 0) (r_accuracy r) = true
    /\ F.leb (r_accuracy r) (F.of_Z 100) = true.
Proof.
  intros Hpos Hall.
  destruct (validation_accuracy E model w Hpos) as (r & Hret & Hacc).
  exists r. split; [exact Hret |]. rewrite Hacc.
  apply percentage_range; [apply total_correct_bounds; exact Hall | lia].
Qed.

Lemma validation_accuracy_is_percentage_witness :
  exists r,
    validation toy_env (DataParallel cpu) toy_world = Ret r toy_world
    /\ F.leb (F.of_Z 0) (r_accuracy r) = true
    /\ F.leb (r_accuracy r) (F.of_Z 100) = true.
Proof.
  assert (Hpos : (0 < total_samples (validation_set toy_env toy_world))%nat)
    by (cbn; lia).
  assert (Hall : Forall (fun b => 0 <= vb_n_correct b <= Z.of_nat (vb_size b))
                        (validation_set toy_env toy_world)).
  { repeat constructor; cbn; lia. }
  exact (validation_accuracy_is_percentage toy_env (DataParallel cpu) toy_world Hpos Hall).
Defined.

(** ** Every effect is an elementary one *)

Section Tame.

Variable E : env.
Variable model : module_ref.

Lemma run_prims_app (a b : list prim) (w : world) :
  run_prims (a ++ b) w = run_prims b (run_prims a w).
Proof. apply fold_left_app. Qed.

Lemma tame_ret {A} (a : A) : tame E model (ret a).
Proof. intros w. exists []. split; [reflexivity | constructor]. Qed.

Lemma tame_raise {A} (e : Py.exn) : tame E model (@raise A e).
Proof. intros w. exists []. split; [reflexivity | constructor]. Qed.

Lemma tame_bind {A B} (m : M A) (k : A -> M B) :
  tame E model m -> (forall a, tame E model (k a)) -> tame E model (bind m k).
Proof.
  intros Hm Hk w. unfold bind. specialize (Hm w).
  destruct (m w) as [a w1 | e w1 |]; [| exact Hm | exact I].
  destruct Hm as (ps1 & -> & Hok1). specialize (Hk a (run_prims ps1 w)).
  destruct (k a (run_prims ps1 w)) as [b w2 | e w2 |]; [| | exact I];
    destruct Hk as (ps2 & -> & Hok2); exists (ps1 ++ ps2);
    (split; [symmetry; apply run_prims_app | apply Forall_app; split; assumption]).
Qed.

Lemma tame_get_world : tame E model get_world.
Proof. intros w. exists []. split; [reflexivity | constructor]. Qed.

Lemma tame_one {A} (m : M A) (v : A) (a : prim) :
  permitted E model a -> (forall w, m w = Ret v (apply_prim a w)) -> tame E model m.
Proof.
  intros Hok Hm w. rewrite Hm. exists [a]. split; [reflexivity |].
  constructor; [exact Hok | constructor].
Qed.

Lemma tame_print (l : line) : tame E model (print l).
Proof. apply (tame_one _ tt (PPrint l)); [exact I | reflexivity]. Qed.

Lemma tame_set_net (ps : params) : tame E model (set_net ps).
Proof. apply (tame_one _ tt (PNet ps)); [exact I | reflexivity]. Qed.

Lemma tame_set_training (b : bool) : tame E model (set_training b).
Proof. apply (tame_one _ tt (PTraining b)); [exact I | reflexivity]. Qed.

Lemma tame_optimizer_step : tame E model (emit EvOptimizerStep).
Proof. apply (tame_one _ tt POptimizerStep); [exact I | reflexivity]. Qed.

Lemma tame_makedirs (d : string) : tame E model (OS.makedirs d).
Proof.
  intros w. unfold OS.makedirs. run_monad. destruct (OS.exists_ d w).
  - exists []. split; [reflexivity | constructor].
  - exists [PMakedirs d]. split; [reflexivity | repeat constructor].
Qed.

Lemma tame_open_log : tame E model (OS.open_append (log_path E)).
Proof.
  intros w. unfold OS.open_append. run_monad.
  destruct (fs w !! log_path E) as [[| c] |] eqn:Hlook;
    exists [POpen (log_path E)]; (split; [| repeat constructor]);
    cbn; rewrite Hlook; reflexivity.
Qed.

Lemma tame_write_log (l : line) : tame E model (OS.write (log_path E) l).
Proof. apply (tame_one _ tt (PWrite (log_path E) l)); [reflexivity | reflexivity]. Qed.

Lemma tame_save (o : pyobj) (file_name : string) :
  tame E model (Torch.save o (store_path E model file_name)).
Proof.
  apply (tame_one _ tt (PSave (store_path E model file_name) o));
    [exists file_name; reflexivity | reflexivity].
Qed.

Lemma tame_store_model (file_name : string) :
  tame E model (store_model E model file_name).
Proof.
  unfold store_model.
  apply tame_bind; [apply tame_get_world | intros w0].
  apply tame_bind.
  - destruct (negb (OS.exists_ (store_dir E model) w0));
      [apply tame_makedirs | apply tame_ret].
  - intros _. apply tame_bind; [apply tame_get_world | intros w1]. apply tame_save.
Qed.

Lemma tame_averager_val (a : Averager.t) : tame E model (Averager.val a).
Proof.
  unfold Averager.val. destruct (Averager.n_count a =? 0);
    [apply tame_raise | apply tame_ret].
Qed.

Lemma tame_validation : tame E model (validation E model).
Proof.
  unfold validation. apply tame_bind; [apply tame_get_world | intros w0]. cbv zeta.
  destruct (length_of_data _ =? 0); [apply tame_raise |].
  apply tame_bind; [apply tame_averager_val | intros loss].
  destruct (last _) as [[preds labels] |]; [apply tame_ret | apply tame_raise].
Qed.

Lemma tame_keep_best (s : loop_state) (acc ned : pyfloat) :
  tame E model (keep_best E model s acc ned).
Proof.
  unfold keep_best. apply tame_bind.
  - destruct (F.gtb acc (best_accuracy s)); [| apply tame_ret].
    apply tame_bind; [apply tame_store_model | intros _; apply tame_ret].
  - intros s1. destruct (F.ltb ned (best_norm_ed s1)); [| apply tame_ret].
    apply tame_bind; [apply tame_store_model | intros _; apply tame_ret].
Qed.

Lemma tame_validation_round (s : loop_state) :
  tame E model (validation_round E model s).
Proof.
  unfold validation_round.
  apply tame_bind; [apply tame_averager_val | intros loss].
  apply tame_bind; [apply tame_print | intros _].
  apply tame_bind; [apply tame_get_world | intros w0].
  apply tame_bind.
  { destruct (negb (OS.exists_ (log_dir E) w0)); [apply tame_makedirs | apply tame_ret]. }
  intros _. apply tame_bind; [apply tame_open_log | intros _].
  apply tame_bind; [apply tame_averager_val | intros loss'].
  apply tame_bind; [apply tame_write_log | intros _]. cbv zeta.
  apply tame_bind; [apply tame_set_training | intros _].
  apply tame_bind; [apply tame_validation | intros r].
  apply tame_bind; [apply tame_set_training | intros _].
  apply tame_bind; [apply tame_print | intros _].
  apply tame_bind; [apply tame_write_log | intros _].
  apply tame_bind; [apply tame_keep_best | intros s1].
  apply tame_bind; [apply tame_print | intros _].
  apply tame_bind; [apply tame_write_log | intros _].
  apply tame_ret.
Qed.

Lemma tame_train_body (s : loop_state) : tame E model (train_body E model s).
Proof.
  unfold train_body. apply tame_bind.
  { unfold train_part.
    apply tame_bind; [apply tame_print | intros _].
    apply tame_bind; [apply tame_get_world | intros w0]. cbv zeta.
    apply tame_bind; [apply tame_set_net | intros _].
    apply tame_bind; [apply tame_optimizer_step | intros _]. apply tame_ret. }
  intros s1. apply tame_bind.
  { unfold validation_part.
    destruct (validation_interval_steps E =? 0); [apply tame_raise |].
    destruct (i s1 mod validation_interval_steps E =? 0);
      [apply tame_validation_round | apply tame_ret]. }
  intros s2. apply tame_bind.
  { unfold iter_checkpoint, iter_checkpoint_due.
    destruct (float_of_int (i s2 + 1)) as [x |].
    - apply tame_bind; [apply tame_ret | intros due].
      destruct due; [apply tame_store_model | apply tame_ret].
    - apply tame_bind; [apply tame_raise | intros due].
      destruct due; [apply tame_store_model | apply tame_ret]. }
  intros _. apply tame_bind.
  { unfold exit_check. destruct (i s2 =? max_train_steps E); [| apply tame_ret].
    apply tame_bind; [apply tame_print | intros _; apply tame_raise]. }
  intros _. apply tame_ret.
Qed.

Lemma tame_train_loop (total : Z) (fuel : nat) (s : loop_state) :
  tame E model (train_loop E model total fuel s).
Proof.
  revert s. induction fuel as [| fuel IH]; intros s; cbn [train_loop];
    destruct (current_step s <? total); try apply tame_ret.
  - intros w. exact I.
  - apply tame_bind; [apply tame_train_body | intros s'; apply IH].
Qed.

Lemma tame_load_model (path : string) : tame E model (load_model E path).
Proof.
  unfold load_model. cbv zeta.
  apply tame_bind; [apply tame_get_world | intros w0].
  apply tame_bind.
  { destruct (OS.exists_ path w0); [| apply tame_ret].
    apply tame_bind; [apply tame_print | intros _].
    apply tame_bind.
    - unfold Torch.load. apply tame_bind; [apply tame_get_world | intros w1].
      destruct (fs w1 !! stored_model E) as [[| [| [o | l] [| c cs]]] |];
        try apply tame_raise. apply tame_ret.
    - intros o. unfold Torch.load_state_dict.
      destruct o as [m0 p0 | sd]; [apply tame_raise |].
      apply tame_bind; [apply tame_get_world | intros w1].
      apply tame_bind; [apply tame_set_net | intros _].
      destruct (Torch.missing_keys (DataParallel (the_device E)) (net w1) sd);
        destruct (Torch.unexpected_keys (DataParallel (the_device E)) (net w1) sd);
        destruct (Torch.size_mismatches (DataParallel (the_device E)) (net w1) sd);
        try apply tame_raise. apply tame_ret. }
  intros _. apply tame_bind; [apply tame_print | intros _].
  apply tame_bind; [apply tame_get_world | intros w1].
  apply tame_bind; [apply tame_print | intros _]. apply tame_ret.
Qed.

End Tame.

Lemma tame_train (E : env) (num_max_steps num_epoch : option Z) :
  tame E (DataParallel (the_device E)) (train E num_max_steps num_epoch).
Proof.
  unfold train.
  apply tame_bind.
  { unfold assert_. destruct (Py.truthy _); [apply tame_ret | apply tame_raise]. }
  intros _. intros w. unfold bind.
  pose proof (tame_load_model E (DataParallel (the_device E)) (stored_model E) w) as Hl.
  pose proof (load_model_frame E (stored_model E) w) as Hframe.
  destruct (load_model E (stored_model E) w) as [m w1 | e w1 |]; [| exact Hl | exact I].
  destruct Hframe as (-> & _). destruct Hl as (ps1 & -> & Hok1).
  assert (Hrest : tame E (DataParallel (the_device E))
                    (set_training true ;;;
                     total <- total_num_steps E num_max_steps num_epoch ;;
                     train_loop E (DataParallel (the_device E)) total
                                (Z.to_nat total) loop_state0)).
  { apply tame_bind; [apply tame_set_training | intros _].
    apply tame_bind.
    - unfold total_num_steps. destruct (batch_size E =? 0);
        [apply tame_raise | apply tame_ret].
    - intros total. apply tame_train_loop. }
  specialize (Hrest (run_prims ps1 w)). unfold bind in Hrest.
  destruct (set_training true (run_prims ps1 w)) as [[] w2 | e w2 |];
    [| exact I || idtac | exact I].
  - destruct (total_num_steps E num_max_steps num_epoch w2) as [total w3 | e w3 |];
      [| | exact I].
    + destruct (train_loop _ _ _ _ _ w3) as [[] w4 | e w4 |]; [| | exact I];
        destruct Hrest as (ps2 & -> & Hok2); exists (ps1 ++ ps2);
        (split; [symmetry; apply run_prims_app | apply Forall_app; split; assumption]).
    + destruct Hrest as (ps2 & -> & Hok2); exists (ps1 ++ ps2);
        (split; [symmetry; apply run_prims_app | apply Forall_app; split; assumption]).
  - destruct Hrest as (ps2 & -> & Hok2); exists (ps1 ++ ps2);
      (split; [symmetry; apply run_prims_app | apply Forall_app; split; assumption]).
Qed.

(** ** What a run does to the filesystem *)

Lemma append_assoc (a b c : string) : (a +:+ b) +:+ c = a +:+ (b +:+ c).
Proof.
  induction a as [| ch a IH]; [rewrite !append_nil; reflexivity |].
  rewrite !append_cons, IH. reflexivity.
Qed.

Lemma store_path_not_log (E : env) (model : module_ref) (file_name : string) :
  store_path E model file_name <> log_path E.
Proof.
  unfold store_path, store_dir, log_path, log_dir. rewrite !append_assoc.
  intros H. apply append_inj_l, append_inj_l in H.
  rewrite append_cons, append_nil in H.
  change "/log_train.txt" with (String "/" "log_train.txt") in H.
  injection H as H.
  assert (Hslash : Py.contains "/" (class_name E model +:+ "/" +:+ file_name) = true).
  { apply contains_app_r, contains_prefix. }
  rewrite H in Hslash. discriminate Hslash.
Qed.

Lemma mkdirs_keep (ds : list string) (f : gmap string node) (q : string) (n : node) :
  f !! q = Some n -> fold_left OS.mkdir_if_absent ds f !! q = Some n.
Proof.
  revert f. induction ds as [| d ds IH]; intros f H; [exact H |].
  cbn [fold_left]. apply IH. unfold OS.mkdir_if_absent.
  destruct (f !! d) eqn:Hd; [exact H |].
  rewrite lookup_insert_ne; [exact H |]. intros ->. congruence.
Qed.

Lemma mkdirs_content (ds : list string) (f : gmap string node) (q : string) :
  content_of (fold_left OS.mkdir_if_absent ds f !! q) = content_of (f !! q).
Proof.
  revert f. induction ds as [| d ds IH]; intros f; [reflexivity |].
  cbn [fold_left]. rewrite IH. unfold OS.mkdir_if_absent.
  destruct (f !! d) eqn:Hd; [reflexivity |].
  destruct (decide (d = q)) as [-> | Hne].
  - rewrite lookup_insert_eq, Hd. reflexivity.
  - rewrite lookup_insert_ne by exact Hne. reflexivity.
Qed.

Lemma run_prims_invariant (E : env) (model : module_ref) (P : world -> Prop)
  (ps : list prim) (w : world) :
  (forall a w0, permitted E model a -> P w0 -> P (apply_prim a w0)) ->
  Forall (permitted E model) ps -> P w -> P (run_prims ps w).
Proof.
  intros Hstep Hok. revert w. induction Hok as [| a ps Ha _ IH]; intros w HP;
    [exact HP |].
  cbn [run_prims fold_left]. apply IH. apply Hstep; assumption.
Qed.

Lemma last_saved_snoc (p : string) (tr : list event) (e : event) :
  last_saved p (tr ++ [e])
  = match e with
    | EvSave q o => if String.eqb q p then Some o else last_saved p tr
    | _ => last_saved p tr
    end.
Proof. unfold last_saved. rewrite fold_left_app. destruct e; reflexivity. Qed.

Lemma saved_paths_snoc (tr : list event) (e : event) :
  saved_paths (tr ++ [e])
  = saved_paths tr ++ match e with EvSave q _ => [q] | _ => [] end.
Proof. rewrite saved_paths_app. destruct e; reflexivity. Qed.

Lemma written_to_snoc (p : string) (tr : list event) (e : event) :
  written_to p (tr ++ [e])
  = written_to p tr
    ++ match e with
       | EvLogWrite q l => if String.eqb p q then [l] else []
       | _ => []
       end.
Proof.
  unfold written_to. rewrite omap_app. f_equal.
  destruct e as [| | | q l |]; try reflexivity.
  cbn. destruct (String.eqb p q); reflexivity.
Qed.

Lemma disk_invariant_step (E : env) (model : module_ref) (files : gmap string node)
  (a : prim) (w : world) :
  permitted E model a ->
  disk_invariant E files w -> disk_invariant E files (apply_prim a w).
Proof.
  intros Hok (Hkeep & Hframe & (Hnolog & Hlast) & Hlog).
  destruct a as [l | | ps | b | d | p | p l | p o]; cbn [permitted] in Hok;
    unfold disk_invariant; cbn [apply_prim fs trace].
  - (* PPrint *)
    rewrite !last_saved_snoc, saved_paths_snoc, written_to_snoc, !app_nil_r.
    setoid_rewrite last_saved_snoc. repeat split; assumption.
  - (* POptimizerStep *)
    rewrite !last_saved_snoc, saved_paths_snoc, written_to_snoc, !app_nil_r.
    setoid_rewrite last_saved_snoc. repeat split; assumption.
  - repeat split; assumption.
  - repeat split; assumption.
  - (* PMakedirs *)
    rewrite !last_saved_snoc, saved_paths_snoc, written_to_snoc, !app_nil_r.
    setoid_rewrite last_saved_snoc. rewrite mkdirs_content.
    split; [| split; [| split; [split |]]]; try assumption.
    + intros q Hq. destruct (Hkeep q Hq) as [n Hn]. exists n. apply mkdirs_keep, Hn.
    + intros q n Hq Hne Hnot. apply mkdirs_keep. apply Hframe; assumption.
    + intros q o Hq. apply mkdirs_keep. apply Hlast, Hq.
  - (* POpen *)
    subst p.
    assert (Hopen :
               content_of (Some (File [])) = content_of (files !! log_path E)
                 ++ map Written (written_to (log_path E) (trace w)) ->
               disk_invariant E files
                 (World (<[log_path E := File []]> (fs w)) (net w) (training w) (trace w))).
    { intros Hcontent. unfold disk_invariant. cbn [fs trace].
      split; [| split; [| split; [split |]]]; try assumption.
      - intros q Hq. destruct (decide (log_path E = q)) as [<- | Hne];
          [rewrite lookup_insert_eq; eauto
          | rewrite lookup_insert_ne by exact Hne; apply Hkeep, Hq].
      - intros q n Hq Hne Hnot. rewrite lookup_insert_ne by congruence.
        apply Hframe; assumption.
      - intros q o Hq. destruct (decide (log_path E = q)) as [<- | Hne];
          [congruence | rewrite lookup_insert_ne by exact Hne; apply Hlast, Hq].
      - rewrite lookup_insert_eq. exact Hcontent. }
    destruct (fs w !! log_path E) as [[| c] |] eqn:Hlook.
    + apply Hopen. exact Hlog.
    + unfold disk_invariant. rewrite Hlook. repeat split; assumption.
    + apply Hopen. exact Hlog.
  - (* PWrite *)
    subst p.
    rewrite !last_saved_snoc, saved_paths_snoc, written_to_snoc, !app_nil_r.
    setoid_rewrite last_saved_snoc. rewrite String.eqb_refl.
    split; [| split; [| split; [split |]]]; try assumption.
    + intros q Hq. destruct (decide (log_path E = q)) as [<- | Hne];
        [rewrite lookup_insert_eq; eauto
        | rewrite lookup_insert_ne by exact Hne; apply Hkeep, Hq].
    + intros q n Hq Hne Hnot. rewrite lookup_insert_ne by congruence.
      apply Hframe; assumption.
    + intros q o Hq. destruct (decide (log_path E = q)) as [<- | Hne];
        [congruence | rewrite lookup_insert_ne by exact Hne; apply Hlast, Hq].
    + rewrite lookup_insert_eq. cbn [content_of].
      change (match fs w !! log_path E with Some (File c) => c | _ => [] end)
        with (content_of (fs w !! log_path E)).
      rewrite Hlog, map_app, app_assoc. reflexivity.
  - (* PSave *)
    destruct Hok as [file_name ->].
    pose proof (store_path_not_log E model file_name) as Hne.
    rewrite !last_saved_snoc, saved_paths_snoc, written_to_snoc, !app_nil_r.
    setoid_rewrite last_saved_snoc.
    assert (Heqb : String.eqb (store_path E model file_name) (log_path E) = false)
      by (apply String.eqb_neq; exact Hne).
    rewrite Heqb.
    split; [| split; [| split; [split |]]]; try assumption.
    + intros q Hq. destruct (decide (store_path E model file_name = q)) as [<- | Hq'];
        [rewrite lookup_insert_eq; eauto
        | rewrite lookup_insert_ne by exact Hq'; apply Hkeep, Hq].
    + intros q n Hq Hql Hnot.
      assert (Hq' : store_path E model file_name <> q).
      { intros <-. apply Hnot. apply in_or_app. right. left. reflexivity. }
      rewrite lookup_insert_ne by exact Hq'. apply Hframe; try assumption.
      intros Hin. apply Hnot. apply in_or_app. left. exact Hin.
    + intros q o' Hq. destruct (String.eqb_spec (store_path E model file_name) q)
        as [<- | Hq'].
      * injection Hq as <-. apply lookup_insert_eq.
      * rewrite lookup_insert_ne by exact Hq'. apply Hlast, Hq.
    + rewrite lookup_insert_ne by exact Hne. exact Hlog.
Qed.

Lemma train_disk (E : env) (num_max_steps num_epoch : option Z)
  (files : gmap string node) (p : params) (mode : bool) :
  match train E num_max_steps num_epoch (World files p mode []) with
  | Ret _ w' => disk_invariant E files w'
  | Raise _ w' => disk_invariant E files w'
  | OutOfFuel => False
  end.
Proof.
  pose proof (tame_train E num_max_steps num_epoch (World files p mode [])) as Htame.
  pose proof (train_accepted E num_max_steps num_epoch (World files p mode []) eq_refl)
    as Hend.
  assert (Hinit : disk_invariant E files (World files p mode [])).
  { unfold disk_invariant. cbn [fs trace]. repeat split; try reflexivity; auto.
    - intros q o H. discriminate H.
    - cbn. rewrite app_nil_r. reflexivity. }
  destruct (train E num_max_steps num_epoch (World files p mode []))
    as [[] w' | e w' |]; [| | exact Hend];
    destruct Htame as (ps & -> & Hok);
    exact (run_prims_invariant E _ (disk_invariant E files) ps _
             (disk_invariant_step E _ files) Hok Hinit).
Qed.

(** X3: a run of [train], however it ends, deletes nothing: every path
    that was there before is there afterwards; and a path that is neither
    the log of the experiment nor one the run saved a model to still holds
    what it held. *)
Theorem train_keeps_files
  (E : env) (num_max_steps num_epoch : option Z)
  (files : gmap string node) (p : params) (mode : bool) (q : string) (n : node) :
  files !! q = Some n ->
  match train E num_max_steps num_epoch (World files p mode []) with
  | Ret _ w' | Raise _ w' =>
      is_Some (fs w' !! q)
      /\ (q <> log_path E -> ~ In q (saved_paths (trace w')) -> fs w' !! q = Some n)
  | OutOfFuel => False
  end.
Proof.
  intros Hq. pose proof (train_disk E num_max_steps num_epoch files p mode) as H.
  destruct (train E num_max_steps num_epoch (World files p mode []))
    as [[] w' | e w' |]; [| | exact H];
    destruct H as (Hkeep & Hframe & _);
    (split; [apply Hkeep; eauto | intros Hne Hnot; apply Hframe; assumption]).
Qed.

Lemma train_keeps_files_witness :
  match train toy_env (Some 10) None
              (World {[ "notes.txt" := File [Written (Text "keep")] ]} [] true []) with
  | Ret _ w' | Raise _ w' =>
      is_Some (fs w' !! "notes.txt")
      /\ ("notes.txt" <> log_path toy_env ->
          ~ In "notes.txt" (saved_paths (trace w')) ->
          fs w' !! "notes.txt" = Some (File [Written (Text "keep")]))
  | OutOfFuel => False
  end.
Proof.
  assert (Hq : ({[ "notes.txt" := File [Written (Text "keep")] ]} : gmap string node)
               !! "notes.txt" = Some (File [Written (Text "keep")])) by reflexivity.
  exact (train_keeps_files toy_env (Some 10) None
           {[ "notes.txt" := File [Written (Text "keep")] ]} [] true
           "notes.txt" (File [Written (Text "keep")]) Hq).
Defined.

(** X4: after a run of [train], however it ends, every path the run saved
    a model to holds exactly the object saved there last: a later
    improvement replaces the earlier checkpoint, and nothing else the run
    does overwrites one. *)
Theorem train_disk_holds_last_checkpoint
  (E : env) (num_max_steps num_epoch : option Z)
  (files : gmap string node) (p : params) (mode : bool) (q : string) (o : pyobj) :
  match train E num_max_steps num_epoch (World files p mode []) with
  | Ret _ w' | Raise _ w' =>
      last_saved q (trace w') = Some o -> fs w' !! q = Some (File [Pickled o])
  | OutOfFuel => False
  end.
Proof.
  pose proof (train_disk E num_max_steps num_epoch files p mode) as H.
  destruct (train E num_max_steps num_epoch (World files p mode []))
    as [[] w' | e w' |]; [| | exact H];
    destruct H as (_ & _ & (_ & Hlast) & _); apply Hlast.
Qed.

(** X5: the log of the experiment is append-only: after a run of [train],
    however it ends, the log file holds what it held before, followed by
    the lines the run wrote to it, in order. *)
Theorem train_log_append_only
  (E : env) (num_max_steps num_epoch : option Z)
  (files : gmap string node) (p : params) (mode : bool) :
  match train E num_max_steps num_epoch (World files p mode []) with
  | Ret _ w' | Raise _ w' =>
      content_of (fs w' !! log_path E)
      = content_of (files !! log_path E)
        ++ map Written (written_to (log_path E) (trace w'))
  | OutOfFuel => False
  end.
Proof.
  pose proof (train_disk E num_max_steps num_epoch files p mode) as H.
  destruct (train E num_max_steps num_epoch (World files p mode []))
    as [[] w' | e w' |]; [| | exact H];
    destruct H as (_ & _ & _ & Hlog); exact Hlog.
Qed.

Lemma train_disk_holds_last_checkpoint_witness :
  match train toy_env (Some 10) None toy_world with
  | Ret _ w' | Raise _ w' =>
      fs w' !! "./store/toy/DataParallel/best_accuracy.pth"
      = Some (File [Pickled (OModule (DataParallel cpu) [])])
  | OutOfFuel => False
  end.
Proof.
  pose proof (train_disk_holds_last_checkpoint toy_env (Some 10) None ∅ [] true
                "./store/toy/DataParallel/best_accuracy.pth"
                (OModule (DataParallel cpu) [])) as H.
  change (World ∅ [] true []) with toy_world in H.
  destruct (train toy_env (Some 10) None toy_world) as [[] w' | e w' |] eqn:Hrun;
    [| | exact H]; apply H; vm_compute in Hrun.
  - injection Hrun as <-. vm_compute. reflexivity.
  - discriminate Hrun.
Defined.

(** ** Storing a model *)

Lemma dir_prefixes_self (acc s : string) : In (acc +:+ s) (OS.dir_prefixes acc s).
Proof.
  revert acc. induction s as [| c s IH]; intros acc.
  - cbn. left. clear. induction acc as [| ch acc IH]; [reflexivity |].
    rewrite append_cons. f_equal. exact IH.
  - cbn [OS.dir_prefixes].
    assert (Hin : In (acc +:+ String c s)
                     (OS.dir_prefixes (acc +:+ String c EmptyString) s)).
    { replace (acc +:+ String c s) with ((acc +:+ String c EmptyString) +:+ s);
        [apply IH |].
      rewrite append_assoc, append_cons, append_nil. reflexivity. }
    destruct (Ascii.eqb c "/" && negb (String.eqb acc EmptyString));
      [right; exact Hin | exact Hin].
Qed.

Lemma mkdirs_all (ds : list string) (f : gmap string node) (d : string) :
  In d ds -> is_Some (fold_left OS.mkdir_if_absent ds f !! d).
Proof.
  revert f. induction ds as [| d0 ds IH]; intros f Hin; [destruct Hin |].
  cbn [fold_left]. destruct Hin as [-> | Hin]; [| apply IH, Hin].
  assert (Hd : is_Some (OS.mkdir_if_absent f d !! d)).
  { unfold OS.mkdir_if_absent. destruct (f !! d) eqn:Hd; [rewrite Hd; eauto |].
    rewrite lookup_insert_eq. eauto. }
  destruct Hd as [n Hn]. exists n. apply mkdirs_keep, Hn.
Qed.

(** What [store_model] leaves at the path it saves to. *)
Lemma store_model_file (E : env) (model : module_ref) (file_name : string) (w w' : world) :
  store_model E model file_name w = Ret tt w' ->
  fs w' !! store_path E model file_name = Some (File [Pickled (OModule model (net w))]).
Proof.
  unfold store_model, OS.makedirs, Torch.save. run_monad.
  destruct (OS.exists_ (store_dir E model) w) eqn:Hex; cbn [negb]; run_monad;
    rewrite ?Hex; intros H; injection H as <-; cbn [fs]; apply lookup_insert_eq.
Qed.

(** X6: [store_model] never fails.  Afterwards the file under the store
    directory holds the whole module with the parameters as they are, the
    store directory exists, the parameters are untouched, and every other
    path that existed holds what it held.  The directory is created at
    most once: a store that follows does nothing but save. *)
Theorem store_model_effect
  (E : env) (model : module_ref) (file_name : string) (w : world) :
  exists w',
    store_model E model file_name w = Ret tt w'
    /\ fs w' !! store_path E model file_name
       = Some (File [Pickled (OModule model (net w))])
    /\ OS.exists_ (store_dir E model) w' = true
    /\ net w' = net w
    /\ (forall q n, fs w !! q = Some n -> q <> store_path E model file_name ->
                    fs w' !! q = Some n)
    /\ forall next,
        store_model E model next w'
        = Ret tt (World (<[store_path E model next
                           := File [Pickled (OModule model (net w))]]> (fs w'))
                        (net w') (training w')
                        (trace w' ++ [EvSave (store_path E model next)
                                             (OModule model (net w))])).
Proof.
  assert (Hagain : forall w0 next,
             OS.exists_ (store_dir E model) w0 = true ->
             store_model E model next w0
             = Ret tt (World (<[store_path E model next
                                := File [Pickled (OModule model (net w0))]]> (fs w0))
                             (net w0) (training w0)
                             (trace w0 ++ [EvSave (store_path E model next)
                                                  (OModule model (net w0))]))).
  { intros w0 next Hex. unfold store_model, Torch.save. run_monad.
    rewrite Hex. reflexivity. }
  assert (Hexists : forall (f : gmap string node) b tr q n,
             OS.exists_ (store_dir E model) (World f (net w) b tr) = true ->
             OS.exists_ (store_dir E model)
                        (World (<[q := n]> f) (net w) b tr) = true).
  { intros f b tr q n. unfold OS.exists_. cbn [fs].
    destruct (decide (q = store_dir E model)) as [-> | Hne];
      [rewrite lookup_insert_eq; reflexivity
      | rewrite lookup_insert_ne by exact Hne; trivial]. }
  destruct (OS.exists_ (store_dir E model) w) eqn:Hex.
  - rewrite (Hagain w file_name Hex). eexists. split; [reflexivity |].
    cbn [fs net training trace].
    split; [apply lookup_insert_eq |]. split.
    { apply Hexists. destruct w; exact Hex. }
    split; [reflexivity |]. split.
    { intros q n Hq Hne. rewrite lookup_insert_ne by congruence. exact Hq. }
    intros next. rewrite Hagain; [reflexivity |].
    apply Hexists. destruct w; exact Hex.
  - set (dirs := fold_left OS.mkdir_if_absent
                           (OS.dir_prefixes EmptyString (store_dir E model)) (fs w)).
    assert (Hrun : store_model E model file_name w
                   = Ret tt (World (<[store_path E model file_name
                                      := File [Pickled (OModule model (net w))]]> dirs)
                                   (net w) (training w)
                                   ((trace w ++ [EvMakedirs (store_dir E model)])
                                    ++ [EvSave (store_path E model file_name)
                                               (OModule model (net w))]))).
    { unfold store_model, OS.makedirs, Torch.save. run_monad. rewrite Hex. cbn [negb].
      run_monad. rewrite Hex. reflexivity. }
    rewrite Hrun. eexists. split; [reflexivity |]. cbn [fs net training trace].
    assert (Hdir : OS.exists_ (store_dir E model)
                     (World dirs (net w) (training w)
                            ((trace w ++ [EvMakedirs (store_dir E model)])
                             ++ [EvSave (store_path E model file_name)
                                        (OModule model (net w))]))
                   = true).
    { unfold OS.exists_, dirs. cbn [fs].
      destruct (mkdirs_all (OS.dir_prefixes EmptyString (store_dir E model)) (fs w)
                           (store_dir E model)) as [n ->]; [| reflexivity].
      exact (dir_prefixes_self EmptyString (store_dir E model)). }
    split; [apply lookup_insert_eq |]. split; [apply Hexists; exact Hdir |].
    split; [reflexivity |]. split.
    { intros q n Hq Hne. rewrite lookup_insert_ne by congruence.
      apply mkdirs_keep, Hq. }
    intros next. rewrite Hagain; [reflexivity |]. apply Hexists. exact Hdir.
Qed.

Lemma store_model_effect_witness :
  exists w',
    store_model toy_env (DataParallel cpu) "best_accuracy.pth"
                (World {[ "notes.txt" := File [] ]} [] true []) = Ret tt w'
    /\ fs w' !! "notes.txt" = Some (File []).
Proof.
  destruct (store_model_effect toy_env (DataParallel cpu) "best_accuracy.pth"
              (World {[ "notes.txt" := File [] ]} [] true []))
    as (w' & Hrun & _ & _ & _ & Hframe & _).
  exists w'. split; [exact Hrun |].
  apply Hframe; [reflexivity | discriminate].
Defined.

(** X7: what [store_model] writes, [load_model] cannot read back: a
    checkpoint written by [store_model] is a whole module, and when the
    configured stored-model path is that checkpoint, [load_model] raises
    in [load_state_dict]; the parameters and the files stay as they
    are. *)
Theorem stored_checkpoint_does_not_load
  (E : env) (model : module_ref) (file_name : string) (w w' : world) :
  stored_model E = store_path E model file_name ->
  store_model E model file_name w = Ret tt w' ->
  exists e w'',
    load_model E (stored_model E) w' = Raise e w''
    /\ net w'' = net w' /\ fs w'' = fs w'.
Proof.
  intros Hstored Hstore.
  pose proof (store_model_file E model file_name w w' Hstore) as Hfile.
  unfold load_model, Torch.load, Torch.load_state_dict. run_monad.
  unfold OS.exists_. rewrite Hstored. cbn [fs]. rewrite !Hfile. cbn.
  eexists. eexists. split; [reflexivity |]. split; reflexivity.
Qed.

(** The toy configuration, told to start from its own best checkpoint. *)
Lemma stored_checkpoint_does_not_load_witness :
  exists e w'',
    load_model
      (Env "toy" 10 5 "./store/toy/DataParallel/best_accuracy.pth" "Model" cpu 20 4
           (fun _ => Fin 1) (fun w => net w) (fun _ => [toy_vbatch]) (fun _ _ => []))
      "./store/toy/DataParallel/best_accuracy.pth"
      (World (<["./store/toy/DataParallel/best_accuracy.pth"
                := File [Pickled (OModule (DataParallel cpu) [])]]>
                (fold_left OS.mkdir_if_absent
                           (OS.dir_prefixes EmptyString "./store/toy/DataParallel") ∅))
             [] true
             [EvMakedirs "./store/toy/DataParallel";
              EvSave "./store/toy/DataParallel/best_accuracy.pth"
                     (OModule (DataParallel cpu) [])])
    = Raise e w''
    /\ net w'' = [] /\ fs w'' = <["./store/toy/DataParallel/best_accuracy.pth"
                := File [Pickled (OModule (DataParallel cpu) [])]]>
                (fold_left OS.mkdir_if_absent
                           (OS.dir_prefixes EmptyString "./store/toy/DataParallel") ∅).
Proof.
  set (E := Env "toy" 10 5 "./store/toy/DataParallel/best_accuracy.pth" "Model" cpu 20 4
                (fun _ => Fin 1) (fun w => net w) (fun _ => [toy_vbatch]) (fun _ _ => [])).
  assert (Hstored : stored_model E = store_path E (DataParallel cpu) "best_accuracy.pth")
    by reflexivity.
  assert (Hstore : store_model E (DataParallel cpu) "best_accuracy.pth" toy_world
                   = Ret tt
                       (World (<["./store/toy/DataParallel/best_accuracy.pth"
                                 := File [Pickled (OModule (DataParallel cpu) [])]]>
                                 (fold_left OS.mkdir_if_absent
                                    (OS.dir_prefixes EmptyString "./store/toy/DataParallel")
                                    ∅))
                              [] true
                              [EvMakedirs "./store/toy/DataParallel";
                               EvSave "./store/toy/DataParallel/best_accuracy.pth"
                                      (OModule (DataParallel cpu) [])]))
    by reflexivity.
  exact (stored_checkpoint_does_not_load E (DataParallel cpu) "best_accuracy.pth"
           toy_world _ Hstored Hstore).
Defined.

(** ** Budgets that run no step *)

Lemma train_after_load (E : env) (num_max_steps num_epoch : option Z) (w : world) :
  train E num_max_steps num_epoch w
  = match load_model E (stored_model E) w with
    | Ret model w1 =>
        (total <- total_num_steps E num_max_steps num_epoch ;;
         train_loop E model total (Z.to_nat total) loop_state0)
          (World (fs w1) (net w1) true (trace w1))
    | Raise e w1 => Raise e w1
    | OutOfFuel => OutOfFuel
    end.
Proof.
  unfold train.
  rewrite (bind_ret (assert_ (config_assertion num_max_steps num_epoch)) _ w w tt eq_refl).
  unfold bind at 1. destruct (load_model E (stored_model E) w); reflexivity.
Qed.

(** X8: without a budget, [train] trains nothing and says nothing about
    it: when neither budget is given, or those given are 0 (or, for the
    step budget, negative), and the batch size is not 0, [train] loads the
    model, puts it in training mode and returns, with no optimizer step
    and no file written; if loading fails, so does [train], the same
    way. *)
Theorem train_without_budget
  (E : env) (num_max_steps num_epoch : option Z) (w : world) :
  match num_max_steps with None => True | Some n => n <= 0 end ->
  match num_epoch with None => True | Some e => e = 0 end ->
  batch_size E <> 0 ->
  train E num_max_steps num_epoch w
  = match load_model E (stored_model E) w with
    | Ret _ w1 => Ret tt (World (fs w1) (net w1) true (trace w1))
    | Raise e w1 => Raise e w1
    | OutOfFuel => OutOfFuel
    end.
Proof.
  intros Hsteps Hepoch Hbatch. rewrite train_after_load.
  destruct (load_model E (stored_model E) w) as [model w1 | |]; try reflexivity.
  set (w2 := World (fs w1) (net w1) true (trace w1)).
  assert (Htotal : exists total,
             total_num_steps E num_max_steps num_epoch w2 = Ret total w2 /\ total <= 0).
  { unfold total_num_steps.
    destruct (Z.eqb_spec (batch_size E) 0) as [Hb | Hb]; [contradiction |].
    destruct num_epoch as [e |]; [subst e |];
      destruct num_max_steps as [n |]; cbn [Py.truthy Z.eqb negb];
      try (destruct (Z.eqb_spec n 0) as [Hn | Hn]; cbn [negb]);
      eexists; (split; [reflexivity | lia]). }
  destruct Htotal as (total & Ht & Hle).
  rewrite (bind_ret _ _ _ _ _ Ht).
  destruct (Z.to_nat total); cbn [train_loop];
    (destruct (Z.ltb_spec (current_step loop_state0) total) as [Hlt | _];
     [cbn in Hlt; lia | reflexivity]).
Qed.

Lemma train_without_budget_witness :
  train toy_env None None toy_world
  = match load_model toy_env (stored_model toy_env) toy_world with
    | Ret _ w1 => Ret tt (World (fs w1) (net w1) true (trace w1))
    | Raise e w1 => Raise e w1
    | OutOfFuel => OutOfFuel
    end.
Proof.
  assert (Hbatch : batch_size toy_env <> 0) by discriminate.
  exact (train_without_budget toy_env None None toy_world I I Hbatch).
Defined.

(** X9: with a batch size of 0, [train] fails on the division that
    computes the steps of an epoch, whatever the budgets are, also when
    only a step budget is given: after loading the model and before any
    step it raises [ZeroDivisionError]. *)
Theorem train_batch_size_zero
  (E : env) (num_max_steps num_epoch : option Z) (w : world) :
  batch_size E = 0 ->
  train E num_max_steps num_epoch w
  = match load_model E (stored_model E) w with
    | Ret _ w1 => Raise Py.ZeroDivisionError_int (World (fs w1) (net w1) true (trace w1))
    | Raise e w1 => Raise e w1
    | OutOfFuel => OutOfFuel
    end.
Proof.
  intros Hbatch. rewrite train_after_load.
  destruct (load_model E (stored_model E) w) as [model w1 | |]; try reflexivity.
  unfold bind, total_num_steps. rewrite Hbatch. reflexivity.
Qed.

Lemma train_batch_size_zero_witness :
  train (Env "toy" 10 5 "" "Model" cpu 20 0
             (fun _ => Fin 1) (fun w => net w) (fun _ => [toy_vbatch]) (fun _ _ => []))
        (Some 10) None toy_world
  = Raise Py.ZeroDivisionError_int
          (World ∅ [] true [EvPrint (Text "Model:");
                            EvPrint (ModelDump (DataParallel cpu) [])]).
Proof.
  assert (Hbatch : batch_size (Env "toy" 10 5 "" "Model" cpu 20 0
                                   (fun _ => Fin 1) (fun w => net w)
                                   (fun _ => [toy_vbatch]) (fun _ _ => [])) = 0)
    by reflexivity.
  exact (train_batch_size_zero _ (Some 10) None toy_world Hbatch).
Defined.

(** ** Runs in general *)

Lemma due_indices_succ (interval n : Z) :
  0 <= n ->
  due_indices interval (n + 1)
  = due_indices interval n ++ (if n mod interval =? 0 then [n] else []).
Proof.
  intros Hn. unfold due_indices.
  rewrite seqZ_app by lia. rewrite List.filter_app. f_equal.
Qed.

Lemma run_body (E : env) (total : Z) (s : loop_state) (w : world) :
  validation_interval_steps E <> 0 ->
  (forall w0, (0 < total_samples (validation_set E w0))%nat) ->
  total < 2 ^ 1023 ->
  run_invariant E total s w ->
  current_step s < total ->
  match train_body E (DataParallel (the_device E)) s w with
  | Ret s' w' => run_invariant E total s' w' /\ current_step s' = current_step s + 1
  | Raise e w' => exit_outcome E total e w'
  | OutOfFuel => False
  end.
Proof.
  intros Hiv Hval Hbig (Hi & Hrange & Hexit & Hc & Hsteps & Hidx) Hlt.
  set (model := DataParallel (the_device E)).
  destruct (train_body_events E model s w Hc) as (cost & p & Hbody). cbv zeta in Hbody.
  destruct (float_of_int_defined (i s + 1) ltac:(lia)) as [x Hfloat].
  assert (Hshape : forall s2 vseg,
             validation_outcome E model (trained s cost) p s2 vseg ->
             current_step s2 = current_step s /\ i s2 = i s
             /\ 0 <= Averager.n_count (loss_avg s2)
             /\ optimizer_steps vseg = 0%nat
             /\ validation_indices (log_path E) vseg
                = if i s mod validation_interval_steps E =? 0 then [i s] else []).
  { intros s2 vseg [_ [(Hmod & -> & ->) | (Hmod & r & w0 & _ & -> & ->)]];
      cbn [trained i] in Hmod.
    - destruct (Z.eqb_spec (i s mod validation_interval_steps E) 0); [contradiction |].
      cbn. repeat split; lia.
    - rewrite Hmod. cbn [Z.eqb].
      destruct (round_counts E model (trained s cost) r p) as [H1 H2].
      cbn [round_state current_step i loss_avg trained Averager.new Averager.n_count].
      repeat split; try assumption; lia. }
  assert (Hiter : forall k y q,
             optimizer_steps (iter_events E model k y q) = 0%nat
             /\ validation_indices (log_path E) (iter_events E model k y q) = []).
  { intros k y q. unfold iter_events. destruct (y mod 100000 =? 0); split; reflexivity. }
  assert (Hcount : forall vseg tail,
             optimizer_steps vseg = 0%nat ->
             validation_indices (log_path E) vseg
             = (if i s mod validation_interval_steps E =? 0 then [i s] else []) ->
             optimizer_steps tail = 0%nat ->
             validation_indices (log_path E) tail = [] ->
             optimizer_steps (visible (trace w) ++ step_events s ++ vseg ++ tail)
             = Z.to_nat (i s + 1)
             /\ validation_indices (log_path E)
                  (visible (trace w) ++ step_events s ++ vseg ++ tail)
                = due_indices (validation_interval_steps E) (i s + 1)).
  { intros vseg tail Hv1 Hv2 Ht1 Ht2.
    rewrite !optimizer_steps_app, !validation_indices_app, Hsteps, Hidx, Hv1, Hv2, Ht1, Ht2.
    rewrite due_indices_succ by lia.
    change (optimizer_steps (step_events s)) with 1%nat.
    change (validation_indices (log_path E) (step_events s)) with (@nil Z).
    cbn [app]. rewrite app_nil_r. split; [lia | reflexivity]. }
  destruct (train_body E model s w) as [s' w' | e w' |]; [| | exact Hbody].
  - destruct Hbody as (s2 & vseg & x' & Hcase & _ & Hne & -> & _ & Hvis).
    destruct (Hshape s2 vseg Hcase) as (Hcs & Hi2 & Hc2 & Hv1 & Hv2).
    destruct (Hiter (i s) x' p) as [Ht1 Ht2].
    destruct (Hcount vseg _ Hv1 Hv2 Ht1 Ht2) as [Hs' Hx'].
    split; [| cbn [advance current_step]; lia].
    unfold run_invariant. cbn [advance current_step i loss_avg].
    rewrite Hvis, Hi2, Hcs.
    split; [lia |]. split; [lia |]. split; [lia |]. split; [exact Hc2 |].
    split; [exact Hs' | exact Hx'].
  - destruct Hbody as [(_ & Hiv0 & _) | [(_ & _ & _ & Hraise & _) | Hbody]].
    + contradiction.
    + destruct Hraise as [w0 Hraise].
      destruct (validation_returns E model w0 (Hval w0)) as [r Hret].
      rewrite Hret in Hraise. discriminate Hraise.
    + destruct Hbody as (s2 & vseg & Hcase & [(Hx & _) | (x' & _ & Hmax & -> & Hvis)]).
      * rewrite Hfloat in Hx. discriminate Hx.
      * destruct (Hshape s2 vseg Hcase) as (Hcs & Hi2 & Hc2 & Hv1 & Hv2).
        destruct (Hiter (i s) x' p) as [Ht1 Ht2].
        assert (Ht1' : optimizer_steps (iter_events E model (i s) x' p
                                        ++ [EvPrint (Text "end the training")]) = 0%nat).
        { rewrite optimizer_steps_app, Ht1. reflexivity. }
        assert (Ht2' : validation_indices (log_path E)
                         (iter_events E model (i s) x' p
                          ++ [EvPrint (Text "end the training")]) = []).
        { rewrite validation_indices_app, Ht2. reflexivity. }
        destruct (Hcount vseg _ Hv1 Hv2 Ht1' Ht2') as [Hs' Hx'].
        unfold exit_outcome. rewrite Hvis, <- Hmax.
        split; [reflexivity |]. split; [lia |]. split; [exact Hs' | exact Hx'].
Qed.

Lemma train_run (E : env) (num_max_steps num_epoch : option Z)
  (files : gmap string node) (p : params) (mode : bool) (total : Z) :
  validation_interval_steps E <> 0 ->
  (forall w, (0 < total_samples (validation_set E w))%nat) ->
  (forall e w1, load_model E (stored_model E) (World files p mode []) <> Raise e w1) ->
  (forall w, total_num_steps E num_max_steps num_epoch w = Ret total w) ->
  total < 2 ^ 1023 ->
  match train E num_max_steps num_epoch (World files p mode []) with
  | Ret _ w' =>
      ~ (0 <= max_train_steps E < total)
      /\ optimizer_steps (trace w') = Z.to_nat total
      /\ validation_indices (log_path E) (trace w')
         = due_indices (validation_interval_steps E) total
  | Raise e w' =>
      e = Py.SystemExit
      /\ 0 <= max_train_steps E < total
      /\ optimizer_steps (trace w') = Z.to_nat (max_train_steps E + 1)
      /\ validation_indices (log_path E) (trace w')
         = due_indices (validation_interval_steps E) (max_train_steps E + 1)
  | OutOfFuel => False
  end.
Proof.
  intros Hiv Hval Hload Htotal Hbig.
  set (w := World files p mode []).
  rewrite train_after_load.
  pose proof (load_model_frame E (stored_model E) w) as Hframe.
  destruct (load_model E (stored_model E) w) as [m w1 | e w1 |] eqn:Hl;
    [| exfalso; exact (Hload e w1 Hl) | contradiction].
  destruct Hframe as (-> & _ & _ & seg & Htr & Hseg). cbn [w trace app] in Htr.
  set (w2 := World (fs w1) (net w1) true (trace w1)).
  rewrite (bind_ret _ _ _ _ _ (Htotal w2)).
  destruct (banner_counts (log_path E) seg Hseg) as (Hb1 & Hb2 & _).
  assert (Hinit : run_invariant E total loop_state0 w2).
  { unfold run_invariant.
    change (i loop_state0) with 0. change (current_step loop_state0) with 0.
    change (Averager.n_count (loss_avg loop_state0)) with 0.
    change (trace w2) with (trace w1).
    rewrite optimizer_steps_visible, validation_indices_visible, Htr, Hb1, Hb2.
    split; [reflexivity |]. split; [lia |]. split; [lia |]. split; [lia |].
    split; reflexivity. }
  assert (Hfuel : total - current_step loop_state0 <= Z.of_nat (Z.to_nat total)).
  { change (current_step loop_state0) with 0. lia. }
  pose proof (train_loop_rule E (DataParallel (the_device E)) total
                (run_invariant E total) (exit_outcome E total)
                (fun s w0 Hinv Hlt => run_body E total s w0 Hiv Hval Hbig Hinv Hlt)
                (Z.to_nat total) loop_state0 w2 Hinit Hfuel) as Hrule.
  destruct (train_loop E (DataParallel (the_device E)) total (Z.to_nat total)
                       loop_state0 w2)
    as [[] w' | e w' |]; [| | contradiction].
  - destruct Hrule as (s' & (Hi & Hrange & Hexit & _ & Hsteps & Hidx) & Hdone).
    rewrite optimizer_steps_visible in Hsteps.
    rewrite validation_indices_visible in Hidx.
    assert (His : i s' = Z.max total 0) by lia.
    rewrite Hsteps, Hidx, His.
    split; [lia |].
    destruct (Z.le_ge_cases 0 total) as [Hpos | Hneg].
    + rewrite Z.max_l by lia. split; reflexivity.
    + rewrite Z.max_r by lia. split.
      * destruct total; try reflexivity; lia.
      * unfold due_indices. rewrite !seqZ_nil by lia. reflexivity.
  - destruct Hrule as (-> & Hmax & Hsteps & Hidx).
    rewrite optimizer_steps_visible in Hsteps.
    rewrite validation_indices_visible in Hidx.
    split; [reflexivity |]. split; [exact Hmax |]. split; assumption.
Qed.

(** X10: a run of [train] whose counter does not meet [max_train_steps]
    within the budget returns after exactly as many optimizer steps as the
    budget says (none for a negative budget), and has appended a
    validation block for exactly the values of the counter below the
    budget that are multiples of the validation interval, in order.  The
    run finds its model and samples to validate on, and the interval is
    not 0. *)
Theorem train_runs_its_budget
  (E : env) (num_max_steps num_epoch : option Z)
  (files : gmap string node) (p : params) (mode : bool) (total : Z) :
  validation_interval_steps E <> 0 ->
  (forall w, (0 < total_samples (validation_set E w))%nat) ->
  (forall e w1, load_model E (stored_model E) (World files p mode []) <> Raise e w1) ->
  (forall w, total_num_steps E num_max_steps num_epoch w = Ret total w) ->
  total < 2 ^ 1023 ->
  ~ (0 <= max_train_steps E < total) ->
  exists w',
    train E num_max_steps num_epoch (World files p mode []) = Ret tt w'
    /\ optimizer_steps (trace w') = Z.to_nat total
    /\ validation_indices (log_path E) (trace w')
       = due_indices (validation_interval_steps E) total.
Proof.
  intros Hiv Hval Hload Htotal Hbig Hmax.
  pose proof (train_run E num_max_steps num_epoch files p mode total
                Hiv Hval Hload Htotal Hbig) as H.
  destruct (train E num_max_steps num_epoch (World files p mode []))
    as [[] w' | e w' |]; [| | contradiction].
  - exists w'. split; [reflexivity | apply H].
  - exfalso. apply Hmax. apply H.
Qed.

(** X11: when the constructor's [max_train_steps] lies within the budget
    ([0 <= max_train_steps < total]), the run does not return: it ends in
    [SystemExit], after [max_train_steps + 1] optimizer steps (the turn of
    [i = max_train_steps] is still taken), having validated at the
    multiples of the interval up to and including [max_train_steps]. *)
Theorem train_exits_after_max_train_steps
  (E : env) (num_max_steps num_epoch : option Z)
  (files : gmap string node) (p : params) (mode : bool) (total : Z) :
  validation_interval_steps E <> 0 ->
  (forall w, (0 < total_samples (validation_set E w))%nat) ->
  (forall e w1, load_model E (stored_model E) (World files p mode []) <> Raise e w1) ->
  (forall w, total_num_steps E num_max_steps num_epoch w = Ret total w) ->
  total < 2 ^ 1023 ->
  0 <= max_train_steps E < total ->
  exists w',
    train E num_max_steps num_epoch (World files p mode []) = Raise Py.SystemExit w'
    /\ optimizer_steps (trace w') = Z.to_nat (max_train_steps E + 1)
    /\ validation_indices (log_path E) (trace w')
       = due_indices (validation_interval_steps E) (max_train_steps E + 1).
Proof.
  intros Hiv Hval Hload Htotal Hbig Hmax.
  pose proof (train_run E num_max_steps num_epoch files p mode total
                Hiv Hval Hload Htotal Hbig) as H.
  destruct (train E num_max_steps num_epoch (World files p mode []))
    as [[] w' | e w' |]; [| | contradiction].
  - exfalso. apply H. exact Hmax.
  - destruct H as (-> & _ & Hsteps & Hidx). exists w'.
    split; [reflexivity |]. split; assumption.
Qed.

(** Two epochs of the toy dataset are ten steps. *)
Lemma train_runs_its_budget_witness :
  exists w',
    train toy_env None (Some 2) (World ∅ [] true []) = Ret tt w'
    /\ optimizer_steps (trace w') = Z.to_nat 10
    /\ validation_indices (log_path toy_env) (trace w')
       = due_indices (validation_interval_steps toy_env) 10.
Proof.
  assert (Hiv : validation_interval_steps toy_env <> 0) by discriminate.
  assert (Hval : forall w, (0 < total_samples (validation_set toy_env w))%nat).
  { intros w. cbn. lia. }
  assert (Hload : forall e w1,
             load_model toy_env (stored_model toy_env) (World ∅ [] true []) <> Raise e w1).
  { intros e w1 H. vm_compute in H. discriminate H. }
  assert (Htotal : forall w, total_num_steps toy_env None (Some 2) w = Ret 10 w).
  { intros w. reflexivity. }
  assert (Hbig : 10 < 2 ^ 1023) by reflexivity.
  assert (Hmax : ~ (0 <= max_train_steps toy_env < 10)).
  { cbn. lia. }
  exact (train_runs_its_budget toy_env None (Some 2) ∅ [] true 10
           Hiv Hval Hload Htotal Hbig Hmax).
Defined.

Lemma train_exits_after_max_train_steps_witness :
  exists w',
    train exit_env (Some 10) None (World ∅ [] true []) = Raise Py.SystemExit w'
    /\ optimizer_steps (trace w') = Z.to_nat (max_train_steps exit_env + 1)
    /\ validation_indices (log_path exit_env) (trace w')
       = due_indices (validation_interval_steps exit_env) (max_train_steps exit_env + 1).
Proof.
  assert (Hiv : validation_interval_steps exit_env <> 0) by discriminate.
  assert (Hval : forall w, (0 < total_samples (validation_set exit_env w))%nat).
  { intros w. cbn. lia. }
  assert (Hload : forall e w1,
             load_model exit_env (stored_model exit_env) (World ∅ [] true [])
             <> Raise e w1).
  { intros e w1 H. vm_compute in H. discriminate H. }
  assert (Htotal : forall w, total_num_steps exit_env (Some 10) None w = Ret 10 w).
  { intros w. reflexivity. }
  assert (Hbig : 10 < 2 ^ 1023) by reflexivity.
  assert (Hmax : 0 <= max_train_steps exit_env < 10).
  { cbn. lia. }
  exact (train_exits_after_max_train_steps exit_env (Some 10) None ∅ [] true 10
           Hiv Hval Hload Htotal Hbig Hmax).
Defined.

(** ** The bests a run prints *)

Lemma best_lines_app (a b : list event) :
  best_lines (a ++ b) = best_lines a ++ best_lines b.
Proof. apply omap_app. Qed.

Lemma valid_lines_app (a b : list event) :
  valid_lines (a ++ b) = valid_lines a ++ valid_lines b.
Proof. apply omap_app. Qed.

Lemma best_lines_visible (tr : list event) : best_lines (visible tr) = best_lines tr.
Proof. apply omap_visible. reflexivity. Qed.

Lemma valid_lines_visible (tr : list event) : valid_lines (visible tr) = valid_lines tr.
Proof. apply omap_visible. reflexivity. Qed.

Lemma running_bests_app (b : pyfloat * pyfloat) (l1 l2 : list (pyfloat * pyfloat)) :
  running_bests b (l1 ++ l2)
  = running_bests b l1 ++ running_bests (fold_left better l1 b) l2.
Proof.
  revert b. induction l1 as [| r l1 IH]; intros b; [reflexivity |].
  cbn [app running_bests fold_left]. rewrite IH. reflexivity.
Qed.

Lemma better_finite (b r : pyfloat * pyfloat) :
  finite_pair b = true -> finite_pair (better b r) = true.
Proof.
  unfold finite_pair, better. intros H. apply andb_true_iff in H. destruct H as [Ha Hn].
  cbn [fst snd].
  destruct (F.gtb (fst r) (fst b)) eqn:Hgt; destruct (F.ltb (snd r) (snd b)) eqn:Hlt;
    try (destruct (ltb_leb _ _ Hgt) as (_ & _ & ->));
    try (destruct (ltb_leb _ _ Hlt) as (_ & -> & _));
    rewrite ?Ha, ?Hn; reflexivity.
Qed.

Lemma running_bests_finite (b : pyfloat * pyfloat) (rs : list (pyfloat * pyfloat)) :
  finite_pair b = true -> forallb finite_pair (running_bests b rs) = true.
Proof.
  revert b. induction rs as [| r rs IH]; intros b Hb; [reflexivity |].
  cbn [running_bests forallb].
  rewrite (better_finite b r Hb), (IH _ (better_finite b r Hb)). reflexivity.
Qed.

Lemma quiet_app (a b : list event) : quiet a -> quiet b -> quiet (a ++ b).
Proof.
  intros [Ha1 Ha2] [Hb1 Hb2]. unfold quiet.
  rewrite best_lines_app, valid_lines_app, Ha1, Ha2, Hb1, Hb2. split; reflexivity.
Qed.

Lemma quiet_step (s : loop_state) : quiet (step_events s).
Proof. split; reflexivity. Qed.

Lemma quiet_loss (E : env) (s : loop_state) : quiet (loss_events E s).
Proof. split; reflexivity. Qed.

Lemma quiet_iter (E : env) (model : module_ref) (k x : Z) (p : params) :
  quiet (iter_events E model k x p).
Proof. unfold iter_events. destruct (x mod 100000 =? 0); split; reflexivity. Qed.

Lemma quiet_banner (seg : list event) : forallb is_banner seg = true -> quiet seg.
Proof.
  induction seg as [| e seg IH]; [split; reflexivity |]. cbn [forallb].
  intros H. apply andb_true_iff in H. destruct H as [He Hseg].
  destruct (IH Hseg) as [H1 H2].
  destruct e as [[txt | cs | k m l | k m vl a n | a n | m ps] | | | |];
    try discriminate He; split; assumption.
Qed.

(** A stretch that prints the bests of its own rounds, from the bests so
    far on, keeps the whole trace in step. *)
Lemma bests_extend (tr seg : list event) (b b' : pyfloat * pyfloat) :
  best_lines tr = running_bests first_bests (valid_lines tr) ->
  fold_left better (valid_lines tr) first_bests = b ->
  best_lines seg = running_bests b (valid_lines seg) ->
  fold_left better (valid_lines seg) b = b' ->
  best_lines (tr ++ seg) = running_bests first_bests (valid_lines (tr ++ seg))
  /\ fold_left better (valid_lines (tr ++ seg)) first_bests = b'.
Proof.
  intros Htr Hb Hseg Hb'.
  rewrite best_lines_app, valid_lines_app, running_bests_app, fold_left_app, Htr, Hb, Hseg.
  split; [reflexivity | exact Hb'].
Qed.

Lemma bests_quiet (tr seg : list event) (b : pyfloat * pyfloat) :
  best_lines tr = running_bests first_bests (valid_lines tr) ->
  fold_left better (valid_lines tr) first_bests = b ->
  quiet seg ->
  best_lines (tr ++ seg) = running_bests first_bests (valid_lines (tr ++ seg))
  /\ fold_left better (valid_lines (tr ++ seg)) first_bests = b.
Proof.
  intros Htr Hb [Hq1 Hq2].
  apply (bests_extend tr seg b b Htr Hb); rewrite ?Hq1, Hq2; reflexivity.
Qed.

Lemma bests_round (E : env) (model : module_ref) (s : loop_state) (r : vresult)
  (p : params) :
  best_lines (round_events E model s r p)
  = running_bests (best_accuracy s, best_norm_ed s)
                  (valid_lines (round_events E model s r p))
  /\ fold_left better (valid_lines (round_events E model s r p))
                (best_accuracy s, best_norm_ed s)
     = (round_best_accuracy s r, round_best_norm_ed s r).
Proof.
  unfold round_events.
  destruct (F.gtb (r_accuracy r) (best_accuracy s));
    destruct (F.ltb (r_norm_ED r) (best_norm_ed s)); split; reflexivity.
Qed.

Lemma bests_validation_outcome (E : env) (model : module_ref) (s1 s2 : loop_state)
  (p : params) (vseg : list event) :
  validation_outcome E model s1 p s2 vseg ->
  F.is_fin (best_accuracy s1) = true ->
  F.is_fin (best_norm_ed s1) = true ->
  0 <= Averager.n_count (loss_avg s1) ->
  best_lines vseg
  = running_bests (best_accuracy s1, best_norm_ed s1) (valid_lines vseg)
  /\ fold_left better (valid_lines vseg) (best_accuracy s1, best_norm_ed s1)
     = (best_accuracy s2, best_norm_ed s2)
  /\ F.is_fin (best_accuracy s2) = true
  /\ F.is_fin (best_norm_ed s2) = true
  /\ 0 <= Averager.n_count (loss_avg s2)
  /\ current_step s2 = current_step s1.
Proof.
  intros [_ [(_ & -> & ->) | (_ & r & w0 & _ & -> & ->)]] Ha Hn Hc.
  - repeat split; assumption.
  - destruct (observe_round E model s1 r p Ha Hn) as (_ & Ha' & Hn').
    destruct (bests_round E model s1 r p) as [H1 H2].
    cbn [round_state best_accuracy best_norm_ed loss_avg current_step].
    split; [exact H1 |]. split; [exact H2 |]. split; [exact Ha' |].
    split; [exact Hn' |]. split; [cbn; lia | reflexivity].
Qed.

Lemma bests_body (E : env) (model : module_ref) (s : loop_state) (w : world) :
  bests_invariant s w ->
  match train_body E model s w with
  | Ret s' w' => bests_invariant s' w' /\ current_step s' = current_step s + 1
  | Raise _ w' => bests_outcome w'
  | OutOfFuel => False
  end.
Proof.
  intros (Hb & Hf & Ha & Hn & Hc).
  destruct (train_body_events E model s w Hc) as (cost & p & Hbody). cbv zeta in Hbody.
  assert (Hc1 : 0 <= Averager.n_count (loss_avg (trained s cost))) by (cbn; lia).
  destruct (bests_quiet _ _ _ Hb Hf (quiet_step s)) as [Hb1 Hf1].
  assert (Hval : forall s2 vseg,
             validation_outcome E model (trained s cost) p s2 vseg ->
             (best_lines ((visible (trace w) ++ step_events s) ++ vseg)
              = running_bests first_bests
                  (valid_lines ((visible (trace w) ++ step_events s) ++ vseg))
              /\ fold_left better
                   (valid_lines ((visible (trace w) ++ step_events s) ++ vseg)) first_bests
                 = (best_accuracy s2, best_norm_ed s2))
             /\ F.is_fin (best_accuracy s2) = true
             /\ F.is_fin (best_norm_ed s2) = true
             /\ 0 <= Averager.n_count (loss_avg s2)
             /\ current_step s2 = current_step s).
  { intros s2 vseg Hcase.
    destruct (bests_validation_outcome E model _ _ _ _ Hcase Ha Hn Hc1)
      as (Hv1 & Hv2 & Ha2 & Hn2 & Hc2 & Hcs).
    split; [exact (bests_extend _ _ _ _ Hb1 Hf1 Hv1 Hv2) |].
    repeat split; assumption. }
  destruct (train_body E model s w) as [s' w' | e w' |]; [| | exact Hbody].
  - destruct Hbody as (s2 & vseg & x & Hcase & _ & _ & -> & <- & Hvis).
    destruct (Hval s2 vseg Hcase) as ([Hv1 Hv2] & Ha2 & Hn2 & Hc2 & Hcs).
    destruct (bests_quiet _ _ _ Hv1 Hv2 (quiet_iter E model (i s) x (net w'))) as [Hi1 Hi2].
    split; [| cbn; lia].
    unfold bests_invariant. rewrite Hvis.
    replace (visible (trace w) ++ step_events s ++ vseg
             ++ iter_events E model (i s) x (net w'))
      with (((visible (trace w) ++ step_events s) ++ vseg)
            ++ iter_events E model (i s) x (net w'))
      by (rewrite <- !app_assoc; reflexivity).
    split; [exact Hi1 |]. split; [exact Hi2 |]. repeat split; assumption.
  - unfold bests_outcome.
    destruct Hbody as [(_ & _ & Hvis) | [(_ & _ & _ & _ & Hvis) | Hbody]].
    + rewrite Hvis. exact Hb1.
    + rewrite Hvis, app_assoc.
      exact (proj1 (bests_quiet _ _ _ Hb1 Hf1 (quiet_loss E (trained s cost)))).
    + destruct Hbody as (s2 & vseg & Hcase & [(_ & _ & Hvis) | (x & _ & _ & _ & Hvis)]);
        destruct (Hval s2 vseg Hcase) as ([Hv1 Hv2] & _).
      * rewrite Hvis, app_assoc. exact Hv1.
      * rewrite Hvis.
        replace (visible (trace w) ++ step_events s ++ vseg
                 ++ iter_events E model (i s) x p
                 ++ [EvPrint (Text "end the training")])
          with (((visible (trace w) ++ step_events s) ++ vseg)
                ++ iter_events E model (i s) x p
                ++ [EvPrint (Text "end the training")])
          by (rewrite <- !app_assoc; reflexivity).
        apply (bests_quiet _ _ _ Hv1 Hv2).
        apply quiet_app; [apply quiet_iter | split; reflexivity].
Qed.

Lemma train_bests (E : env) (num_max_steps num_epoch : option Z) (w : world) :
  trace w = [] ->
  match train E num_max_steps num_epoch w with
  | Ret _ w' | Raise _ w' => bests_outcome w'
  | OutOfFuel => False
  end.
Proof.
  intros Hempty. unfold train.
  rewrite (bind_ret (assert_ (config_assertion num_max_steps num_epoch)) _ w w tt eq_refl).
  pose proof (load_model_frame E (stored_model E) w) as Hload.
  destruct (load_model E (stored_model E) w) as [m w1 | e w1 |] eqn:Hl;
    [| | contradiction].
  - destruct Hload as (-> & _ & _ & seg & Htr & Hseg).
    rewrite Hempty in Htr. cbn [app] in Htr.
    rewrite (bind_ret _ _ _ _ _ Hl).
    rewrite (bind_ret (set_training true) _ w1
               (World (fs w1) (net w1) true (trace w1)) tt eq_refl).
    set (w2 := World (fs w1) (net w1) true (trace w1)).
    destruct (quiet_banner seg Hseg) as [Hq1 Hq2].
    assert (Hstart : bests_invariant loop_state0 w2).
    { unfold bests_invariant. cbn [w2 trace].
      rewrite best_lines_visible, valid_lines_visible, Htr, Hq1, Hq2.
      repeat split. cbn. lia. }
    pose proof (total_num_steps_frame E num_max_steps num_epoch w2) as Htotal.
    destruct (total_num_steps E num_max_steps num_epoch w2) as [total w3 | e w3 |] eqn:Ht;
      [| | contradiction]; subst w3.
    2: { rewrite (bind_raise _ _ _ _ _ Ht). exact (proj1 Hstart). }
    rewrite (bind_ret _ _ _ _ _ Ht).
    assert (Hfuel : total - current_step loop_state0 <= Z.of_nat (Z.to_nat total)).
    { cbn [loop_state0 current_step]. lia. }
    pose proof (train_loop_rule E (DataParallel (the_device E)) total
                  bests_invariant (fun _ w' => bests_outcome w')
                  (fun s w0 Hinv _ => bests_body E _ s w0 Hinv)
                  (Z.to_nat total) loop_state0 w2 Hstart Hfuel) as Hrule.
    destruct (train_loop _ _ _ _ _ w2) as [[] w' | e w' |];
      [| exact Hrule | exact Hrule].
    destruct Hrule as (s' & (Hrun & _) & _). exact Hrun.
  - destruct Hload as (_ & _ & seg & Htr & Hseg).
    rewrite Hempty in Htr. cbn [app] in Htr.
    rewrite (bind_raise _ _ _ _ _ Hl).
    destruct (quiet_banner seg Hseg) as [Hq1 Hq2].
    unfold bests_outcome.
    rewrite best_lines_visible, valid_lines_visible, Htr, Hq1, Hq2. reflexivity.
Qed.

(** X12: in every run of [train], whether it returns, exits or fails, the
    bests it prints are, round after round, the running best of the
    rounds' own metrics as it printed them: starting from an accuracy of
    -1 and an edit distance of 1e+6, an accuracy replaces the best exactly
    when it is strictly greater and an edit distance exactly when it is
    strictly smaller.  None of the printed bests is NaN, whatever the
    model reports: a NaN metric compares false and is never taken. *)
Theorem printed_bests_are_running_bests
  (E : env) (num_max_steps num_epoch : option Z)
  (files : gmap string node) (p : params) (mode : bool) :
  match train E num_max_steps num_epoch (World files p mode []) with
  | Ret _ w' | Raise _ w' =>
      best_lines (trace w') = running_bests first_bests (valid_lines (trace w'))
      /\ forallb finite_pair (best_lines (trace w')) = true
  | OutOfFuel => False
  end.
Proof.
  pose proof (train_bests E num_max_steps num_epoch (World files p mode []) eq_refl) as H.
  assert (Hfin : forall w', bests_outcome w' ->
            best_lines (trace w') = running_bests first_bests (valid_lines (trace w'))
            /\ forallb finite_pair (best_lines (trace w')) = true).
  { intros w' Hw. unfold bests_outcome in Hw.
    rewrite best_lines_visible, valid_lines_visible in Hw.
    split; [exact Hw |]. rewrite Hw. apply running_bests_finite. reflexivity. }
  destruct (train E num_max_steps num_epoch (World files p mode [])) as [[] w' | e w' |];
    [| | exact H]; apply Hfin; exact H.
Qed.

(** ** What the constructor prints *)

Lemma init_parameters_trace (T : Torch.init_lib) (ps : params) (w : world) :
  exists w',
    init_parameters T ps w
    = Ret (map (fun np => (fst np, fst (init_parameter T (fst np) (snd np)))) ps) w'
    /\ fs w' = fs w /\ net w' = net w /\ training w' = training w
    /\ trace w'
       = trace w
         ++ map (fun np => EvPrint (skip_line (fst np)))
                (List.filter (fun np => Py.contains skip_marker (fst np)) ps).
Proof.
  revert w. induction ps as [| [name param] ps IH]; intros w;
    cbn [init_parameters map List.filter fst snd].
  - exists w. rewrite app_nil_r. repeat split.
  - unfold init_parameter.
    destruct (Py.contains skip_marker name) eqn:Hskip.
    + unfold bind at 1. cbn [print emit].
      destruct (IH (World (fs w) (net w) (training w)
                          (trace w ++ [EvPrint (skip_line name)])))
        as (w' & Hrun & Hfs & Hnet & Hmode & Htr).
      exists w'. unfold bind. fold (skip_line name). rewrite Hrun. cbn [fst].
      split; [reflexivity |]. split; [exact Hfs |]. split; [exact Hnet |].
      split; [exact Hmode |]. rewrite Htr. cbn [trace map fst].
      rewrite <- app_assoc. reflexivity.
    + destruct (IH w) as (w' & Hrun & Hfs & Hnet & Hmode & Htr).
      exists w'.
      destruct (if Py.contains "bias" name
                then Torch.constant_ T param (F.of_Z 0)
                else if Py.contains "weight" name
                     then Torch.kaiming_normal_ T param else inr param) as [e | param'];
        [destruct (Py.contains "weight" name) |];
        unfold bind, ret; rewrite Hrun; cbn [fst];
        (split; [reflexivity |]); repeat split; assumption.
Qed.

(** X13: the weight-initialization loop of the constructor always
    completes, and prints exactly one line
    [Skip <name> as it is already initialized] for each parameter whose
    name contains [localization_fc2], in the order of
    [named_parameters()], and nothing else; a failing initializer is
    swallowed without a line.  The parameters keep their names and their
    order, and the mode of the model and the files are as they were. *)
Theorem init_weights_prints_skips (T : Torch.init_lib) (w : world) :
  exists w',
    init_weights T w = Ret tt w'
    /\ trace w'
       = trace w
         ++ map (fun np => EvPrint (skip_line (fst np)))
                (List.filter (fun np => Py.contains skip_marker (fst np)) (net w))
    /\ map fst (net w') = map fst (net w)
    /\ training w' = training w
    /\ fs w' = fs w.
Proof.
  unfold init_weights, bind, get_world.
  destruct (init_parameters_trace T (net w) w) as (w' & -> & Hfs & Hnet & Hmode & Htr).
  eexists. split; [reflexivity |]. cbn [trace net training fs].
  split; [exact Htr |]. split; [| split; assumption].
  rewrite map_map. cbn [fst]. reflexivity.
Qed.

(** ** What [predict_directory] prints *)

Lemma batch_lines_length (b : sbatch) : length (batch_lines b) = batch_line_count b.
Proof.
  unfold batch_lines, batch_line_count.
  rewrite length_app, length_map, length_combine. reflexivity.
Qed.

Lemma batches_length (bs : list sbatch) :
  length (concat (map batch_lines bs)) = list_sum (map batch_line_count bs).
Proof.
  induction bs as [| b bs IH]; [reflexivity |].
  cbn [map concat list_sum]. rewrite length_app, batch_lines_length, IH.
  unfold list_sum. reflexivity.
Qed.

(** X14: when the model loads, [predict_directory] returns with the model
    in evaluation mode and with the parameters [load_model] left; after
    what [load_model] printed, it prints for each batch the three header
    lines and one line per pair of [zip(image_path_list, preds_str)], so
    [3 + min (number of paths) (number of predictions)] lines: images
    beyond the predictions, and predictions beyond the images, are dropped
    without an error. *)
Theorem predict_directory_output
  (E : env) (in_path out_path : string) (w w1 : world) (m : module_ref) :
  load_model E (stored_model E) w = Ret m w1 ->
  exists w',
    predict_directory E in_path out_path w = Ret tt w'
    /\ training w' = false
    /\ net w' = net w1
    /\ fs w' = fs w
    /\ (exists seg,
          trace w' = trace w1 ++ seg
          /\ forallb is_print seg = true
          /\ length seg = list_sum (map batch_line_count (serving_set E in_path w1))).
Proof.
  intros Hload.
  pose proof (load_model_frame E (stored_model E) w) as Hframe.
  rewrite Hload in Hframe. destruct Hframe as (_ & Hfs & _).
  unfold predict_directory. rewrite (bind_ret _ _ _ _ _ Hload).
  run_monad. rewrite predict_batches_spec. cbn [fs net training trace].
  eexists. split; [reflexivity |]. cbn [fs net training trace].
  split; [reflexivity |]. split; [reflexivity |]. split; [exact Hfs |].
  eexists. split; [reflexivity |]. split; [apply forallb_is_print_map |].
  rewrite length_map. apply batches_length.
Qed.

(** Two images, one prediction: one line after the header. *)
Lemma predict_directory_output_witness :
  exists w',
    predict_directory short_env "in" "out" toy_world = Ret tt w'
    /\ training w' = false
    /\ net w' = net (World ∅ [] true
                           [EvPrint (Text "Model:"); EvPrint (ModelDump (DataParallel cpu) [])])
    /\ fs w' = fs toy_world
    /\ (exists seg,
          trace w' = trace (World ∅ [] true
                                  [EvPrint (Text "Model:");
                                   EvPrint (ModelDump (DataParallel cpu) [])]) ++ seg
          /\ forallb is_print seg = true
          /\ length seg
             = list_sum (map batch_line_count
                             (serving_set short_env "in"
                                (World ∅ [] true
                                       [EvPrint (Text "Model:");
                                        EvPrint (ModelDump (DataParallel cpu) [])])))).
Proof.
  assert (Hload : load_model short_env (stored_model short_env) toy_world
                  = Ret (DataParallel cpu)
                        (World ∅ [] true
                               [EvPrint (Text "Model:");
                                EvPrint (ModelDump (DataParallel cpu) [])])).
  { reflexivity. }
  exact (predict_directory_output short_env "in" "out" toy_world _ _ Hload).
Defined.
